(** * stock-docs: filing selection, exhibit triage and audit CSV

    A shallow embedding of the selection and triage core of the SEC pack
    builder ([lib/sec.ts] and the [GET] handler of the pack route), with
    the properties the specification states about it.

    Modelling conventions.
    - JavaScript strings are [string] (the ASCII fragment: [trim] strips
      the ASCII white space, [toUpperCase] maps a-z).
    - JavaScript numbers that are integers by construction (time values in
      milliseconds, byte lengths, counters, [daysBack] inside the selector)
      are [Z]; on them the binary64 arithmetic of the source is exact.
    - A [Date] object is [option Z]: its time value, [None] for an
      Invalid Date (whose time value is NaN, so that every comparison with
      it is false).
    - A JavaScript number that need not be an integer (a parsed size, a
      query parameter) is a [JsNum.number].
    - Built-ins of the platform whose result the program merely consumes
      ([Date] parsing of a string, [parseFloat], [Number], the clock, the
      network) are section variables; concrete instances are given for
      evaluation. *)

From stdpp Require Import gmap strings.
From Stdlib Require Import ZArith QArith List String Ascii Bool Lia Permutation.
From Stdlib Require Import DecimalString DecimalPos.
Import ListNotations.

Open Scope Z_scope.
Open Scope string_scope.

#[local] Arguments String.append !_ _ / : simpl nomatch.
#[local] Set Default Proof Using "Type".
#[local] Set Proof Using Clear Unused.

(** ** Strings *)

Module Str.

(** White space removed by [String.prototype.trim] (ASCII part). *)
Definition isWhiteSpace (c : ascii) : bool :=
  let n := nat_of_ascii c in
  Nat.eqb n 32 || (Nat.leb 9 n && Nat.leb n 13).

Fixpoint trimStart (s : string) : string :=
  match s with
  | String c r => if isWhiteSpace c then trimStart r else s
  | EmptyString => EmptyString
  end.

Fixpoint trimEnd (s : string) : string :=
  match s with
  | String c r =>
      match trimEnd r with
      | EmptyString => if isWhiteSpace c then EmptyString else String c EmptyString
      | r' => String c r'
      end
  | EmptyString => EmptyString
  end.

Definition trim (s : string) : string := trimEnd (trimStart s).

Definition upperChar (c : ascii) : ascii :=
  let n := nat_of_ascii c in
  if Nat.leb 97 n && Nat.leb n 122 then ascii_of_nat (n - 32) else c.

Fixpoint toUpperCase (s : string) : string :=
  match s with
  | String c r => String (upperChar c) (toUpperCase r)
  | EmptyString => EmptyString
  end.

Definition startsWith (s p : string) : bool := String.prefix p s.

Definition lowerChar (c : ascii) : ascii :=
  let n := nat_of_ascii c in
  if Nat.leb 65 n && Nat.leb n 90 then ascii_of_nat (n + 32) else c.

Fixpoint toLowerCase (s : string) : string :=
  match s with
  | String c r => String (lowerChar c) (toLowerCase r)
  | EmptyString => EmptyString
  end.

(** [s.includes(p)] *)
Fixpoint includes (p s : string) : bool :=
  String.prefix p s ||
  match s with
  | String _ r => includes p r
  | EmptyString => false
  end.

(** [s.replace(/x/g, by)] for a single character [x]. *)
Fixpoint replaceChar (x : ascii) (by_ : string) (s : string) : string :=
  match s with
  | String c r =>
      if Ascii.eqb c x then by_ ++ replaceChar x by_ r
      else String c (replaceChar x by_ r)
  | EmptyString => EmptyString
  end.

Definition digit (c : ascii) : option Z :=
  let n := nat_of_ascii c in
  if Nat.leb 48 n && Nat.leb n 57 then Some (Z.of_nat (n - 48)) else None.

(** [String(n)] for an integer [n] (plain decimal, below 1e21). *)
Definition ofZ (n : Z) : string := NilZero.string_of_int (Z.to_int n).

(** The decimal digits that start [s]: their value after [acc], how
    many, and what follows. *)
Fixpoint digitsOf (acc : Z) (s : string) : Z * nat * string :=
  match s with
  | String c r =>
      match digit c with
      | Some d => let '(v, n, rest) := digitsOf (10 * acc + d) r in (v, S n, rest)
      | None => (acc, O, s)
      end
  | EmptyString => (acc, O, s)
  end.

(** [String(parseInt(s, 10))] *)
Definition parseIntString (s : string) : string :=
  let t := trimStart s in
  let '(negative, r) :=
    match t with
    | String "-"%char r => (true, r)
    | String "+"%char r => (false, r)
    | _ => (false, t)
    end in
  let '(v, n, _) := digitsOf 0 r in
  if Nat.eqb n 0 then "NaN" else ofZ (if negative then - v else v).

(** A JavaScript string is falsy exactly when it is empty. *)
Definition truthy (s : string) : bool := negb (s =? "").

Fixpoint join (sep : string) (l : list string) : string :=
  match l with
  | [] => ""
  | [x] => x
  | x :: r => x ++ sep ++ join sep r
  end.

End Str.

(** ** Data model ([lib/sec.ts]) *)

Record Filing := mkFiling {
  form : string;
  accessionNumber : string;
  filingDate : string;
  primaryDocument : string
}.

Record SelectedFiling := mkSelected {
  filing : Filing;
  reason : string
}.

Definition normForm (form : string) : string := Str.toUpperCase (Str.trim form).

Definition isS3 (form : string) : bool :=
  let f := normForm form in
  (f =? "S-3") || (f =? "S-3/A") || (f =? "S-3MEF") || (f =? "S-3ASR").

Definition isProxy (form : string) : bool :=
  let f := normForm form in
  (f =? "DEF 14A") || (f =? "DEFA14A") || (f =? "DEF 14C") || (f =? "PRE 14C").

Definition isProspectus (form : string) : bool :=
  let f := normForm form in
  Str.startsWith f "424B" || (f =? "424B5") || (f =? "424B3") || (f =? "424B2").

(** ** Dates *)

Module JsDate.

(** A Date object: its time value in milliseconds, [None] when invalid. *)
Definition t := option Z.

Definition maxTime : Z := 8640000000000000.
Definition msPerDay : Z := 24 * 60 * 60 * 1000.

(** [new Date(n)] for an integral number [n]: TimeClip. *)
Definition ofTime (n : Z) : t :=
  if (Z.abs n <=? maxTime)%Z then Some n else None.

(** [a <= b] and [a >= b] on Date objects: a comparison of time values,
    false as soon as one of them is NaN. *)
Definition le (a b : t) : bool :=
  match a, b with
  | Some x, Some y => (x <=? y)%Z
  | _, _ => false
  end.

Definition ge (a b : t) : bool := le b a.

End JsDate.

(** A concrete reading of date strings, for evaluation: the date-only ISO
    form [YYYY-MM-DD], taken as midnight UTC. *)
Module IsoDate.

Fixpoint digits (acc : Z) (l : list ascii) : option Z :=
  match l with
  | [] => Some acc
  | c :: r => match Str.digit c with
              | Some d => digits (10 * acc + d) r
              | None => None
              end
  end.

Definition isLeap (y : Z) : bool :=
  (Z.eqb (y mod 4) 0 && negb (Z.eqb (y mod 100) 0)) || Z.eqb (y mod 400) 0.

Definition daysInMonth (y m : Z) : Z :=
  if Z.eqb m 2 then (if isLeap y then 29 else 28)
  else if Z.eqb m 4 || Z.eqb m 6 || Z.eqb m 9 || Z.eqb m 11 then 30 else 31.

(** Days from 1970-01-01 to the civil date [y-m-d]. *)
Definition daysFromCivil (y m d : Z) : Z :=
  let y' := if (m <=? 2)%Z then y - 1 else y in
  let era := y' / 400 in
  let yoe := y' - era * 400 in
  let mp := (m + 9) mod 12 in
  let doy := (153 * mp + 2) / 5 + d - 1 in
  let doe := yoe * 365 + yoe / 4 - yoe / 100 + doy in
  era * 146097 + doe - 719468.

Definition parse (s : string) : JsDate.t :=
  match list_ascii_of_string s with
  | [y1; y2; y3; y4; "-"%char; m1; m2; "-"%char; d1; d2] =>
      match digits 0 [y1; y2; y3; y4], digits 0 [m1; m2], digits 0 [d1; d2] with
      | Some y, Some m, Some d =>
          if ((1 <=? m) && (m <=? 12) && (1 <=? d) && (d <=? daysInMonth y m))%Z
          then Some (daysFromCivil y m d * JsDate.msPerDay)
          else None
      | _, _, _ => None
      end
  | _ => None
  end.

End IsoDate.

(** ** Filing selector ([pickFilingsPackWithReasons]) *)

Section Selector.

(** [new Date(s)] for a string [s]. *)
Variable Date_parse : string -> JsDate.t.

(** The clock read by [new Date()]. *)
Variable now : Z.

(** [asOf ? new Date(asOf) : new Date()] *)
Definition asOfDate (asOf : option string) : JsDate.t :=
  match asOf with
  | Some s => if Str.truthy s then Date_parse s else Some now
  | None => Some now
  end.

(** [new Date(asOfDate.getTime() - daysBack * 24 * 60 * 60 * 1000)] *)
Definition cutoff (daysBack : Z) (asOf : option string) : JsDate.t :=
  match asOfDate asOf with
  | Some a => JsDate.ofTime (a - daysBack * JsDate.msPerDay)
  | None => None
  end.

Definition onOrBefore (asOf : option string) (f : Filing) : bool :=
  let d := Date_parse (filingDate f) in
  JsDate.le d (asOfDate asOf).

Definition withinWindow (daysBack : Z) (asOf : option string) (f : Filing) : bool :=
  let d := Date_parse (filingDate f) in
  JsDate.ge d (cutoff daysBack asOf) && JsDate.le d (asOfDate asOf).

Definition eligible (filings : list Filing) (asOf : option string) : list Filing :=
  List.filter (onOrBefore asOf) filings.

(** [if (x) sel.push({ filing: x, reason })] for the result [x] of a [find]. *)
Definition pushFound (x : option Filing) (reason : string) : list SelectedFiling :=
  match x with
  | Some f => [mkSelected f reason]
  | None => []
  end.

(** [l.forEach((f, i) => sel.push({ filing: f, reason: r(i) }))], from index [i]. *)
Fixpoint pushIndexed (r : nat -> string) (i : nat) (l : list Filing) : list SelectedFiling :=
  match l with
  | [] => []
  | f :: rest => mkSelected f (r i) :: pushIndexed r (S i) rest
  end.

Definition reason10Q (i : nat) : string :=
  "10-Q (top 2) #" ++ Str.ofZ (Z.of_nat i + 1).

Definition reason8K (daysBack : Z) : string :=
  "8-K within " ++ Str.ofZ daysBack ++ "d".

Definition reasonForm4 (daysBack : Z) : string :=
  "Form 4 within " ++ Str.ofZ daysBack ++ "d".

(** The 8-K window rule: the filings it pushes. *)
Definition window8K (filings : list Filing) (daysBack : Z) (asOf : option string)
  : list Filing :=
  List.filter (fun f => (normForm (form f) =? "8-K") && withinWindow daysBack asOf f)
              (eligible filings asOf).

(** The array [sel] just before deduplication: the pushes of the rules,
    in the order of the source. *)
Definition candidates (filings : list Filing) (daysBack : Z) (asOf : option string)
  : list SelectedFiling :=
  let el := eligible filings asOf in
  pushFound (List.find (fun f => normForm (form f) =? "10-K") el) "latest 10-K"
  ++ pushIndexed reason10Q 0
       (firstn 2 (List.filter (fun f => normForm (form f) =? "10-Q") el))
  ++ List.map (fun f => mkSelected f (reason8K daysBack)) (window8K filings daysBack asOf)
  ++ pushFound (List.find (fun f => isS3 (form f)) el) "latest S-3/S-3A"
  ++ pushFound (List.find (fun f => isProspectus (form f)) el) "latest 424B*"
  ++ pushFound (List.find (fun f => normForm (form f) =? "EFFECT") el) "latest EFFECT"
  ++ pushFound (List.find (fun f => isProxy (form f)) el) "latest Proxy"
  ++ pushFound (List.find (fun f => normForm (form f) =? "S-8") el) "latest S-8"
  ++ List.map (fun f => mkSelected f (reasonForm4 daysBack))
       (List.filter (fun f => (normForm (form f) =? "4") && withinWindow daysBack asOf f) el).

(** [sel.filter(...)] with the set [seen] of accession numbers. *)
Fixpoint dedupByAccession (seen : gset string) (sel : list SelectedFiling)
  : list SelectedFiling :=
  match sel with
  | [] => []
  | x :: rest =>
      if decide (accessionNumber (filing x) ∈ seen)
      then dedupByAccession seen rest
      else x :: dedupByAccession ({[accessionNumber (filing x)]} ∪ seen) rest
  end.

Definition pickFilingsPackWithReasons
    (filings : list Filing) (daysBack : Z) (asOf : option string)
  : list SelectedFiling :=
  dedupByAccession ∅ (candidates filings daysBack asOf).

Definition pickFilingsPack (filings : list Filing) (daysBack : Z) (asOf : option string)
  : list Filing :=
  List.map filing (pickFilingsPackWithReasons filings daysBack asOf).

End Selector.

(** ** Regular expressions of the source

    Each pattern of the source is written as a matcher at the start of a
    string, returning what the source reads from the match together with
    the length of the match; [search], [matchAll] and [replaceAll] move
    the matcher along the string the way [match], [matchAll] and a global
    [replace] do.  No pattern of the source matches the empty string. *)

Module Rx.

Definition quote : ascii := "034"%char.

Definition eqCI (a b : ascii) : bool :=
  Ascii.eqb (Str.upperChar a) (Str.upperChar b).

(** [p] matches at the start of [s], ignoring case. *)
Fixpoint prefixCI (p s : string) : bool :=
  match p, s with
  | EmptyString, _ => true
  | String a p', String b s' => eqCI a b && prefixCI p' s'
  | String _ _, EmptyString => false
  end.

Fixpoint drop (n : nat) (s : string) : string :=
  match n, s with
  | O, _ => s
  | S k, String _ r => drop k r
  | S _, EmptyString => EmptyString
  end.

Definition take (n : nat) (s : string) : string := String.substring 0 n s.

(** Offset of the first occurrence of [p] in [s], ignoring case. *)
Fixpoint indexOfCI (p s : string) : option nat :=
  if prefixCI p s then Some O
  else match s with
       | String _ r => option_map S (indexOfCI p r)
       | EmptyString => None
       end.

(** Length of the longest prefix of [s] made of characters in [ok]. *)
Fixpoint spanLen (ok : ascii -> bool) (s : string) : nat :=
  match s with
  | String c r => if ok c then S (spanLen ok r) else O
  | EmptyString => O
  end.

Definition notChar (x : ascii) (c : ascii) : bool := negb (Ascii.eqb c x).

(** First match of [m], scanning from the left. *)
Fixpoint search {A} (m : string -> option A) (s : string) : option A :=
  match m s with
  | Some x => Some x
  | None => match s with
            | String _ r => search m r
            | EmptyString => None
            end
  end.

(** All matches of [m], left to right and without overlap; [skip] is the
    number of characters still covered by the previous match. *)
Fixpoint matchAll {A} (m : string -> option (A * nat)) (skip : nat) (s : string)
  : list A :=
  match s with
  | EmptyString => []
  | String _ r =>
      match skip with
      | S k => matchAll m k r
      | O => match m s with
             | Some (x, len) => x :: matchAll m (len - 1) r
             | None => matchAll m O r
             end
      end
  end.

(** Global replacement of the matches of [m] by [rep]. *)
Fixpoint replaceAll (m : string -> option nat) (rep : string) (skip : nat) (s : string)
  : string :=
  match s with
  | EmptyString => EmptyString
  | String c r =>
      match skip with
      | S k => replaceAll m rep k r
      | O => match m s with
             | Some len => rep ++ replaceAll m rep (len - 1) r
             | None => String c (replaceAll m rep O r)
             end
      end
  end.

(** [open[\s\S]*?close] with the [i] flag: the whole match. *)
Definition block (open close : string) (s : string) : option (string * nat) :=
  if prefixCI open s then
    match indexOfCI close (drop (String.length open) s) with
    | Some k =>
        let len := (String.length open + k + String.length close)%nat in
        Some (take len s, len)
    | None => None
    end
  else None.

(** Offset of [p] (ignoring case) inside the run of characters other
    than [>] that starts [s]: the [[^>]*p] of a tag. *)
Fixpoint findInTag (p s : string) : option nat :=
  if prefixCI p s then Some O
  else match s with
       | String c r =>
           if Ascii.eqb c ">"%char then None else option_map S (findInTag p r)
       | EmptyString => None
       end.

Definition summaryAttr : string :=
  "summary=" ++ String quote ("Document Format Files" ++ String quote "").

(** The summary table: [<table], characters other than [>], the
    attribute [summaryAttr], then lazily up to [</table>]; [i] flag. *)
Definition summaryTable (s : string) : option string :=
  if prefixCI "<table" s then
    let r := drop 6 s in
    match findInTag summaryAttr r with
    | Some k =>
        match indexOfCI "</table>" (drop (k + String.length summaryAttr) r) with
        | Some e => Some (take (6 + k + String.length summaryAttr + e + 8) s)
        | None => None
        end
    | None => None
    end
  else None.

(** [/Document Format Files/i.test(t)] *)
Definition mentionsDocumentFormatFiles (t : string) : bool :=
  match indexOfCI "Document Format Files" t with
  | Some _ => true
  | None => false
  end.

(** The link pattern: [href=], a quote, one or more characters other
    than a quote (the captured group), a quote; [i] flag. *)
Definition href (s : string) : option string :=
  if prefixCI ("href=" ++ String quote "") s then
    let r := drop 6 s in
    let n := spanLen (notChar quote) r in
    if Nat.leb 1 n then
      match drop n r with
      | String _ _ => Some (take n r)
      | EmptyString => None
      end
    else None
  else None.

(** [/<td[^>]*>([\s\S]*?)<\/td>/gi]: the captured group and the length
    of the match. *)
Definition td (s : string) : option (string * nat) :=
  if prefixCI "<td" s then
    let r := drop 3 s in
    let n := spanLen (notChar ">"%char) r in
    match drop n r with
    | String _ body =>
        match indexOfCI "</td>" body with
        | Some k => Some (take k body, (3 + n + 1 + k + 5)%nat)
        | None => None
        end
    | EmptyString => None
    end
  else None.

(** [/<br\s*\/?>/gi] *)
Definition br (s : string) : option nat :=
  if prefixCI "<br" s then
    let r := drop 3 s in
    let w := spanLen Str.isWhiteSpace r in
    match drop w r with
    | String "/"%char (String ">"%char _) => Some (3 + w + 2)%nat
    | String ">"%char _ => Some (3 + w + 1)%nat
    | _ => None
    end
  else None.

(** [/<[^>]+>/g] *)
Definition tag (s : string) : option nat :=
  match s with
  | String "<"%char r =>
      let n := spanLen (notChar ">"%char) r in
      if Nat.leb 1 n then
        match drop n r with
        | String _ _ => Some (n + 2)%nat
        | EmptyString => None
        end
      else None
  | _ => None
  end.

(** A literal pattern, case sensitive. *)
Definition lit (p : string) (s : string) : option nat :=
  if String.prefix p s then Some (String.length p) else None.

(** [/\s+/g] *)
Definition spaces (s : string) : option nat :=
  let n := spanLen Str.isWhiteSpace s in
  if Nat.leb 1 n then Some n else None.

(** [\w] *)
Definition isWordChar (c : ascii) : bool :=
  let n := nat_of_ascii c in
  (Nat.leb 48 n && Nat.leb n 57) || (Nat.leb 65 n && Nat.leb n 90)
  || (Nat.leb 97 n && Nat.leb n 122) || Nat.eqb n 95.

(** [/^EX-(a1|a2|...)\b/i.test(t)]: some alternative matches after
    [EX-] and ends at a word boundary. *)
Definition exhibitPrefix (alts : list string) (t : string) : bool :=
  existsb (fun alt =>
             let p := "EX-" ++ alt in
             prefixCI p t &&
             match drop (String.length p) t with
             | String c _ => negb (isWordChar c)
             | EmptyString => true
             end) alts.

End Rx.

(** ** Exhibit catalog ([getDocsFromIndexHtml]) *)

Record ExhibitDoc := mkExhibitDoc {
  seq : string;
  description : string;
  type : string;
  filename : string;
  sizeText : string
}.

(** [href.split("/").pop()] *)
Fixpoint lastSegment (acc : string) (s : string) : string :=
  match s with
  | EmptyString => acc
  | String c r =>
      if Ascii.eqb c "/"%char then lastSegment "" r
      else lastSegment (acc ++ String c "") r
  end.

(** The text of a table cell, as the source normalises it. *)
Definition cellText (inner : string) : string :=
  Str.trim
    (Rx.replaceAll Rx.spaces " " 0
       (Rx.replaceAll (Rx.lit "&amp;") "&" 0
          (Rx.replaceAll (Rx.lit "&nbsp;") " " 0
             (Rx.replaceAll Rx.tag " " 0
                (Rx.replaceAll Rx.br " " 0 inner))))).

(** The part of the index document that is scanned for rows. *)
Definition contentToParse (indexHtml : string) : string :=
  let summaryMatch := match Rx.search Rx.summaryTable indexHtml with
                      | Some t => t
                      | None => ""
                      end in
  let viaTables :=
    if Str.truthy summaryMatch then summaryMatch
    else match List.find Rx.mentionsDocumentFormatFiles
                 (Rx.matchAll (Rx.block "<table" "</table>") 0 indexHtml) with
         | Some candidate => candidate
         | None => ""
         end in
  if Str.truthy viaTables then viaTables else indexHtml.

Definition rowsOf (content : string) : list string :=
  Rx.matchAll (Rx.block "<tr" "</tr>") 0 content.

Definition rowFilename (row : string) : string :=
  let href := match Rx.search Rx.href row with
              | Some h => h
              | None => ""
              end in
  lastSegment "" href.

Definition rowCells (row : string) : list string :=
  List.map cellText (Rx.matchAll Rx.td 0 row).

(** The body of the loop over rows: [None] when the row is skipped. *)
Definition docOfRow (row : string) : option ExhibitDoc :=
  let filename := rowFilename row in
  let tds := rowCells row in
  if negb (Str.truthy filename) || Nat.ltb (List.length tds) 4 then None
  else
    let seq := nth 0 tds "" in
    let description := nth 1 tds "" in
    let type := nth 3 tds "" in
    let sizeText := nth 4 tds "" in
    if negb (Str.truthy type) || (type =? "Type") then None
    else Some (mkExhibitDoc seq description type filename sizeText).

Fixpoint collectDocs (rows : list string) : list ExhibitDoc :=
  match rows with
  | [] => []
  | row :: rest =>
      match docOfRow row with
      | Some d => d :: collectDocs rest
      | None => collectDocs rest
      end
  end.

Definition getDocsFromIndexHtml (indexHtml : string) : list ExhibitDoc :=
  collectDocs (rowsOf (contentToParse indexHtml)).

(** ** Exhibit classification *)

Definition isHighSignalExhibitType (type : string) : bool :=
  let t := Str.toUpperCase (Str.trim type) in
  Rx.exhibitPrefix ["10"; "4"; "99"; "2"; "16"; "3"; "1"; "5"; "23"; "24"] t.

Definition isJunkType (type : string) : bool :=
  Rx.exhibitPrefix ["101"; "104"] (Str.trim type).

(** ** Numbers

    A JavaScript number that need not be an integer: NaN, an infinity, or
    a finite value, kept as the rational it denotes.  Comparisons follow
    the source language (false as soon as an operand is NaN).  Products
    and differences are those of the rationals: on the values met here
    (a parsed size or a validated parameter scaled by a power of two) the
    binary64 operation is exact, short of overflow. *)

Module JsNum.

Inductive number :=
| NaN
| PosInf
| NegInf
| Fin (q : Q).

Definition ofZ (z : Z) : number := Fin (inject_Z z).

Definition isNaN (n : number) : bool :=
  match n with
  | NaN => true
  | _ => false
  end.

Definition le (a b : number) : bool :=
  match a, b with
  | NaN, _ | _, NaN => false
  | NegInf, _ => true
  | _, PosInf => true
  | Fin x, Fin y => Qle_bool x y
  | _, _ => false
  end.

Definition lt (a b : number) : bool :=
  match a, b with
  | NaN, _ | _, NaN => false
  | Fin x, Fin y => negb (Qle_bool y x)
  | PosInf, _ => false
  | _, NegInf => false
  | _, _ => true
  end.

Definition gt (a b : number) : bool := lt b a.
Definition ge (a b : number) : bool := le b a.

Definition neg (a : number) : number :=
  match a with
  | NaN => NaN
  | PosInf => NegInf
  | NegInf => PosInf
  | Fin x => Fin (- x)
  end.

Definition mul (a b : number) : number :=
  match a, b with
  | NaN, _ | _, NaN => NaN
  | Fin x, Fin y => Fin (x * y)
  | Fin x, i | i, Fin x =>
      match Qcompare x 0 with
      | Eq => NaN
      | Gt => i
      | Lt => neg i
      end
  | PosInf, PosInf | NegInf, NegInf => PosInf
  | _, _ => NegInf
  end.

Definition add (a b : number) : number :=
  match a, b with
  | NaN, _ | _, NaN => NaN
  | Fin x, Fin y => Fin (x + y)
  | PosInf, NegInf | NegInf, PosInf => NaN
  | PosInf, _ | _, PosInf => PosInf
  | NegInf, _ | _, NegInf => NegInf
  end.

Definition sub (a b : number) : number :=
  match a, b with
  | NaN, _ | _, NaN => NaN
  | Fin x, Fin y => Fin (x - y)
  | PosInf, PosInf | NegInf, NegInf => NaN
  | PosInf, _ => PosInf
  | NegInf, _ => NegInf
  | Fin _, i => neg i
  end.

End JsNum.

(** Plain decimal literals (sign, digits, fraction), for evaluation:
    [Dec.parseFloat] reads the longest such prefix after leading white
    space, [Dec.Number] the whole trimmed string. *)
Module Dec.

(** An unsigned literal: its value and what follows, if there is a digit. *)
Definition unsigned (s : string) : option (Q * string) :=
  let '(i, ni, r1) := Str.digitsOf 0 s in
  match r1 with
  | String "."%char r2 =>
      let '(v, nf, r3) := Str.digitsOf i r2 in
      if Nat.eqb (ni + nf) 0 then None
      else Some (Qmake v (Z.to_pos (10 ^ Z.of_nat nf)), r3)
  | _ => if Nat.eqb ni 0 then None else Some (inject_Z i, r1)
  end.

Definition signed (s : string) : option (Q * string) :=
  match s with
  | String "-"%char r =>
      match unsigned r with
      | Some (v, rest) => Some (Qopp v, rest)
      | None => None
      end
  | String "+"%char r => unsigned r
  | _ => unsigned s
  end.

Definition parseFloat (s : string) : JsNum.number :=
  match signed (Str.trimStart s) with
  | Some (v, _) => JsNum.Fin v
  | None => JsNum.NaN
  end.

Definition Number (s : string) : JsNum.number :=
  let t := Str.trim s in
  if negb (Str.truthy t) then JsNum.ofZ 0
  else match signed t with
       | Some (v, EmptyString) => JsNum.Fin v
       | _ => JsNum.NaN
       end.

End Dec.

(** ** Reported sizes ([parseSize]) *)

Section Sizes.

(** The built-in [parseFloat]. *)
Variable parseFloat : string -> JsNum.number.

Definition parseSize (sizeText : string) : JsNum.number :=
  if negb (Str.truthy sizeText) then JsNum.ofZ 0
  else
    let s := Str.replaceChar ","%char "" (Str.toUpperCase (Str.trim sizeText)) in
    let num := parseFloat s in
    if JsNum.isNaN num then JsNum.ofZ 0
    else if Str.includes "MB" s then JsNum.mul (JsNum.mul num (JsNum.ofZ 1024)) (JsNum.ofZ 1024)
    else if Str.includes "KB" s then JsNum.mul num (JsNum.ofZ 1024)
    else num.

End Sizes.

(** ** CSV lines ([toCsvLine]) *)

Inductive Cell :=
| CStr (s : string)
| CNum (n : Z).

(** [String(c)] *)
Definition cellString (c : Cell) : string :=
  match c with
  | CStr s => s
  | CNum n => Str.ofZ n
  end.

Definition newline : ascii := "010"%char.

Definition isCsvSpecial (c : ascii) : bool :=
  Ascii.eqb c Rx.quote || Ascii.eqb c ","%char || Ascii.eqb c newline.

Fixpoint needsQuote (v : string) : bool :=
  match v with
  | String c r => isCsvSpecial c || needsQuote r
  | EmptyString => false
  end.

Definition csvField (c : Cell) : string :=
  let v := cellString c in
  let escaped := Str.replaceChar Rx.quote (String Rx.quote (String Rx.quote "")) v in
  if needsQuote v then String Rx.quote (escaped ++ String Rx.quote "") else escaped.

Definition toCsvLine (cells : list Cell) : string :=
  Str.join "," (List.map csvField cells).

(** Reading one CSV record back, by the usual rules: fields are separated
    by commas; a field that starts with a double quote runs to its closing
    double quote, a doubled double quote inside it standing for one; a
    field that does not start with one holds no double quote and no line
    feed.  [None] when the text is not one well-formed record. *)
Module CsvReader.

Inductive mode :=
| FieldStart
| Unquoted
| Quoted
| QuoteSeen.

Fixpoint read (m : mode) (cur : string) (fields : list string) (s : string)
  : option (list string) :=
  match s with
  | EmptyString =>
      match m with
      | Quoted => None
      | _ => Some (fields ++ [cur])%list
      end
  | String c r =>
      match m with
      | FieldStart =>
          if Ascii.eqb c Rx.quote then read Quoted "" fields r
          else if Ascii.eqb c ","%char then read FieldStart "" (fields ++ [""])%list r
          else if Ascii.eqb c newline then None
          else read Unquoted (String c "") fields r
      | Unquoted =>
          if Ascii.eqb c Rx.quote then None
          else if Ascii.eqb c ","%char then read FieldStart "" (fields ++ [cur])%list r
          else if Ascii.eqb c newline then None
          else read Unquoted (cur ++ String c "") fields r
      | Quoted =>
          if Ascii.eqb c Rx.quote then read QuoteSeen cur fields r
          else read Quoted (cur ++ String c "") fields r
      | QuoteSeen =>
          if Ascii.eqb c Rx.quote then read Quoted (cur ++ String c "") fields r
          else if Ascii.eqb c ","%char then read FieldStart "" (fields ++ [cur])%list r
          else None
      end
  end.

Definition parseLine (line : string) : option (list string) :=
  read FieldStart "" [] line.

End CsvReader.

(** ** Locations of a filing ([lib/sec.ts]) *)

Definition filingBasePath (cik10 : string) (f : Filing) : string :=
  let cikNoLeading := Str.parseIntString cik10 in
  let accessionNoDashes := Str.replaceChar "-"%char "" (accessionNumber f) in
  "https://www.sec.gov/Archives/edgar/data/" ++ cikNoLeading ++ "/" ++ accessionNoDashes.

Definition filingArchiveUrl (cik10 : string) (f : Filing) : string :=
  filingBasePath cik10 f ++ "/" ++ primaryDocument f.

Definition filingIndexUrl (cik10 : string) (f : Filing) : string :=
  filingBasePath cik10 f ++ "/" ++ accessionNumber f ++ "-index.html".

(** ** The pack route ([GET])

    Two parts of the handler are embedded: the reading of the query (up
    to the point where the handler starts to fetch), and the loop over the
    selected filings that downloads, triages and inventories documents.
    The inventory is kept as rows of cells; [inventoryLines] renders them
    with [toCsvLine] the way the source does when it pushes a row. *)

Module Pack.

Definition isSafeNameChar (c : ascii) : bool :=
  let n := nat_of_ascii c in
  (Nat.leb 48 n && Nat.leb n 57) || (Nat.leb 65 n && Nat.leb n 90)
  || (Nat.leb 97 n && Nat.leb n 122)
  || Ascii.eqb c "."%char || Ascii.eqb c "_"%char || Ascii.eqb c "-"%char.

(** [/[^a-zA-Z0-9._-]+/g] *)
Definition unsafeRun (s : string) : option nat :=
  let n := Rx.spanLen (fun c => negb (isSafeNameChar c)) s in
  if Nat.leb 1 n then Some n else None.

Definition safeName (s : string) : string := Rx.replaceAll unsafeRun "_" 0 s.

Definition parseBool (v : option string) (fallback : bool) : bool :=
  match v with
  | None => fallback
  | Some v => (v =? "1") || (Str.toLowerCase v =? "true") || (Str.toLowerCase v =? "yes")
  end.

Record Response := mkResponse {
  status : Z;
  body : string
}.

(** What the handler has read from the query once validation passed. *)
Record Params := mkParams {
  ticker : string;
  daysBack : JsNum.number;
  maxEx : JsNum.number;
  maxMb : JsNum.number;
  includeExhibits : bool;
  deep : bool;
  asOf : option string;
  all : bool;
  maxTotalBytes : JsNum.number;
  maxPerFiling : JsNum.number
}.

(** The caps of a run, as the loop reads them. *)
Record Caps := mkCaps {
  capExhibits : bool;
  capDeep : bool;
  capTotalBytes : JsNum.number;
  capPerFiling : JsNum.number
}.


Section Query.

(** The built-in [Number] applied to a string. *)
Variable Number : string -> JsNum.number.

(** [p ? Number(p) : dflt] *)
Definition numberOr (p : option string) (dflt : Z) : JsNum.number :=
  match p with
  | Some v => if Str.truthy v then Number v else JsNum.ofZ dflt
  | None => JsNum.ofZ dflt
  end.

Definition outOfRange (x : JsNum.number) (lo hi : Z) : bool :=
  JsNum.lt x (JsNum.ofZ lo) || JsNum.gt x (JsNum.ofZ hi).

(** The handler from its entry to the first fetch: [inl] is the
    response of an early [return]. *)
Definition GET_query (searchParams : gmap string string)
    (SEC_USER_AGENT : option string) : Response + Params :=
  let ticker := Str.toUpperCase (Str.trim (default "" (searchParams !! "ticker"))) in
  if negb (Str.truthy ticker) then inl (mkResponse 400 "Missing ticker")
  else
    let pDays := searchParams !! "daysBack" in
    let pMaxEx := searchParams !! "maxEx" in
    let pMaxMb := searchParams !! "maxMb" in
    let daysBack := numberOr pDays 365 in
    if JsNum.isNaN daysBack
    then inl (mkResponse 400 "Invalid daysBack parameter (must be a number)")
    else if outOfRange daysBack 30 730
    then inl (mkResponse 400 "daysBack out of range (30-730)")
    else
      let maxEx := numberOr pMaxEx 25 in
      if JsNum.isNaN maxEx
      then inl (mkResponse 400 "Invalid maxEx parameter (must be a number)")
      else if outOfRange maxEx 1 100
      then inl (mkResponse 400 "maxEx out of range (1-100)")
      else
        let maxMb := numberOr pMaxMb 75 in
        if JsNum.isNaN maxMb
        then inl (mkResponse 400 "Invalid maxMb parameter (must be a number)")
        else if outOfRange maxMb 5 500
        then inl (mkResponse 400 "maxMb out of range (5-500)")
        else
          let includeExhibits := parseBool (searchParams !! "exhibits") true in
          let deep := parseBool (searchParams !! "deep") false in
          let asOf := searchParams !! "asOf" in
          let all := parseBool (searchParams !! "all") true in
          let maxTotalBytes :=
            if deep then JsNum.PosInf
            else JsNum.mul (JsNum.mul maxMb (JsNum.ofZ 1024)) (JsNum.ofZ 1024) in
          let maxPerFiling := if deep then JsNum.PosInf else maxEx in
          if negb (Str.truthy (default "" SEC_USER_AGENT))
          then inl (mkResponse 500 "Missing SEC_USER_AGENT in .env.local")
          else inr (mkParams ticker daysBack maxEx maxMb includeExhibits deep
                             asOf all maxTotalBytes maxPerFiling).

End Query.

(** A downloaded document: its bytes. *)
Definition Buffer := string.

Definition byteLength (b : Buffer) : Z := Z.of_nat (String.length b).

Record InventoryRow := mkRow {
  rowFilingDate : string;
  rowForm : string;
  rowAccessionNumber : string;
  rowDocType : string;
  rowFilename : string;
  rowSizeText : string;
  rowDescription : string;
  rowStatus : string;
  rowReason : string;
  rowUrl : string
}.



(** The mutable variables of the handler that the loop updates, and the
    entries appended to the archive. *)
Record Run := mkRun {
  exhibitsBytesUsed : Z;
  skippedByCap : list string;
  skippedByFilter : list string;
  indexNotFound : list string;
  downloadedExhibits : list string;
  inventoryRows : list InventoryRow;
  archive : list (string * Buffer)
}.

Definition start : Run := mkRun 0 [] [] [] [] [] [].



Definition pushInventory (r : InventoryRow) (st : Run) : Run :=
  mkRun (exhibitsBytesUsed st) (skippedByCap st) (skippedByFilter st) (indexNotFound st)
        (downloadedExhibits st) (inventoryRows st ++ [r]) (archive st).

Definition pushSkippedByCap (x : string) (st : Run) : Run :=
  mkRun (exhibitsBytesUsed st) (skippedByCap st ++ [x]) (skippedByFilter st)
        (indexNotFound st) (downloadedExhibits st) (inventoryRows st) (archive st).

Definition pushSkippedByFilter (x : string) (st : Run) : Run :=
  mkRun (exhibitsBytesUsed st) (skippedByCap st) (skippedByFilter st ++ [x])
        (indexNotFound st) (downloadedExhibits st) (inventoryRows st) (archive st).

Definition pushIndexNotFound (x : string) (st : Run) : Run :=
  mkRun (exhibitsBytesUsed st) (skippedByCap st) (skippedByFilter st)
        (indexNotFound st ++ [x]) (downloadedExhibits st) (inventoryRows st) (archive st).

Definition pushDownloaded (x : string) (st : Run) : Run :=
  mkRun (exhibitsBytesUsed st) (skippedByCap st) (skippedByFilter st) (indexNotFound st)
        (downloadedExhibits st ++ [x]) (inventoryRows st) (archive st).

Definition addBytes (n : Z) (st : Run) : Run :=
  mkRun (exhibitsBytesUsed st + n) (skippedByCap st) (skippedByFilter st)
        (indexNotFound st) (downloadedExhibits st) (inventoryRows st) (archive st).

Definition archiveAppend (name : string) (content : Buffer) (st : Run) : Run :=
  mkRun (exhibitsBytesUsed st) (skippedByCap st) (skippedByFilter st) (indexNotFound st)
        (downloadedExhibits st) (inventoryRows st) (archive st ++ [(name, content)]).

Definition filingLabel (f : Filing) : string :=
  filingDate f ++ " " ++ form f ++ " " ++ accessionNumber f.

Definition orElse (s dflt : string) : string := if Str.truthy s then s else dflt.

(** The line pushed to [skippedByCap] or [skippedByFilter]. *)
Definition skipNote (f : Filing) (d : ExhibitDoc) (what : string) : string :=
  filingLabel f ++ " | " ++ type d ++ " | " ++ filename d ++ " | "
  ++ orElse (sizeText d) "N/A" ++ " | " ++ orElse (description d) "No Desc"
  ++ " | " ++ what.

Definition docRow (f : Filing) (d : ExhibitDoc) (status reason url : string)
  : InventoryRow :=
  mkRow (filingDate f) (form f) (accessionNumber f) (type d) (filename d)
        (sizeText d) (description d) status reason url.

(** The row pushed when the documents of a filing cannot be listed. *)
Definition filingRow (f : Filing) (reason url : string) : InventoryRow :=
  mkRow (filingDate f) (form f) (accessionNumber f) "" "" "" "" "SKIPPED" reason url.

Record Scored := mkScored {
  d : ExhibitDoc;
  score : Z;
  sizeBytes : JsNum.number
}.

(** The comparison function given to [sort]. *)
Definition compareScored (a b : Scored) : JsNum.number :=
  if negb (Z.eqb (score b) (score a)) then JsNum.ofZ (score b - score a)
  else JsNum.sub (sizeBytes a) (sizeBytes b).

(** [Array.prototype.sort] is stable: [x] is placed before the first
    element it does not compare greater than. *)
Fixpoint insertScored (x : Scored) (l : list Scored) : list Scored :=
  match l with
  | [] => [x]
  | y :: r =>
      if JsNum.gt (compareScored x y) (JsNum.ofZ 0) then y :: insertScored x r
      else x :: y :: r
  end.

Definition sortScored (l : list Scored) : list Scored :=
  fold_right insertScored [] l.

Section Loop.

Variable parseFloat : string -> JsNum.number.

(** The network: [downloadAsBuffer url] either yields the bytes or
    throws ([None]); [World] is whatever the outcome depends on. *)
Variable World : Type.
Variable downloadAsBuffer : string -> World -> option Buffer * World.

Variable caps : Caps.
Variable cik10 : string.

Definition scoreOf (x : ExhibitDoc) : Scored :=
  mkScored x
    (if isHighSignalExhibitType (type x) then 3
     else if isJunkType (type x) then 0 else 1)
    (parseSize parseFloat (orElse (sizeText x) "")).

Definition scored (docs : list ExhibitDoc) : list ExhibitDoc :=
  List.map d (sortScored (List.map scoreOf docs)).

(** One iteration of the loop over the sorted documents of filing [f];
    the state is the run and the [downloadedCount] of the filing. *)
Definition stepDoc (f : Filing) (base : string) (x : ExhibitDoc)
    (acc : Run * Z) (w : World) : (Run * Z) * World :=
  let '(st, downloadedCount) := acc in
  if negb (Str.truthy (filename x)) || negb (Str.truthy (type x)) then (acc, w)
  else
    let exUrl := base ++ "/" ++ filename x in
    let deep := capDeep caps in
    if isJunkType (type x) then
      ((pushInventory (docRow f x "SKIPPED" "junk (XBRL noise)" exUrl)
          (pushSkippedByFilter (skipNote f x "skipped (XBRL noise)") st),
        downloadedCount), w)
    else if negb deep && negb (isHighSignalExhibitType (type x)) then
      ((pushInventory (docRow f x "SKIPPED" "not high-signal (non-deep mode)" exUrl)
          (pushSkippedByFilter (skipNote f x "skipped (not high-signal)") st),
        downloadedCount), w)
    else if negb deep && JsNum.ge (JsNum.ofZ downloadedCount) (capPerFiling caps) then
      ((pushInventory (docRow f x "SKIPPED" "cap: maxExPerFiling" exUrl)
          (pushSkippedByCap (skipNote f x "skipped (maxExPerFiling cap)") st),
        downloadedCount), w)
    else if negb deep
            && JsNum.ge (JsNum.ofZ (exhibitsBytesUsed st)) (capTotalBytes caps) then
      ((pushInventory (docRow f x "SKIPPED" "cap: maxTotalMB" exUrl)
          (pushSkippedByCap (skipNote f x "skipped (maxTotalMB cap)") st),
        downloadedCount), w)
    else
      match downloadAsBuffer exUrl w with
      | (None, w') =>
          ((pushInventory (docRow f x "SKIPPED" "download failed" exUrl)
              (pushSkippedByFilter (skipNote f x "skipped (download failed)") st),
            downloadedCount), w')
      | (Some exBuf, w') =>
          if negb deep
             && JsNum.gt (JsNum.ofZ (exhibitsBytesUsed st + byteLength exBuf))
                         (capTotalBytes caps) then
            ((pushInventory (docRow f x "SKIPPED" "cap: would exceed maxTotalMB" exUrl)
                (pushSkippedByCap
                   (skipNote f x "skipped (would exceed maxTotalMB cap)") st),
              downloadedCount), w')
          else
            let exName :=
              safeName (filingDate f ++ "__" ++ form f ++ "__" ++ accessionNumber f
                        ++ "__" ++ type x ++ "__" ++ filename x) in
            let folder := safeName (Str.replaceChar "."%char "_" (type x)) in
            ((pushInventory (docRow f x "DOWNLOADED" "" exUrl)
                (archiveAppend ("exhibits/" ++ folder ++ "/" ++ exName) exBuf
                   (pushDownloaded
                      (filingLabel f ++ " | " ++ type x ++ " | " ++ filename x)
                      (addBytes (byteLength exBuf) st))),
              downloadedCount + 1), w')
      end.

(** [for (const { d } of scored) ...] *)
Fixpoint exhibitLoop (f : Filing) (base : string) (docs : list ExhibitDoc)
    (acc : Run * Z) (w : World) : (Run * Z) * World :=
  match docs with
  | [] => (acc, w)
  | x :: rest =>
      let '(acc', w') := stepDoc f base x acc w in
      exhibitLoop f base rest acc' w'
  end.

(** The rows pushed when exhibits are disabled. *)
Definition disabledRows (f : Filing) (base : string) (docs : list ExhibitDoc)
  : list InventoryRow :=
  List.map (fun x => docRow f x "SKIPPED" "exhibits disabled" (base ++ "/" ++ filename x))
           docs.

Definition pushInventoryAll (rows : list InventoryRow) (st : Run) : Run :=
  fold_left (fun s r => pushInventory r s) rows st.

(** The first half of the body of the loop over the selected filings:
    the main document and the index page. *)
Inductive Opened :=
| Thrown
| NoIndex (st : Run)
| Indexed (st : Run) (docs : list ExhibitDoc).

Definition openFiling (f : Filing) (st : Run) (w : World) : Opened * World :=
  let mainUrl := filingArchiveUrl cik10 f in
  match downloadAsBuffer mainUrl w with
  | (None, w1) => (Thrown, w1)
  | (Some mainBuf, w1) =>
      let mainName :=
        safeName (filingDate f ++ "__" ++ form f ++ "__" ++ accessionNumber f
                  ++ "__" ++ primaryDocument f) in
      let st1 := archiveAppend ("filings/" ++ mainName) mainBuf st in
      let idxUrl := filingIndexUrl cik10 f in
      match downloadAsBuffer idxUrl w1 with
      | (None, w2) =>
          (NoIndex (pushInventory
                      (filingRow f "index not found (cannot enumerate docs)" idxUrl)
                      (pushIndexNotFound (filingLabel f) st1)), w2)
      | (Some idxBuf, w2) =>
          let idxName :=
            safeName (filingDate f ++ "__" ++ form f ++ "__" ++ accessionNumber f
                      ++ "__INDEX.html") in
          let st2 := archiveAppend ("indexes/" ++ idxName) idxBuf st1 in
          let docs := getDocsFromIndexHtml idxBuf in
          let st3 :=
            if Nat.eqb (List.length docs) 0 then
              pushInventory
                (filingRow f
                   "index parsed but no docs rows found (parser/table variance)"
                   idxUrl) st2
            else st2 in
          (Indexed st3 docs, w2)
      end
  end.

(** The body of the loop over the selected filings: [None] when the
    download of the main document throws, which ends the handler with
    a 500 response. *)
Definition processFiling (f : Filing) (st : Run) (w : World) : option Run * World :=
  match openFiling f st w with
  | (Thrown, w1) => (None, w1)
  | (NoIndex st', w2) => (Some st', w2)
  | (Indexed st3 docs, w2) =>
      let base := filingBasePath cik10 f in
      if negb (capExhibits caps) then
        (Some (pushInventoryAll (disabledRows f base docs) st3), w2)
      else
        let '((st4, _), w3) := exhibitLoop f base (scored docs) (st3, 0) w2 in
        (Some st4, w3)
  end.

(** [for (const f of selected) ...] *)
Fixpoint processFilings (selected : list Filing) (st : Run) (w : World)
  : option Run * World :=
  match selected with
  | [] => (Some st, w)
  | f :: rest =>
      match processFiling f st w with
      | (Some st', w') => processFilings rest st' w'
      | (None, w') => (None, w')
      end
  end.

End Loop.

(** The accepted bytes are within the total cap. *)
Definition within (caps : Caps) (st : Run) : Prop :=
  JsNum.le (JsNum.ofZ (exhibitsBytesUsed st)) (capTotalBytes caps) = true.

(** Row [r] of the inventory records document [x] of filing [f], as
    downloaded or as skipped for a stated reason. *)
Definition audited (f : Filing) (x : ExhibitDoc) (r : InventoryRow) : Prop :=
  exists status reason url,
    r = docRow f x status reason url /\
    ((status = "DOWNLOADED" /\ reason = "" /\ isJunkType (type x) = false)
     \/ (status = "SKIPPED" /\ reason <> "")).

(** A row pushed while filing [f] is processed. *)
Definition rowOf (f : Filing) (r : InventoryRow) : Prop :=
  rowAccessionNumber r = accessionNumber f /\
  (rowStatus r = "DOWNLOADED" /\ isJunkType (rowDocType r) = false
   \/ rowStatus r = "SKIPPED" /\ rowReason r <> "").

(** The marker row pushed when an index lists no document. *)
Definition emptyMarker (cik10 : string) (f : Filing) (docs : list ExhibitDoc)
  : list InventoryRow :=
  match docs with
  | [] => [filingRow f "index parsed but no docs rows found (parser/table variance)"
                     (filingIndexUrl cik10 f)]
  | _ :: _ => []
  end.

End Pack.

(** ** Sample inputs *)

Module Sample.

(** The scenario of the specification: one 10-K, two 10-Q and an 8-K
    dated after the reference date 2024-01-01. *)
Definition history1 : list Filing :=
  [ mkFiling "8-K" "0000-25-000004" "2025-06-01" "d8k.htm";
    mkFiling "10-Q" "0000-23-000003" "2023-11-01" "q3.htm";
    mkFiling "10-Q" "0000-23-000002" "2023-08-01" "q2.htm";
    mkFiling "10-K" "0000-23-000001" "2023-01-01" "k.htm" ].

(** An 8-K twenty days before 2024-01-01 and one forty days before. *)
Definition history2 : list Filing :=
  [ mkFiling "8-K" "0000-23-000009" "2023-12-12" "e1.htm";
    mkFiling "8-k " "0000-23-000008" "2023-11-22" "e2.htm" ].

Definition filing8K : Filing := mkFiling "8-K" "0000-23-000009" "2023-12-12" "e1.htm".

Definition q : string := String Rx.quote "".

Definition link (target text : string) : string :=
  "<a href=" ++ q ++ target ++ q ++ ">" ++ text ++ "</a>".

Definition row (cells : list string) : string :=
  "<tr>" ++ Str.join "" (List.map (fun c => "<td>" ++ c ++ "</td>") cells) ++ "</tr>".

(** An index page: a header row, the main document, a press release, an
    XBRL instance, a row without link, a header misread as data and a
    row of three cells; then a second table. *)
Definition indexPage : string :=
  "<html><table class=" ++ q ++ "tableFile" ++ q ++ " summary=" ++ q
  ++ "Document Format Files" ++ q ++ ">"
  ++ "<tr><th>Seq</th><th>Description</th><th>Document</th><th>Type</th><th>Size</th></tr>"
  ++ row ["1"; "FORM 8-K"; link "/Archives/edgar/data/1/2/form8k.htm" "form8k.htm";
          "8-K"; "12345"]
  ++ row ["2"; "PRESS&nbsp;RELEASE<br/>"; link "/Archives/edgar/data/1/2/ex991.htm" "ex991.htm";
          " EX-99.1 "; "2000 KB"]
  ++ row ["3"; "XBRL INSTANCE"; link "/Archives/edgar/data/1/2/x.xml" "x.xml";
          "EX-101.INS"; "500 KB"]
  ++ row ["4"; "no link"; "none"; "EX-10.1"; "5"]
  ++ row ["Seq"; "Description"; link "a/b" "b"; "Type"; "Size"]
  ++ row ["5"; "three cells"; link "a/c" "c"]
  ++ "</table><table>"
  ++ row ["1"; "other table"; link "y.htm" "y"; "EX-4"; "1"]
  ++ "</table></html>".

Definition pressRelease : ExhibitDoc :=
  mkExhibitDoc "2" "PRESS RELEASE" "EX-99.1" "ex991.htm" "2000 KB".

(** A network that serves [indexPage] for every index and seven bytes
    for any other document. *)
Definition download (url : string) (w : unit) : option Pack.Buffer * unit :=
  if Str.includes "-index.html" url then (Some indexPage, w)
  else (Some "payload", w).

(** The exhibit list of the specification's scenario. *)
Definition exhibits3 : list ExhibitDoc :=
  [ mkExhibitDoc "1" "XBRL INSTANCE" "EX-101.INS" "x.xml" "500 KB";
    mkExhibitDoc "2" "AGREEMENT" "EX-10.1" "ex101.htm" "50 KB";
    pressRelease ].

(** No deep mode, 25 exhibits per filing, ten bytes in total. *)
Definition caps10 : Pack.Caps :=
  Pack.mkCaps true false (JsNum.ofZ 10) (JsNum.ofZ 25).

(** No deep mode, 25 exhibits per filing, one mebibyte in total. *)
Definition caps1MiB : Pack.Caps :=
  Pack.mkCaps true false (JsNum.ofZ 1048576) (JsNum.ofZ 25).

Definition agent : option string := Some "stock-docs admin@example.com".


(** [?ticker=aapl&daysBack=29] *)
Definition queryDays29 : gmap string string :=
  <["ticker" := "aapl"]> (<["daysBack" := "29"]> ∅).

(** [?ticker=aapl&daysBack=] *)
Definition queryDaysEmpty : gmap string string :=
  <["ticker" := "aapl"]> (<["daysBack" := ""]> ∅).

End Sample.

(** ** Auxiliary predicates *)

(** A string that is empty or starts with a character that is not white
    space. *)
Definition startsClean (s : string) : Prop :=
  match s with
  | String c _ => Str.isWhiteSpace c = false
  | EmptyString => True
  end.

(** The tests on the form code made by the rules of the selector, in the
    order of the source (the window of rules 3 and 9 left aside). *)
Definition ruleTests : list (string -> bool) :=
  [ (fun fm => normForm fm =? "10-K");
    (fun fm => normForm fm =? "10-Q");
    (fun fm => normForm fm =? "8-K");
    isS3;
    isProspectus;
    (fun fm => normForm fm =? "EFFECT");
    isProxy;
    (fun fm => normForm fm =? "S-8");
    (fun fm => normForm fm =? "4") ].

(** The list of a [find], as pushed. *)
Definition found (x : option Filing) : list Filing :=
  match x with
  | Some f => [f]
  | None => []
  end.

(** ** Registry client ([lib/sec.ts]) *)

Module Client.

(** [parseInt(s, 10)]: [None] is NaN. *)
Definition parseInt10 (s : string) : option Z :=
  let t := Str.trimStart s in
  let '(negative, r) :=
    match t with
    | String "-"%char r => (true, r)
    | String "+"%char r => (false, r)
    | _ => (false, t)
    end in
  let '(v, n, _) := Str.digitsOf 0 r in
  if Nat.eqb n 0 then None else Some (if negative then - v else v).

(** [s.padStart(n, c)] for a one-character filler. *)
Fixpoint filler (k : nat) (c : ascii) : string :=
  match k with
  | O => ""
  | S k' => String c (filler k' c)
  end.

Definition padStart (n : nat) (c : ascii) (s : string) : string :=
  filler (n - String.length s) c ++ s.

(** What the handler reads of an HTTP response: the status, the
    [Retry-After] header and the body. *)
Record Response := mkResponse {
  status : Z;
  retryAfter : option string;
  body : string
}.

(** [res.ok] *)
Definition ok (res : Response) : bool :=
  (200 <=? status res)%Z && (status res <=? 299)%Z.

Inductive Outcome (A : Type) :=
| Returned (a : A)
| Threw (message : string).

Arguments Returned {A} a.
Arguments Threw {A} message.

(** What a call does besides returning: requests sent and timers awaited
    (the delay in milliseconds, [None] when it is NaN). *)
Inductive Event :=
| Fetch (url : string)
| Sleep (delay : option Z).

Definition isFetch (e : Event) : bool :=
  match e with
  | Fetch _ => true
  | Sleep _ => false
  end.

Definition isSleep (e : Event) : bool := negb (isFetch e).

(** [1000 * Math.pow(2, i)] *)
Definition backoff (i : nat) : Z := 1000 * 2 ^ Z.of_nat i.

Section Fetching.

(** The network: [fetch url] resolves with a response or rejects with an
    error ([inr], its message). *)
Variable World : Type.
Variable fetch : string -> World -> (Response + string) * World.

(** [process.env.SEC_USER_AGENT] *)
Variable SEC_USER_AGENT : option string.

Definition envMissing : bool := negb (Str.truthy (default "" SEC_USER_AGENT)).

(** The loop of [fetchWithRetry] from index [i], with [remaining]
    iterations left ([remaining = retries - i]). *)
Fixpoint retryLoop (url : string) (retries i remaining : nat) (w : World)
  : Outcome Response * list Event * World :=
  match remaining with
  | O =>
      (Threw ("Failed to fetch " ++ url ++ " after " ++ Str.ofZ (Z.of_nat retries)
              ++ " retries"), [], w)
  | S remaining' =>
      match fetch url w with
      | (inl res, w1) =>
          if ok res then (Returned res, [Fetch url], w1)
          else if Z.eqb (status res) 429 then
            let delay :=
              match retryAfter res with
              | Some h =>
                  if Str.truthy h then option_map (fun n => n * 1000)%Z (parseInt10 h)
                  else Some (backoff i)
              | None => Some (backoff i)
              end in
            let '(o, tr, w2) := retryLoop url retries (S i) remaining' w1 in
            (o, Fetch url :: Sleep delay :: tr, w2)
          else if (500 <=? status res)%Z && (status res <? 600)%Z then
            let '(o, tr, w2) := retryLoop url retries (S i) remaining' w1 in
            (o, Fetch url :: Sleep (Some (backoff i)) :: tr, w2)
          else (Returned res, [Fetch url], w1)
      | (inr err, w1) =>
          if Nat.eqb i (retries - 1) then (Threw err, [Fetch url], w1)
          else
            let '(o, tr, w2) := retryLoop url retries (S i) remaining' w1 in
            (o, Fetch url :: Sleep (Some (backoff i)) :: tr, w2)
      end
  end.

Definition fetchWithRetry (url : string) (retries : nat) (w : World)
  : Outcome Response * list Event * World :=
  if envMissing
  then (Threw "Missing SEC_USER_AGENT in .env.local (required by SEC).", [], w)
  else retryLoop url retries 0 retries w.

(** [downloadAsBuffer], with the default of three tries. *)
Definition downloadAsBufferTraced (url : string) (w : World)
  : Outcome string * list Event * World :=
  match fetchWithRetry url 3 w with
  | (Returned res, tr, w') =>
      if ok res then (Returned (body res), tr, w')
      else (Threw ("Failed to download: " ++ Str.ofZ (status res) ++ " " ++ url), tr, w')
  | (Threw e, tr, w') => (Threw e, tr, w')
  end.

(** The same, as the pack route sees it: the bytes, or nothing when the
    call throws. *)
Definition downloadAsBuffer (url : string) (w : World) : option string * World :=
  match downloadAsBufferTraced url w with
  | (Returned b, _, w') => (Some b, w')
  | (Threw _, _, w') => (None, w')
  end.

End Fetching.

(** *** Filings of a submissions document *)

Record SubmissionsRecent := mkRecent {
  recentForm : list string;
  recentAccessionNumber : list string;
  recentFilingDate : list string;
  recentPrimaryDocument : list string
}.

(** [toFilingsFromRecent]: an array element that is missing reads as
    [undefined], which is falsy like the empty string. *)
Definition toFilingsFromRecent (recent : option SubmissionsRecent) : list Filing :=
  match recent with
  | None => []
  | Some r =>
      let forms := recentForm r in
      let accession := recentAccessionNumber r in
      let dates := recentFilingDate r in
      let docs := recentPrimaryDocument r in
      flat_map
        (fun i =>
           if negb (Str.truthy (nth i forms "")) || negb (Str.truthy (nth i accession ""))
              || negb (Str.truthy (nth i dates "")) || negb (Str.truthy (nth i docs ""))
           then []
           else [mkFiling (nth i forms "") (nth i accession "") (nth i dates "")
                          (nth i docs "")])
        (List.seq 0%nat (List.length forms))
  end.

(** The filter of [getAllFilingsOptionB] that keeps the first filing of
    each accession number. *)
Fixpoint uniqByAccession (seen : gset string) (merged : list Filing) : list Filing :=
  match merged with
  | [] => []
  | x :: rest =>
      if decide (accessionNumber x ∈ seen) then uniqByAccession seen rest
      else x :: uniqByAccession ({[accessionNumber x]} ∪ seen) rest
  end.

(** *** Company identifiers *)

Record TickerEntry := mkTicker {
  cik_str : Z;
  ticker : string;
  title : string
}.

(** The module variables [cachedTickers] and [lastTickerFetch]. *)
Record Cache := mkCache {
  cachedTickers : option (list TickerEntry);
  lastTickerFetch : Z
}.

Definition CACHE_TTL_MS : Z := 24 * 60 * 60 * 1000.

Section Tickers.

Variable World : Type.
Variable fetch : string -> World -> (Response + string) * World.
Variable SEC_USER_AGENT : option string.

(** [res.json()] read as the values of the mapping, in order, or the
    error it throws. *)
Variable parseTickers : string -> Outcome (list TickerEntry).

Definition tickersUrl : string := "https://www.sec.gov/files/company_tickers.json".

(** The lookup in the mapping and the padding of the number. *)
Definition lookupCik (ticker_ : string) (tickers : list TickerEntry) : Outcome string :=
  let t := Str.toUpperCase ticker_ in
  match List.find (fun x => Str.toUpperCase (ticker x) =? t) tickers with
  | Some entry => Returned (padStart 10 "0"%char (Str.ofZ (cik_str entry)))
  | None => Threw ("Ticker not found in SEC mapping: " ++ ticker_)
  end.

(** The body of the [if]: fetch the mapping and store it. *)
Definition refreshTickers (ticker_ : string) (now : Z) (c : Cache) (w : World)
  : Outcome string * list Event * Cache * World :=
  match fetchWithRetry World fetch SEC_USER_AGENT tickersUrl 3 w with
  | (Threw e, tr, w') => (Threw e, tr, c, w')
  | (Returned res, tr, w') =>
      if negb (ok res)
      then (Threw ("Failed to fetch company_tickers.json: " ++ Str.ofZ (status res)),
            tr, c, w')
      else
        match parseTickers (body res) with
        | Threw e => (Threw e, tr, c, w')
        | Returned tickers =>
            (lookupCik ticker_ tickers, tr, mkCache (Some tickers) now, w')
        end
  end.

(** [getCikForTicker], at time [now] (the value of [Date.now()]). *)
Definition getCikForTicker (ticker_ : string) (now : Z) (c : Cache) (w : World)
  : Outcome string * list Event * Cache * World :=
  match cachedTickers c with
  | None => refreshTickers ticker_ now c w
  | Some tickers =>
      if (now - lastTickerFetch c >=? CACHE_TTL_MS)%Z
      then refreshTickers ticker_ now c w
      else (lookupCik ticker_ tickers, [], c, w)
  end.

End Tickers.

End Client.

(** A network that answers the k-th request with the k-th entry of a
    script, and rejects once the script is over; its state is the number
    of requests received. *)
Module Scripted.

Definition fetch (script : list (Client.Response + string)) (url : string) (w : nat)
  : (Client.Response + string) * nat :=
  (nth w script (inr "connection refused"), S w).

Definition page (content : string) : Client.Response + string :=
  inl (Client.mkResponse 200 None content).

Definition unavailable : Client.Response + string :=
  inl (Client.mkResponse 503 None "").

Definition notFound : Client.Response + string :=
  inl (Client.mkResponse 404 None "<h1>Not Found</h1>").

Definition agent : option string := Some "stock-docs admin@example.com".

End Scripted.

(** ** Reports of the pack route ([GET]) *)

Module Reports.

(** [new Map(selectedWithReasons.map(x => [accessionNumber, reason]))]:
    the entries are set one after the other. *)
Definition selectedReasons (selectedWithReasons : list SelectedFiling)
  : gmap string string :=
  fold_left (fun m x => <[accessionNumber (filing x) := reason x]> m)
            selectedWithReasons ∅.

Definition filingsHeader : string :=
  Str.join "," ["filingDate"; "form"; "accessionNumber"; "primaryDocument";
                "status"; "reason"; "indexUrl"].

(** The cells of the row of [FILINGS_REPORT.csv] for filing [f]. *)
Definition filingsReportRow (cik10 : string) (reasons : gmap string string) (f : Filing)
  : list Cell :=
  let isSel := bool_decide (is_Some (reasons !! accessionNumber f)) in
  [ CStr (filingDate f); CStr (form f); CStr (accessionNumber f);
    CStr (primaryDocument f);
    CStr (if isSel then "SELECTED" else "NOT_SELECTED");
    CStr (if isSel then default "" (reasons !! accessionNumber f) else "");
    CStr (filingIndexUrl cik10 f) ].

Definition filingsLines (cik10 : string) (reasons : gmap string string)
    (filings : list Filing) : list string :=
  filingsHeader :: List.map (fun f => toCsvLine (filingsReportRow cik10 reasons f)) filings.

(** The [reduce] that counts the selected filings by form:
    [acc[ft] = (acc[ft] || 0) + 1] with [ft = f.form.toUpperCase()].  (The
    keys are upper-cased, so none is a property that an empty object
    inherits.) *)
Definition formCounts (selected : list Filing) : gmap string Z :=
  fold_left (fun acc f =>
               let ft := Str.toUpperCase (form f) in
               <[ft := (default 0 (acc !! ft) + 1)%Z]> acc)
            selected ∅.

End Reports.

(** ** The form of the home page ([buildUrl])

    The state of the form, with its numbers as integers; the query
    string is kept as the map of its parameters, which is what the handler
    reads back from the URL. *)

Module HomePage.

Record State := mkState {
  ticker : string;
  daysBack : Z;
  asOf : string;
  includeExhibits : bool;
  maxEx : Z;
  maxMb : Z;
  deepPull : bool;
  allFilings : bool
}.

Definition flag (b : bool) : string := if b then "1" else "0".

(** [buildUrl]: [None] when the ticker is blank. *)
Definition buildUrl (st : State) : option (gmap string string) :=
  let t := Str.toUpperCase (Str.trim (ticker st)) in
  if negb (Str.truthy t) then None
  else
    let qs : gmap string string := ∅ in
    let qs := <["ticker" := t]> qs in
    let qs := <["daysBack" := Str.ofZ (daysBack st)]> qs in
    let qs := if Str.truthy (asOf st) then <["asOf" := asOf st]> qs else qs in
    let qs := <["exhibits" := flag (includeExhibits st)]> qs in
    let qs := <["maxEx" := Str.ofZ (maxEx st)]> qs in
    let qs := <["maxMb" := Str.ofZ (maxMb st)]> qs in
    let qs := <["deep" := flag (deepPull st)]> qs in
    let qs := <["all" := flag (allFilings st)]> qs in
    Some qs.

End HomePage.

(** ** The ledger of a run *)

Module Ledger.

(** An entry of the archive written under [exhibits/]. *)
Definition isExhibitEntry (e : string * Pack.Buffer) : bool :=
  Str.startsWith (fst e) "exhibits/".

(** The bytes of the exhibits held in the archive. *)
Definition exhibitBytes (entries : list (string * Pack.Buffer)) : Z :=
  fold_right (fun e total => (Pack.byteLength (snd e) + total)%Z) 0%Z
             (List.filter isExhibitEntry entries).

Definition isDownloadedRow (r : Pack.InventoryRow) : bool :=
  Pack.rowStatus r =? "DOWNLOADED".

End Ledger.

(** Further caps and networks for evaluation. *)
Module Scenarios.

(** Deep mode: both caps are infinite. *)
Definition capsDeep : Pack.Caps :=
  Pack.mkCaps true true JsNum.PosInf JsNum.PosInf.

(** Exhibits disabled. *)
Definition capsNoExhibits : Pack.Caps :=
  Pack.mkCaps false false (JsNum.ofZ 1048576) (JsNum.ofZ 25).

(** A network on which every request fails. *)
Definition offline (url : string) (w : unit) : option Pack.Buffer * unit := (None, w).

(** [?ticker=aapl&daysBack=30.5&maxEx=1.5] *)
Definition queryFractional : gmap string string :=
  <["ticker" := "aapl"]> (<["daysBack" := "30.5"]> (<["maxEx" := "1.5"]> ∅)).

End Scenarios.

(** ** Further auxiliary definitions *)

(** Every character of [s] passes the test [p]. *)
Fixpoint allChars (p : ascii -> bool) (s : string) : bool :=
  match s with
  | EmptyString => true
  | String c r => p c && allChars p r
  end.

(** The number of filings of [l] whose upper-cased form is [k]. *)
Definition countForm (k : string) (l : list Filing) : nat :=
  List.length (List.filter (fun f => Str.toUpperCase (form f) =? k) l).

(** The state in which the form of the home page starts. *)
Definition formDefaults : HomePage.State :=
  HomePage.mkState "CTM" 365 "" true 25 75 false true.

(** A ticker mapping and a reader of it, for evaluation: any body that is
    not empty reads as the mapping. *)
Module Registry.

Definition tickers : list Client.TickerEntry :=
  [ Client.mkTicker 320193 "AAPL" "Apple Inc.";
    Client.mkTicker 789019 "MSFT" "MICROSOFT CORP" ].

(** A mapping in which a ticker occurs twice, under two spellings. *)
Definition listing : list Client.TickerEntry :=
  [ Client.mkTicker 320193 "AAPL" "Apple Inc.";
    Client.mkTicker 789019 "MSFT" "MICROSOFT CORP";
    Client.mkTicker 1 "msft" "Another entry" ].

Definition parse (body : string) : Client.Outcome (list Client.TickerEntry) :=
  if Str.truthy body then Client.Returned tickers
  else Client.Threw "Unexpected end of JSON input".

End Registry.

(** * Properties *)

(** ** Filing selector *)

Section SelectorFacts.

Variable Date_parse : string -> JsDate.t.
Variable now : Z.

Abbreviation accOf x := (accessionNumber (filing x)).

Lemma in_firstn {A} (n : nat) (l : list A) (x : A) :
  In x (firstn n l) -> In x l.
Proof.
  revert l. induction n as [|n IH]; intros [|y l]; simpl; try tauto.
  intros [->|H]; [now left | right; auto].
Qed.

Lemma in_pushFound (p : Filing -> bool) (l : list Filing) (r : string) (x : SelectedFiling) :
  In x (pushFound (List.find p l) r) ->
  In (filing x) l /\ p (filing x) = true /\ reason x = r.
Proof.
  destruct (List.find p l) as [f|] eqn:E; simpl; [|tauto].
  intros [<-|[]]. apply find_some in E. simpl. tauto.
Qed.

Lemma in_pushIndexed (r : nat -> string) (l : list Filing) :
  forall i x, In x (pushIndexed r i l) -> In (filing x) l.
Proof.
  induction l as [|f l IH]; simpl; intros i x H; [tauto|].
  destruct H as [<-|H]; [now left | right; eauto].
Qed.

(** Where an entry of [sel] comes from. *)
Lemma candidates_inv filings daysBack asOf x :
  In x (candidates Date_parse now filings daysBack asOf) ->
  In (filing x) (eligible Date_parse now filings asOf) /\
  ( (normForm (form (filing x)) =? "10-K") = true
    \/ (normForm (form (filing x)) =? "10-Q") = true
    \/ (In (filing x) (window8K Date_parse now filings daysBack asOf)
        /\ reason x = reason8K daysBack)
    \/ isS3 (form (filing x)) = true
    \/ isProspectus (form (filing x)) = true
    \/ (normForm (form (filing x)) =? "EFFECT") = true
    \/ isProxy (form (filing x)) = true
    \/ (normForm (form (filing x)) =? "S-8") = true
    \/ (normForm (form (filing x)) =? "4") = true ).
Proof.
  unfold candidates. rewrite !in_app_iff.
  intros [H|[H|[H|[H|[H|[H|[H|[H|H]]]]]]]].
  - apply in_pushFound in H. tauto.
  - apply in_pushIndexed in H.
    assert (H' := in_firstn _ _ _ H). apply filter_In in H'. tauto.
  - apply in_map_iff in H. destruct H as [f [<- H]]. simpl.
    split; [|tauto]. unfold window8K in H. apply filter_In in H. tauto.
  - apply in_pushFound in H. tauto.
  - apply in_pushFound in H. tauto.
  - apply in_pushFound in H. tauto.
  - apply in_pushFound in H. tauto.
  - apply in_pushFound in H. tauto.
  - apply in_map_iff in H. destruct H as [f [<- H]]. simpl.
    apply filter_In in H. destruct H as [H1 H2].
    apply andb_true_iff in H2. tauto.
Qed.

Lemma dedup_incl seen sel x :
  In x (dedupByAccession seen sel) -> In x sel.
Proof.
  revert seen. induction sel as [|y sel IH]; simpl; intros seen H; [tauto|].
  destruct (decide (accOf y ∈ seen)); [right; eauto|].
  destruct H as [->|H]; [now left | right; eauto].
Qed.

Lemma dedup_not_seen seen sel x :
  In x (dedupByAccession seen sel) -> accOf x ∉ seen.
Proof.
  revert seen. induction sel as [|y sel IH]; simpl; intros seen H; [tauto|].
  destruct (decide (accOf y ∈ seen)); [eauto|].
  destruct H as [->|H]; [assumption|].
  apply IH in H. set_solver.
Qed.

Lemma dedup_NoDup seen sel :
  NoDup (List.map (fun x => accOf x) (dedupByAccession seen sel)).
Proof.
  revert seen. induction sel as [|y sel IH]; simpl; intros seen; [constructor|].
  destruct (decide (accOf y ∈ seen)); [apply IH|].
  simpl. constructor; [|apply IH].
  intros H. apply in_map_iff in H. destruct H as [x [E H]].
  apply dedup_not_seen in H. rewrite E in H. set_solver.
Qed.

(** A kept entry is the first of [sel] with its accession number. *)
Lemma dedup_first seen sel x :
  In x (dedupByAccession seen sel) ->
  exists before after,
    sel = (before ++ x :: after)%list /\
    forall y, In y before -> accOf y <> accOf x.
Proof.
  revert seen. induction sel as [|z sel IH]; simpl; intros seen H; [tauto|].
  destruct (decide (accOf z ∈ seen)) as [Hin|Hout].
  - pose proof (dedup_not_seen _ _ _ H) as Hx.
    destruct (IH _ H) as (b & a & -> & Hb).
    exists (z :: b), a. split; [reflexivity|].
    intros y [<-|Hy]; [congruence | eauto].
  - destruct H as [->|H].
    + exists [], sel. split; [reflexivity | intros y []].
    + pose proof (dedup_not_seen _ _ _ H) as Hx.
      destruct (IH _ H) as (b & a & -> & Hb).
      exists (z :: b), a. split; [reflexivity|].
      intros y [<-|Hy]; [set_solver | eauto].
Qed.

(** Every accession number of [sel] not yet seen is kept. *)
Lemma dedup_complete seen sel y :
  In y sel -> accOf y ∉ seen ->
  exists x, In x (dedupByAccession seen sel) /\ accOf x = accOf y.
Proof.
  revert seen. induction sel as [|z sel IH]; simpl; intros seen H Hy; [tauto|].
  destruct (decide (accOf z ∈ seen)) as [Hin|Hout].
  - destruct H as [->|H]; [contradiction | eauto].
  - destruct H as [->|H]; [exists y; simpl; tauto|].
    destruct (decide (accOf y = accOf z)) as [E|NE].
    + exists z. simpl. auto.
    + destruct (IH ({[accOf z]} ∪ seen) H) as (x & Hx & Ex).
      { intros Hu. apply elem_of_union in Hu. destruct Hu as [Hu|Hu]; [|contradiction].
        apply elem_of_singleton in Hu. contradiction. }
      exists x. simpl. auto.
Qed.

(** C1. Every filing of the selection is dated on or before the reference
    instant: its date parses to a time value [t], the reference instant
    is a valid time value [a] (the parsed [asOf], or the clock when
    [asOf] is absent or empty), and [t <= a]. *)
Theorem selected_on_or_before_asOf filings daysBack asOf x :
  In x (pickFilingsPackWithReasons Date_parse now filings daysBack asOf) ->
  exists t a,
    Date_parse (filingDate (filing x)) = Some t /\
    match asOf with
    | Some s => if Str.truthy s then Date_parse s = Some a else a = now
    | None => a = now
    end /\
    (t <= a)%Z.
Proof.
  intros H. apply dedup_incl, candidates_inv in H. destruct H as [H _].
  apply filter_In in H. destruct H as [_ H].
  unfold onOrBefore, JsDate.le in H.
  destruct (Date_parse (filingDate (filing x))) as [t|]; [|discriminate].
  destruct (asOfDate Date_parse now asOf) as [a|] eqn:Ea; [|discriminate].
  exists t, a. split; [reflexivity|]. split; [|lia].
  unfold asOfDate in Ea. destruct asOf as [s|].
  - destruct (Str.truthy s); congruence.
  - congruence.
Qed.

(** C4. The selection holds no accession number twice; each of its
    entries is the first entry of the rule output (in rule order) with
    its accession number, and every accession number claimed by a rule
    is present. *)
Theorem selection_dedup_first_rule_wins filings daysBack asOf :
  let sel := candidates Date_parse now filings daysBack asOf in
  let out := pickFilingsPackWithReasons Date_parse now filings daysBack asOf in
  NoDup (List.map (fun x => accOf x) out) /\
  (forall x, In x out ->
     exists before after,
       sel = (before ++ x :: after)%list /\
       forall y, In y before -> accOf y <> accOf x) /\
  (forall y, In y sel -> exists x, In x out /\ accOf x = accOf y).
Proof.
  cbv zeta. unfold pickFilingsPackWithReasons. repeat split.
  - apply dedup_NoDup.
  - intros x. apply dedup_first.
  - intros y Hy. apply dedup_complete; [assumption | set_solver].
Qed.

(** An entry of [sel] whose form is 8-K was pushed by the window rule. *)
Lemma candidates_8K filings daysBack asOf x :
  In x (candidates Date_parse now filings daysBack asOf) ->
  normForm (form (filing x)) = "8-K" ->
  In (filing x) (window8K Date_parse now filings daysBack asOf) /\
  reason x = reason8K daysBack.
Proof.
  intros H E. apply candidates_inv in H. destruct H as [_ H].
  unfold isS3, isProxy, isProspectus in H. rewrite E in H. cbn in H.
  intuition discriminate.
Qed.

Lemma window8K_spec filings daysBack asOf a f :
  asOfDate Date_parse now asOf = Some a ->
  (Z.abs (a - daysBack * JsDate.msPerDay) <= JsDate.maxTime)%Z ->
  normForm (form f) = "8-K" ->
  (In f (window8K Date_parse now filings daysBack asOf) <->
   In f filings /\
   exists t, Date_parse (filingDate f) = Some t /\
             (a - daysBack * JsDate.msPerDay <= t <= a)%Z).
Proof.
  intros Ea Hc Ef. unfold window8K, eligible.
  rewrite !filter_In, Ef. cbn [String.eqb Ascii.eqb Bool.eqb andb].
  unfold withinWindow, onOrBefore, cutoff, JsDate.ge, JsDate.le, JsDate.ofTime.
  rewrite Ea. apply Z.leb_le in Hc. rewrite Hc.
  destruct (Date_parse (filingDate f)) as [t|].
  - rewrite andb_true_iff, !Z.leb_le. split.
    + intros [[Hin Ht] [Hlo _]]. split; [assumption|]. exists t. split; [reflexivity | lia].
    + intros [Hin [t' [[= <-] Ht]]]. repeat split; (assumption || lia).
  - split; [intros [[_ ?] _]; discriminate | intros [_ [t [? _]]]; discriminate].
Qed.

(** C5. For a valid reference instant [a] whose window start
    [a - daysBack days] is a representable instant, an 8-K of the history
    is pushed by the window rule exactly when its date lies in
    [a - daysBack days, a]; when accession numbers identify filings, this
    is also exactly when the selection holds it under the reason of the
    window rule.  With [daysBack = 30], an 8-K dated 40 days before [a]
    is excluded. *)
Theorem window_rule_8K filings daysBack asOf a f :
  asOfDate Date_parse now asOf = Some a ->
  (Z.abs (a - daysBack * JsDate.msPerDay) <= JsDate.maxTime)%Z ->
  In f filings ->
  normForm (form f) = "8-K" ->
  let inWindow :=
    exists t, Date_parse (filingDate f) = Some t /\
              (a - daysBack * JsDate.msPerDay <= t <= a)%Z in
  let out := pickFilingsPackWithReasons Date_parse now filings daysBack asOf in
  (In f (window8K Date_parse now filings daysBack asOf) <-> inWindow) /\
  ((forall g, In g filings -> accessionNumber g = accessionNumber f -> g = f) ->
   (In (mkSelected f (reason8K daysBack)) out <-> inWindow)) /\
  (daysBack = 30%Z ->
   Date_parse (filingDate f) = Some (a - 40 * JsDate.msPerDay)%Z ->
   ~ In f (window8K Date_parse now filings daysBack asOf) /\
   ~ In (mkSelected f (reason8K daysBack)) out).
Proof.
  intros Ea Hc Hin Ef inWindow out.
  pose proof (window8K_spec filings daysBack asOf a f Ea Hc Ef) as W.
  assert (Hout : In (mkSelected f (reason8K daysBack)) out ->
                 In f (window8K Date_parse now filings daysBack asOf)).
  { intros H. apply dedup_incl in H. apply candidates_8K in H; [|exact Ef]. tauto. }
  split; [|split].
  - rewrite W. subst inWindow. tauto.
  - intros Huniq. split.
    + intros H. apply Hout, W in H. tauto.
    + intros Hw.
      assert (Hf : In f (window8K Date_parse now filings daysBack asOf))
        by (apply W; tauto).
      assert (Hc8 : In (mkSelected f (reason8K daysBack))
                       (candidates Date_parse now filings daysBack asOf)).
      { unfold candidates. rewrite !in_app_iff. right; right; left.
        apply in_map_iff. exists f. tauto. }
      destruct (dedup_complete ∅ _ _ Hc8) as (x & Hx & Ex);
        [apply not_elem_of_empty|].
      pose proof (dedup_incl _ _ _ Hx) as Hxc.
      pose proof (candidates_inv _ _ _ _ Hxc) as [Hel _].
      apply filter_In in Hel. destruct Hel as [Hxf _].
      simpl in Ex. apply Huniq in Hxf; [|exact Ex].
      destruct (candidates_8K _ _ _ _ Hxc) as [_ Hr]; [rewrite Hxf; exact Ef|].
      destruct x as [xf xr]. simpl in *. subst xf xr. exact Hx.
  - intros -> Et.
    assert (Hn : ~ In f (window8K Date_parse now filings 30 asOf)).
    { rewrite W. intros [_ [t [Et' Ht]]]. rewrite Et in Et'.
      injection Et' as <-. unfold JsDate.msPerDay in Ht. lia. }
    split; [exact Hn | intros H; apply Hn, Hout, H].
Qed.

End SelectorFacts.

Lemma selected_on_or_before_asOf_witness :
  exists t a,
    IsoDate.parse "2023-11-01" = Some t /\
    IsoDate.parse "2024-01-01" = Some a /\
    (t <= a)%Z.
Proof.
  apply (selected_on_or_before_asOf IsoDate.parse 0 Sample.history1 365 (Some "2024-01-01")
           (mkSelected (mkFiling "10-Q" "0000-23-000003" "2023-11-01" "q3.htm")
                       "10-Q (top 2) #1")).
  vm_compute. tauto.
Defined.

Lemma window_rule_8K_witness :
  let f1 := mkFiling "8-K" "0000-23-000009" "2023-12-12" "e1.htm" in
  let f2 := mkFiling "8-k " "0000-23-000008" "2023-11-22" "e2.htm" in
  In f1 (window8K IsoDate.parse 0 Sample.history2 30 (Some "2024-01-01")) /\
  ~ In f2 (window8K IsoDate.parse 0 Sample.history2 30 (Some "2024-01-01")).
Proof.
  intros f1 f2.
  pose (a := 1704067200000%Z).
  assert (Ha : asOfDate IsoDate.parse 0 (Some "2024-01-01") = Some a) by reflexivity.
  assert (Hc : (Z.abs (a - 30 * JsDate.msPerDay) <= JsDate.maxTime)%Z)
    by (vm_compute; discriminate).
  split.
  - assert (H1 : In f1 Sample.history2) by (left; reflexivity).
    apply (proj1 (window_rule_8K IsoDate.parse 0 Sample.history2 30 (Some "2024-01-01")
                    a f1 Ha Hc H1 eq_refl)).
    exists 1702339200000%Z. split; [reflexivity | vm_compute; split; discriminate].
  - assert (H2 : In f2 Sample.history2) by (right; left; reflexivity).
    apply (proj2 (proj2 (window_rule_8K IsoDate.parse 0 Sample.history2 30 (Some "2024-01-01")
                           a f2 Ha Hc H2 eq_refl)));
      reflexivity.
Defined.




(** ** Exhibit catalog *)

Lemma docOfRow_spec (row : string) (x : ExhibitDoc) :
  docOfRow row = Some x <->
  rowFilename row <> "" /\
  (4 <= List.length (rowCells row))%nat /\
  nth 3 (rowCells row) "" <> "" /\
  nth 3 (rowCells row) "" <> "Type" /\
  x = mkExhibitDoc (nth 0 (rowCells row) "") (nth 1 (rowCells row) "")
                   (nth 3 (rowCells row) "") (rowFilename row)
                   (nth 4 (rowCells row) "").
Proof.
  unfold docOfRow, Str.truthy.
  destruct (String.eqb_spec (rowFilename row) "") as [Ef|Ef]; simpl.
  { split; [discriminate | tauto]. }
  destruct (Nat.ltb_spec (List.length (rowCells row)) 4) as [Hl|Hl]; simpl.
  { split; [discriminate | lia]. }
  destruct (String.eqb_spec (nth 3 (rowCells row) "") "") as [Et|Et]; simpl.
  { split; [discriminate | tauto]. }
  destruct (String.eqb_spec (nth 3 (rowCells row) "") "Type") as [Eh|Eh].
  { split; [discriminate | tauto]. }
  split.
  - intros [= <-]. tauto.
  - intros (_ & _ & _ & _ & ->). reflexivity.
Qed.

Lemma in_collectDocs (rows : list string) (x : ExhibitDoc) :
  In x (collectDocs rows) <-> exists row, In row rows /\ docOfRow row = Some x.
Proof.
  induction rows as [|row rows IH]; simpl.
  - split; [tauto | intros [? [[] _]]].
  - destruct (docOfRow row) as [y|] eqn:E; simpl; rewrite IH; split.
    + intros [<-|[r [Hr Hx]]]; [exists row; tauto | exists r; tauto].
    + intros [r [[<-|Hr] Hx]]; [left; congruence | right; exists r; tauto].
    + intros [r [Hr Hx]]. exists r; tauto.
    + intros [r [[<-|Hr] Hx]]; [congruence | exists r; tauto].
Qed.

(** Every catalogued document has a file name and a type. *)
Lemma getDocs_named (indexHtml : string) (x : ExhibitDoc) :
  In x (getDocsFromIndexHtml indexHtml) -> filename x <> "" /\ type x <> "".
Proof.
  unfold getDocsFromIndexHtml. rewrite in_collectDocs.
  intros [row [_ H]]. apply docOfRow_spec in H.
  destruct H as (Hf & _ & Ht & _ & ->). simpl. tauto.
Qed.

(** C8. The catalogue of an index document holds exactly the documents
    read from the table rows that have a file name and four or more
    cells, and whose type cell (the fourth, normalised) is neither empty
    nor the header text; any other row yields nothing.  The function is
    total: no row makes it fail. *)
Theorem getDocsFromIndexHtml_rows (indexHtml : string) :
  let rows := rowsOf (contentToParse indexHtml) in
  (forall x, In x (getDocsFromIndexHtml indexHtml) <->
     exists row, In row rows /\
       rowFilename row <> "" /\
       (4 <= List.length (rowCells row))%nat /\
       nth 3 (rowCells row) "" <> "" /\
       nth 3 (rowCells row) "" <> "Type" /\
       x = mkExhibitDoc (nth 0 (rowCells row) "") (nth 1 (rowCells row) "")
                        (nth 3 (rowCells row) "") (rowFilename row)
                        (nth 4 (rowCells row) "")) /\
  (forall row,
     rowFilename row = "" \/ (List.length (rowCells row) < 4)%nat \/
     nth 3 (rowCells row) "" = "" \/ nth 3 (rowCells row) "" = "Type" ->
     docOfRow row = None) /\
  getDocsFromIndexHtml indexHtml = collectDocs rows.
Proof.
  cbv zeta. split; [|split].
  - intros x. unfold getDocsFromIndexHtml. rewrite in_collectDocs.
    split; intros [row [Hr H]]; exists row; (split; [exact Hr|]).
    + apply docOfRow_spec. exact H.
    + apply docOfRow_spec in H. exact H.
  - intros row H. destruct (docOfRow row) as [x|] eqn:E; [|reflexivity].
    apply docOfRow_spec in E. exfalso. intuition lia.
  - reflexivity.
Qed.

(** ** CSV lines *)

Lemma string_app_nil_r (s : string) : s ++ "" = s.
Proof. induction s as [|c s IH]; simpl; congruence. Qed.

Lemma string_app_assoc (a b c : string) : (a ++ b) ++ c = a ++ (b ++ c).
Proof. induction a as [|x a IH]; simpl; congruence. Qed.

Lemma isCsvSpecial_false (c : ascii) :
  isCsvSpecial c = false ->
  Ascii.eqb c Rx.quote = false /\ Ascii.eqb c ","%char = false /\
  Ascii.eqb c newline = false.
Proof.
  unfold isCsvSpecial. intros H.
  apply orb_false_iff in H. destruct H as [H H3].
  apply orb_false_iff in H. tauto.
Qed.

Lemma replaceChar_quote_id (by_ v : string) :
  needsQuote v = false -> Str.replaceChar Rx.quote by_ v = v.
Proof.
  induction v as [|c v IH]; simpl; [reflexivity|].
  intros H. apply orb_false_iff in H. destruct H as [Hc Hv].
  apply isCsvSpecial_false in Hc. destruct Hc as [-> _].
  rewrite IH by assumption. reflexivity.
Qed.

Lemma read_unquoted (v cur : string) (fields : list string) (tail : string) :
  needsQuote v = false ->
  CsvReader.read CsvReader.Unquoted cur fields (v ++ tail) =
  CsvReader.read CsvReader.Unquoted (cur ++ v) fields tail.
Proof.
  revert cur. induction v as [|c v IH]; simpl; intros cur H.
  - rewrite string_app_nil_r. reflexivity.
  - apply orb_false_iff in H. destruct H as [Hc Hv].
    apply isCsvSpecial_false in Hc. destruct Hc as (-> & -> & ->).
    rewrite IH by assumption. rewrite string_app_assoc. reflexivity.
Qed.

Lemma read_quoted (v cur : string) (fields : list string) (tail : string) :
  CsvReader.read CsvReader.Quoted cur fields
    (Str.replaceChar Rx.quote (String Rx.quote (String Rx.quote "")) v
     ++ String Rx.quote tail) =
  CsvReader.read CsvReader.QuoteSeen (cur ++ v) fields tail.
Proof.
  revert cur. induction v as [|c v IH]; intros cur.
  - simpl. rewrite string_app_nil_r. reflexivity.
  - cbn [Str.replaceChar].
    destruct (Ascii.eqb c Rx.quote) eqn:E.
    + apply Ascii.eqb_eq in E. subst c. cbn. rewrite IH.
      rewrite string_app_assoc. reflexivity.
    + cbn [append CsvReader.read]. rewrite E, IH.
      rewrite string_app_assoc. reflexivity.
Qed.

(** Reading one rendered cell, followed by the end of the line or by a
    comma. *)
Lemma read_field (c : Cell) (fields : list string) :
  CsvReader.read CsvReader.FieldStart "" fields (csvField c) =
    Some (fields ++ [cellString c])%list /\
  forall t,
    CsvReader.read CsvReader.FieldStart "" fields (csvField c ++ String ","%char t) =
    CsvReader.read CsvReader.FieldStart "" (fields ++ [cellString c])%list t.
Proof.
  unfold csvField. set (v := cellString c). clearbody v.
  destruct (needsQuote v) eqn:N.
  - split.
    + cbn [CsvReader.read]. rewrite Ascii.eqb_refl, read_quoted. reflexivity.
    + intros t. cbn [append CsvReader.read].
      rewrite Ascii.eqb_refl, string_app_assoc. cbn [append].
      rewrite read_quoted. reflexivity.
  - rewrite replaceChar_quote_id by assumption.
    destruct v as [|a v].
    + split; [reflexivity | intros t; reflexivity].
    + simpl in N. apply orb_false_iff in N. destruct N as [Ha Hv].
      apply isCsvSpecial_false in Ha. destruct Ha as (E1 & E2 & E3).
      split.
      * cbn [CsvReader.read]. rewrite E1, E2, E3.
        rewrite <- (string_app_nil_r v) at 1.
        rewrite read_unquoted by assumption. reflexivity.
      * intros t. cbn [append CsvReader.read]. rewrite E1, E2, E3.
        rewrite read_unquoted by assumption. reflexivity.
Qed.

Lemma read_line (cells : list Cell) :
  cells <> [] ->
  forall fields,
    CsvReader.read CsvReader.FieldStart "" fields (toCsvLine cells) =
    Some (fields ++ List.map cellString cells)%list.
Proof.
  unfold toCsvLine.
  induction cells as [|c rest IH]; [congruence|]. intros _ fields.
  destruct rest as [|c2 rest].
  - simpl. apply read_field.
  - change (Str.join "," (List.map csvField (c :: c2 :: rest)))
      with (csvField c ++ String ","%char (Str.join "," (List.map csvField (c2 :: rest)))).
    rewrite (proj2 (read_field c fields)).
    rewrite IH by discriminate.
    rewrite <- app_assoc. reflexivity.
Qed.

(** C10 (as amended). For every non-empty list of cells, reading the line
    rendered by [toCsvLine] back as one CSV record recovers exactly the
    strings of the cells. *)
Theorem toCsvLine_roundtrip (cells : list Cell) :
  cells <> [] ->
  CsvReader.parseLine (toCsvLine cells) = Some (List.map cellString cells).
Proof.
  intros H. unfold CsvReader.parseLine. rewrite read_line by assumption. reflexivity.
Qed.

Lemma toCsvLine_roundtrip_witness :
  CsvReader.parseLine
    (toCsvLine [CStr "2024-01-01"; CStr "Smith, John"; CNum 42; CStr ""])
  = Some ["2024-01-01"; "Smith, John"; "42"; ""].
Proof.
  apply (toCsvLine_roundtrip [CStr "2024-01-01"; CStr "Smith, John"; CNum 42; CStr ""]).
  discriminate.
Defined.

(** The empty list of cells and the list of one empty cell are rendered
    alike, as the empty line; read back, it is one empty field. *)
Lemma toCsvLine_empty_not_recovered :
  CsvReader.parseLine (toCsvLine []) <> Some (List.map cellString []) /\
  toCsvLine [] = toCsvLine [CStr ""].
Proof. split; [discriminate | reflexivity]. Qed.

(** ** Exhibit triage *)

Lemma truthy_true (s : string) : Str.truthy s = true <-> s <> "".
Proof.
  unfold Str.truthy. destruct (String.eqb_spec s ""); simpl; split; congruence.
Qed.

Lemma truthy_false (s : string) : Str.truthy s = false <-> s = "".
Proof.
  unfold Str.truthy. destruct (String.eqb_spec s ""); simpl; split; congruence.
Qed.

Lemma byteLength_nonneg (b : Pack.Buffer) : (0 <= Pack.byteLength b)%Z.
Proof. unfold Pack.byteLength. lia. Qed.

Section LoopFacts.

Import Pack.

Variable parseFloat : string -> JsNum.number.
Variable World : Type.
Variable downloadAsBuffer : string -> World -> option Buffer * World.
Variable caps : Caps.
Variable cik10 : string.

Abbreviation step := (stepDoc World downloadAsBuffer caps).
Abbreviation loop := (exhibitLoop World downloadAsBuffer caps).

(** What one iteration does to the state: nothing for a document
    without file name or type, one SKIPPED row with a reason, or one
    DOWNLOADED row with the bytes counted. *)
Lemma stepDoc_effect f base x st n w :
  exists st' n' w',
    step f base x (st, n) w = ((st', n'), w') /\
    ( ((filename x = "" \/ type x = "") /\ st' = st /\ n' = n /\ w' = w)
      \/
      (filename x <> "" /\ type x <> "" /\
       exists reason,
         reason <> "" /\
         inventoryRows st' =
           (inventoryRows st
            ++ [docRow f x "SKIPPED" reason (base ++ "/" ++ filename x)])%list /\
         exhibitsBytesUsed st' = exhibitsBytesUsed st /\
         archive st' = archive st /\
         downloadedExhibits st' = downloadedExhibits st /\
         n' = n /\
         (isJunkType (type x) = true -> w' = w))
      \/
      (filename x <> "" /\ type x <> "" /\ isJunkType (type x) = false /\
       exists exBuf,
         downloadAsBuffer (base ++ "/" ++ filename x) w = (Some exBuf, w') /\
         inventoryRows st' =
           (inventoryRows st
            ++ [docRow f x "DOWNLOADED" "" (base ++ "/" ++ filename x)])%list /\
         exhibitsBytesUsed st' = (exhibitsBytesUsed st + byteLength exBuf)%Z /\
         n' = (n + 1)%Z /\
         (capDeep caps = false ->
          JsNum.gt (JsNum.ofZ (exhibitsBytesUsed st + byteLength exBuf))
                   (capTotalBytes caps) = false)) ).
Proof.
  unfold stepDoc.
  destruct (Str.truthy (filename x)) eqn:Ef; simpl negb; simpl orb.
  2:{ apply truthy_false in Ef. exists st, n, w. split; [reflexivity|]. left. tauto. }
  destruct (Str.truthy (type x)) eqn:Et; simpl negb.
  2:{ apply truthy_false in Et. exists st, n, w. split; [reflexivity|]. left. tauto. }
  apply truthy_true in Ef, Et.
  destruct (isJunkType (type x)) eqn:Ej.
  { do 3 eexists. split; [reflexivity|]. right; left.
    repeat split; try assumption. eexists. repeat split; try reflexivity. discriminate. }
  destruct (negb (capDeep caps) && negb (isHighSignalExhibitType (type x))).
  { do 3 eexists. split; [reflexivity|]. right; left.
    repeat split; try assumption.
    eexists. repeat split; try reflexivity; discriminate. }
  destruct (negb (capDeep caps) && JsNum.ge (JsNum.ofZ n) (capPerFiling caps)).
  { do 3 eexists. split; [reflexivity|]. right; left.
    repeat split; try assumption.
    eexists. repeat split; try reflexivity; discriminate. }
  destruct (negb (capDeep caps)
            && JsNum.ge (JsNum.ofZ (exhibitsBytesUsed st)) (capTotalBytes caps)).
  { do 3 eexists. split; [reflexivity|]. right; left.
    repeat split; try assumption.
    eexists. repeat split; try reflexivity; discriminate. }
  destruct (downloadAsBuffer (base ++ "/" ++ filename x) w) as [[exBuf|] w'] eqn:Ed.
  2:{ do 3 eexists. split; [reflexivity|]. right; left.
      repeat split; try assumption.
      eexists. repeat split; try reflexivity; discriminate. }
  destruct (negb (capDeep caps)
            && JsNum.gt (JsNum.ofZ (exhibitsBytesUsed st + byteLength exBuf))
                        (capTotalBytes caps)) eqn:Ec.
  { do 3 eexists. split; [reflexivity|]. right; left.
    repeat split; try assumption.
    eexists. repeat split; try reflexivity; discriminate. }
  do 3 eexists. split; [reflexivity|]. right; right.
  repeat split; try assumption.
  exists exBuf. repeat split; try reflexivity.
  intros Hd. rewrite Hd in Ec. exact Ec.
Qed.

Abbreviation within := (Pack.within caps).

Lemma not_gt_le (z used : Z) (cap : JsNum.number) :
  JsNum.le (JsNum.ofZ used) cap = true ->
  JsNum.gt (JsNum.ofZ z) cap = false ->
  JsNum.le (JsNum.ofZ z) cap = true.
Proof.
  unfold JsNum.gt, JsNum.lt, JsNum.le, JsNum.ofZ.
  destruct cap as [| | |y]; try discriminate; try reflexivity.
  intros _ H. apply negb_false_iff in H. exact H.
Qed.

Lemma stepDoc_bytes f base x st n w :
  let st' := fst (fst (step f base x (st, n) w)) in
  (exhibitsBytesUsed st <= exhibitsBytesUsed st')%Z /\
  (capDeep caps = false -> within st -> within st').
Proof.
  destruct (stepDoc_effect f base x st n w) as (st' & n' & w' & E & H).
  rewrite E. simpl.
  destruct H as [(_ & -> & _)|[(_ & _ & r & _ & _ & Hb & _)|(_ & _ & _ & b & _ & _ & Hb & _ & Hc)]].
  - split; [lia | tauto].
  - unfold Pack.within. rewrite Hb. split; [lia | tauto].
  - unfold Pack.within. rewrite Hb. pose proof (byteLength_nonneg b). split; [lia|].
    intros Hd Hw. apply (not_gt_le _ _ _ Hw). auto.
Qed.

Lemma exhibitLoop_bytes f base docs :
  forall st n w,
    let st' := fst (fst (loop f base docs (st, n) w)) in
    (exhibitsBytesUsed st <= exhibitsBytesUsed st')%Z /\
    (capDeep caps = false -> within st -> within st').
Proof.
  induction docs as [|x docs IH]; intros st n w; cbn [exhibitLoop].
  - simpl. split; [lia | tauto].
  - pose proof (stepDoc_bytes f base x st n w) as H.
    destruct (step f base x (st, n) w) as [[st1 n1] w1]. cbn [fst] in H.
    specialize (IH st1 n1 w1). cbv zeta in IH, H |- *.
    destruct H as [H1 H2], IH as [I1 I2]. split; [lia | tauto].
Qed.

Lemma pushInventoryAll_rows rows st :
  inventoryRows (pushInventoryAll rows st) = (inventoryRows st ++ rows)%list /\
  exhibitsBytesUsed (pushInventoryAll rows st) = exhibitsBytesUsed st.
Proof.
  unfold pushInventoryAll. revert st.
  induction rows as [|r rows IH]; intros st; simpl.
  - rewrite app_nil_r. tauto.
  - destruct (IH (pushInventory r st)) as [-> ->]. simpl.
    rewrite <- app_assoc. tauto.
Qed.

Abbreviation opening := (openFiling World downloadAsBuffer cik10).
Abbreviation filingStep := (processFiling parseFloat World downloadAsBuffer caps cik10).
Abbreviation run := (processFilings parseFloat World downloadAsBuffer caps cik10).

Abbreviation emptyMarker := (Pack.emptyMarker cik10).

Lemma openFiling_Indexed f st w st3 docs w2 :
  opening f st w = (Indexed st3 docs, w2) ->
  (exists mainBuf w1 idxBuf,
      downloadAsBuffer (filingArchiveUrl cik10 f) w = (Some mainBuf, w1) /\
      downloadAsBuffer (filingIndexUrl cik10 f) w1 = (Some idxBuf, w2) /\
      docs = getDocsFromIndexHtml idxBuf) /\
  exhibitsBytesUsed st3 = exhibitsBytesUsed st /\
  inventoryRows st3 = (inventoryRows st ++ emptyMarker f docs)%list.
Proof.
  unfold openFiling.
  destruct (downloadAsBuffer (filingArchiveUrl cik10 f) w) as [[mainBuf|] w1] eqn:E1;
    [|discriminate].
  destruct (downloadAsBuffer (filingIndexUrl cik10 f) w1) as [[idxBuf|] w2'] eqn:E2;
    [|discriminate].
  intros [= <- <- <-].
  split; [exists mainBuf, w1, idxBuf; repeat split; assumption|].
  destruct (getDocsFromIndexHtml idxBuf) as [|x docs]; simpl.
  - split; reflexivity.
  - rewrite app_nil_r. split; reflexivity.
Qed.

Lemma openFiling_NoIndex f st w st' w2 :
  opening f st w = (NoIndex st', w2) ->
  exhibitsBytesUsed st' = exhibitsBytesUsed st /\
  inventoryRows st' =
    (inventoryRows st
     ++ [filingRow f "index not found (cannot enumerate docs)" (filingIndexUrl cik10 f)])%list.
Proof.
  unfold openFiling.
  destruct (downloadAsBuffer (filingArchiveUrl cik10 f) w) as [[mainBuf|] w1];
    [|discriminate].
  destruct (downloadAsBuffer (filingIndexUrl cik10 f) w1) as [[idxBuf|] w2'];
    [discriminate|].
  intros [= <- <-]. simpl. split; reflexivity.
Qed.

(** The rows of one pass of the loop over documents that all have a file
    name and a type: one row per document, in the order processed. *)
Lemma exhibitLoop_rows f base docs :
  Forall (fun x => filename x <> "" /\ type x <> "") docs ->
  forall st n w,
  exists rows,
    inventoryRows (fst (fst (loop f base docs (st, n) w))) =
      (inventoryRows st ++ rows)%list /\
    Forall2 (audited f) docs rows.
Proof.
  induction 1 as [|x docs [Hf Ht] _ IH]; intros st n w; cbn [exhibitLoop].
  - exists []. simpl. rewrite app_nil_r. split; [reflexivity | constructor].
  - destruct (stepDoc_effect f base x st n w) as (st1 & n1 & w1 & E & H).
    rewrite E. destruct (IH st1 n1 w1) as (rows & Er & Ha).
    destruct H as [([?|?] & _)|[(_ & _ & r & Hr & Hi & _)|(_ & _ & Hj & b & _ & Hi & _)]];
      try contradiction.
    + eexists (_ :: rows). rewrite Er, Hi, <- app_assoc. split; [reflexivity|].
      constructor; [|exact Ha]. do 3 eexists. split; [reflexivity|]. right. tauto.
    + eexists (_ :: rows). rewrite Er, Hi, <- app_assoc. split; [reflexivity|].
      constructor; [|exact Ha]. do 3 eexists. split; [reflexivity|]. left. tauto.
Qed.

Lemma insertScored_perm x l : Permutation (insertScored x l) (x :: l).
Proof.
  induction l as [|y l IH]; cbn [insertScored]; [reflexivity|].
  destruct (JsNum.gt (compareScored x y) (JsNum.ofZ 0)); [|reflexivity].
  rewrite IH. apply perm_swap.
Qed.

Lemma scored_perm docs : Permutation docs (scored parseFloat docs).
Proof.
  unfold scored, sortScored. symmetry.
  induction docs as [|x docs IH]; simpl; [reflexivity|].
  rewrite insertScored_perm. simpl. rewrite IH. reflexivity.
Qed.

Lemma disabledRows_audited f base docs :
  Forall2 (audited f) docs (disabledRows f base docs).
Proof.
  induction docs as [|x docs IH]; simpl; constructor; [|exact IH].
  do 3 eexists. split; [reflexivity|]. right. split; [reflexivity | discriminate].
Qed.

(** What the body of the loop over filings adds to the inventory when
    the index page was retrieved. *)
Lemma processFiling_Indexed f st w st3 docs w2 :
  opening f st w = (Indexed st3 docs, w2) ->
  exists st' w' processed rows,
    filingStep f st w = (Some st', w') /\
    inventoryRows st' = (inventoryRows st ++ emptyMarker f docs ++ rows)%list /\
    Permutation docs processed /\
    Forall2 (audited f) processed rows /\
    (exhibitsBytesUsed st <= exhibitsBytesUsed st')%Z /\
    (capDeep caps = false -> within st -> within st').
Proof.
  intros E. unfold processFiling. rewrite E.
  destruct (openFiling_Indexed _ _ _ _ _ _ E) as ((mb & w1 & ib & _ & _ & Ed) & Eb & Ei).
  assert (Hn : Forall (fun x => filename x <> "" /\ type x <> "") docs).
  { apply Forall_forall. intros x Hx. subst docs. eapply getDocs_named, Hx. }
  destruct (negb (capExhibits caps)).
  - destruct (pushInventoryAll_rows (disabledRows f (filingBasePath cik10 f) docs) st3)
      as [Er Eu].
    do 4 eexists. split; [reflexivity|]. rewrite Er, Ei, <- app_assoc.
    split; [reflexivity|]. split; [reflexivity|].
    split; [apply disabledRows_audited|].
    unfold Pack.within. rewrite Eu, Eb. split; [lia | tauto].
  - assert (Hn' : Forall (fun x => filename x <> "" /\ type x <> "")
                         (scored parseFloat docs)).
    { apply Forall_forall. intros x Hx. rewrite Forall_forall in Hn. apply Hn.
      eapply Permutation_in; [symmetry; apply scored_perm | exact Hx]. }
    destruct (exhibitLoop_rows f (filingBasePath cik10 f) _ Hn' st3 0 w2) as (rows & Er & Ha).
    pose proof (exhibitLoop_bytes f (filingBasePath cik10 f) (scored parseFloat docs) st3 0 w2)
      as Hb.
    destruct (loop f (filingBasePath cik10 f) (scored parseFloat docs) (st3, 0%Z) w2)
      as [[st4 n4] w3].
    cbn [fst] in Er, Hb. cbv zeta in Hb.
    do 4 eexists. split; [reflexivity|]. rewrite Er, Ei, <- app_assoc.
    split; [reflexivity|]. split; [apply scored_perm|]. split; [exact Ha|].
    unfold Pack.within in *. rewrite Eb in Hb. exact Hb.
Qed.

Lemma audited_rowOf f x r : audited f x r -> rowOf f r.
Proof.
  intros (s & rs & u & -> & H). unfold rowOf. simpl.
  split; [reflexivity | tauto].
Qed.

Lemma audited_all_rowOf f xs rs : Forall2 (audited f) xs rs -> Forall (rowOf f) rs.
Proof.
  induction 1 as [|x r xs rs Hx _ IH]; constructor; [|exact IH].
  exact (audited_rowOf _ _ _ Hx).
Qed.

Lemma processFiling_rows f st w st' w' :
  filingStep f st w = (Some st', w') ->
  exists rows,
    inventoryRows st' = (inventoryRows st ++ rows)%list /\
    Forall (rowOf f) rows /\
    (exhibitsBytesUsed st <= exhibitsBytesUsed st')%Z /\
    (capDeep caps = false -> within st -> within st').
Proof.
  intros E. destruct (opening f st w) as [[|st1|st3 docs] w2] eqn:Eo.
  - unfold processFiling in E. rewrite Eo in E. discriminate.
  - unfold processFiling in E. rewrite Eo in E. injection E as <- <-.
    destruct (openFiling_NoIndex _ _ _ _ _ Eo) as [Eb Ei].
    eexists. split; [exact Ei|]. split.
    + constructor; [|constructor]. split; [reflexivity|]. right.
      split; [reflexivity | discriminate].
    + unfold Pack.within. rewrite Eb. split; [lia | tauto].
  - destruct (processFiling_Indexed _ _ _ _ _ _ Eo)
      as (st'' & w'' & processed & rows & E' & Ei & _ & Ha & Hb).
    rewrite E in E'. injection E' as <- <-.
    eexists. split; [exact Ei|]. split; [|exact Hb].
    apply Forall_app. split.
    + destruct docs; simpl; [|constructor].
      constructor; [|constructor].
      split; [reflexivity|]. right. split; [reflexivity | discriminate].
    + exact (audited_all_rowOf _ _ _ Ha).
Qed.


Lemma processFilings_rows selected :
  forall st w st' w',
    run selected st w = (Some st', w') ->
    exists rows,
      inventoryRows st' = (inventoryRows st ++ rows)%list /\
      Forall (fun r => exists f, In f selected /\ rowOf f r) rows /\
      (exhibitsBytesUsed st <= exhibitsBytesUsed st')%Z /\
      (capDeep caps = false -> within st -> within st').
Proof.
  induction selected as [|f selected IH]; intros st w st' w' E; simpl in E.
  - injection E as <- <-. exists []. rewrite app_nil_r.
    split; [reflexivity|]. split; [constructor|]. split; [lia | tauto].
  - destruct (filingStep f st w) as [[st1|] w1] eqn:E1; [|discriminate].
    destruct (processFiling_rows _ _ _ _ _ E1) as (r1 & Ei1 & Hr1 & Hb1 & Hw1).
    destruct (IH _ _ _ _ E) as (r2 & Ei2 & Hr2 & Hb2 & Hw2).
    exists (r1 ++ r2)%list. rewrite Ei2, Ei1, <- app_assoc.
    split; [reflexivity|]. split; [|split; [lia | tauto]].
    apply Forall_app. split.
    + eapply Forall_impl; [|exact Hr1]. intros r Hr. exists f. simpl. tauto.
    + eapply Forall_impl; [|exact Hr2]. intros r [g [Hg Hr]]. exists g. simpl. tauto.
Qed.

(** C7. A document of a junk type (EX-101, EX-104) is never fetched nor
    accepted, whatever the caps and also in deep mode: its iteration
    leaves the network, the byte counter, the count of the filing, the
    archive and the list of downloads untouched, and pushes at most the
    SKIPPED row of the junk filter; in the inventory of a completed run
    every row of a junk type is SKIPPED. *)
Theorem junk_never_downloaded :
  (forall f base x st n w,
      isJunkType (type x) = true ->
      exists st',
        step f base x (st, n) w = ((st', n), w) /\
        exhibitsBytesUsed st' = exhibitsBytesUsed st /\
        archive st' = archive st /\
        downloadedExhibits st' = downloadedExhibits st /\
        (inventoryRows st' = inventoryRows st \/
         inventoryRows st' =
           (inventoryRows st
            ++ [docRow f x "SKIPPED" "junk (XBRL noise)" (base ++ "/" ++ filename x)])%list)) /\
  (forall selected w st' w',
      run selected start w = (Some st', w') ->
      forall r, In r (inventoryRows st') ->
                isJunkType (rowDocType r) = true -> rowStatus r = "SKIPPED").
Proof.
  split.
  - intros f base x st n w Hj. unfold stepDoc.
    destruct (negb (Str.truthy (filename x)) || negb (Str.truthy (type x))).
    + exists st. repeat split; try reflexivity. left; reflexivity.
    + rewrite Hj. eexists. split; [reflexivity|]. simpl. repeat split. right; reflexivity.
  - intros selected w st' w' E r Hr Hj.
    destruct (processFilings_rows _ _ _ _ _ E) as (rows & Ei & Ha & _).
    rewrite Ei in Hr. simpl in Hr. rewrite Forall_forall in Ha.
    destruct (Ha r Hr) as (f & _ & _ & [[_ Hn]|[Hs _]]); [congruence | exact Hs].
Qed.

(** C2 (as amended). Without deep mode, for a document that reaches
    the cap on the total size: before the download the only test is
    whether the bytes already accepted have reached [maxTotalBytes]
    (then the row is SKIPPED with reason [cap: maxTotalMB] and nothing is
    fetched); after the download the document is SKIPPED with reason
    [cap: would exceed maxTotalMB] when the accepted bytes plus its
    actual length exceed [maxTotalBytes], and is accepted otherwise. *)
Theorem total_size_cap_checks f base x st n w :
  capDeep caps = false ->
  filename x <> "" -> type x <> "" ->
  isJunkType (type x) = false ->
  isHighSignalExhibitType (type x) = true ->
  JsNum.ge (JsNum.ofZ n) (capPerFiling caps) = false ->
  let url := base ++ "/" ++ filename x in
  let used := exhibitsBytesUsed st in
  (JsNum.ge (JsNum.ofZ used) (capTotalBytes caps) = true ->
   step f base x (st, n) w =
     ((pushInventory (docRow f x "SKIPPED" "cap: maxTotalMB" url)
         (pushSkippedByCap (skipNote f x "skipped (maxTotalMB cap)") st), n), w)) /\
  (JsNum.ge (JsNum.ofZ used) (capTotalBytes caps) = false ->
   forall exBuf w',
     downloadAsBuffer url w = (Some exBuf, w') ->
     (JsNum.gt (JsNum.ofZ (used + byteLength exBuf)) (capTotalBytes caps) = true ->
      step f base x (st, n) w =
        ((pushInventory (docRow f x "SKIPPED" "cap: would exceed maxTotalMB" url)
            (pushSkippedByCap
               (skipNote f x "skipped (would exceed maxTotalMB cap)") st), n), w')) /\
     (JsNum.gt (JsNum.ofZ (used + byteLength exBuf)) (capTotalBytes caps) = false ->
      exists st',
        step f base x (st, n) w = ((st', n + 1)%Z, w') /\
        exhibitsBytesUsed st' = (used + byteLength exBuf)%Z /\
        inventoryRows st' =
          (inventoryRows st ++ [docRow f x "DOWNLOADED" "" url])%list)).
Proof.
  intros Hd Hf Ht Hj Hh Hn url used.
  apply truthy_true in Hf, Ht.
  unfold stepDoc. rewrite Hf, Ht, Hj, Hh, Hd, Hn. simpl negb. simpl orb. simpl andb.
  fold url. fold used. split.
  - intros ->. reflexivity.
  - intros -> exBuf w' ->. split.
    + intros ->. reflexivity.
    + intros ->. eexists. split; [reflexivity|]. simpl. split; reflexivity.
Qed.





End LoopFacts.

(** ** The query of the pack route *)

Lemma outOfRange_ofZ (n lo hi : Z) :
  Pack.outOfRange (JsNum.ofZ n) lo hi = negb ((lo <=? n)%Z && (n <=? hi)%Z).
Proof.
  unfold Pack.outOfRange, JsNum.gt, JsNum.lt, JsNum.ofZ, Qle_bool, inject_Z.
  cbn [Qnum Qden]. rewrite !Z.mul_1_r. rewrite negb_andb. reflexivity.
Qed.

Section QueryFacts.

Import Pack.

Variable Number : string -> JsNum.number.

Lemma numberOr_given (v : string) (dflt : Z) :
  v <> "" -> numberOr Number (Some v) dflt = Number v.
Proof. intros H. apply truthy_true in H. unfold numberOr. rewrite H. reflexivity. Qed.

(** What holds of the parameters once the query has passed validation. *)
Lemma GET_query_inr sp env p :
  GET_query Number sp env = inr p ->
  (daysBack p = numberOr Number (sp !! "daysBack") 365 /\
   JsNum.isNaN (daysBack p) = false /\ outOfRange (daysBack p) 30 730 = false) /\
  (maxEx p = numberOr Number (sp !! "maxEx") 25 /\
   JsNum.isNaN (maxEx p) = false /\ outOfRange (maxEx p) 1 100 = false) /\
  (maxMb p = numberOr Number (sp !! "maxMb") 75 /\
   JsNum.isNaN (maxMb p) = false /\ outOfRange (maxMb p) 5 500 = false) /\
  maxTotalBytes p =
    (if deep p then JsNum.PosInf
     else JsNum.mul (JsNum.mul (maxMb p) (JsNum.ofZ 1024)) (JsNum.ofZ 1024)) /\
  maxPerFiling p = (if deep p then JsNum.PosInf else maxEx p).
Proof.
  unfold GET_query.
  destruct (negb (Str.truthy _)); [discriminate|].
  destruct (JsNum.isNaN (numberOr Number (sp !! "daysBack") 365)) eqn:N1; [discriminate|].
  destruct (outOfRange (numberOr Number (sp !! "daysBack") 365) 30 730) eqn:R1;
    [discriminate|].
  destruct (JsNum.isNaN (numberOr Number (sp !! "maxEx") 25)) eqn:N2; [discriminate|].
  destruct (outOfRange (numberOr Number (sp !! "maxEx") 25) 1 100) eqn:R2;
    [discriminate|].
  destruct (JsNum.isNaN (numberOr Number (sp !! "maxMb") 75)) eqn:N3; [discriminate|].
  destruct (outOfRange (numberOr Number (sp !! "maxMb") 75) 5 500) eqn:R3;
    [discriminate|].
  destruct (negb (Str.truthy _)); [discriminate|].
  intros [= <-]. simpl. tauto.
Qed.

(** A rejected parameter ends the handler with status 400, whichever
    parameter it is. *)
Lemma GET_query_rejects sp env :
  (JsNum.isNaN (numberOr Number (sp !! "daysBack") 365) = true \/
   outOfRange (numberOr Number (sp !! "daysBack") 365) 30 730 = true \/
   JsNum.isNaN (numberOr Number (sp !! "maxEx") 25) = true \/
   outOfRange (numberOr Number (sp !! "maxEx") 25) 1 100 = true \/
   JsNum.isNaN (numberOr Number (sp !! "maxMb") 75) = true \/
   outOfRange (numberOr Number (sp !! "maxMb") 75) 5 500 = true) ->
  exists msg, GET_query Number sp env = inl (mkResponse 400 msg).
Proof.
  intros H. unfold GET_query.
  destruct (negb (Str.truthy _)); [eexists; reflexivity|].
  destruct (JsNum.isNaN (numberOr Number (sp !! "daysBack") 365)); [eexists; reflexivity|].
  destruct (outOfRange (numberOr Number (sp !! "daysBack") 365) 30 730);
    [eexists; reflexivity|].
  destruct (JsNum.isNaN (numberOr Number (sp !! "maxEx") 25)); [eexists; reflexivity|].
  destruct (outOfRange (numberOr Number (sp !! "maxEx") 25) 1 100);
    [eexists; reflexivity|].
  destruct (JsNum.isNaN (numberOr Number (sp !! "maxMb") 75)); [eexists; reflexivity|].
  destruct (outOfRange (numberOr Number (sp !! "maxMb") 75) 5 500);
    [eexists; reflexivity|].
  exfalso. intuition discriminate.
Qed.

(** A value that fails a test was given in the query: the defaults pass. *)
Lemma numberOr_bad (p : option string) (dflt lo hi : Z) :
  (lo <= dflt <= hi)%Z ->
  JsNum.isNaN (numberOr Number p dflt) = true \/
  outOfRange (numberOr Number p dflt) lo hi = true ->
  exists v,
    p = Some v /\ v <> "" /\
    (JsNum.isNaN (Number v) = true \/
     JsNum.lt (Number v) (JsNum.ofZ lo) = true \/
     JsNum.gt (Number v) (JsNum.ofZ hi) = true).
Proof.
  intros Hd H.
  assert (Hdflt : ~ (JsNum.isNaN (JsNum.ofZ dflt) = true \/
                     outOfRange (JsNum.ofZ dflt) lo hi = true)).
  { rewrite outOfRange_ofZ. intros [Hn|Ho]; [discriminate|].
    apply negb_true_iff, andb_false_iff in Ho.
    destruct Ho as [Ho|Ho]; apply Z.leb_gt in Ho; lia. }
  unfold numberOr in H. destruct p as [v|]; [|contradiction].
  destruct (Str.truthy v) eqn:Ev; [|contradiction].
  exists v. split; [reflexivity|]. split; [apply truthy_true; exact Ev|].
  unfold outOfRange in H. rewrite orb_true_iff in H. tauto.
Qed.

(** C9 (as amended). A [daysBack], [maxEx] or [maxMb] parameter that is
    present with a value other than the empty string, and whose value is
    not a number, lies below the minimum or lies above the maximum of its
    range, makes the handler answer 400; and the handler answers 400 for
    no other reason than such a parameter or a blank ticker: it does not
    test that a value is a whole number.  A request that passes uses the
    three numbers exactly as given (the defaults when absent or empty),
    without clamping or rounding. *)
Theorem query_parameters_strict sp env :
  (forall name lo hi dflt v,
      In (name, lo, hi, dflt)
         [("daysBack", 30, 730, 365); ("maxEx", 1, 100, 25); ("maxMb", 5, 500, 75)]%Z ->
      sp !! name = Some v ->
      v <> "" ->
      JsNum.isNaN (Number v) = true \/
      JsNum.lt (Number v) (JsNum.ofZ lo) = true \/
      JsNum.gt (Number v) (JsNum.ofZ hi) = true ->
      exists msg, GET_query Number sp env = inl (mkResponse 400 msg)) /\
  (forall msg,
      GET_query Number sp env = inl (mkResponse 400 msg) ->
      Str.toUpperCase (Str.trim (default "" (sp !! "ticker"))) = "" \/
      exists name lo hi dflt v,
        In (name, lo, hi, dflt)
           [("daysBack", 30, 730, 365); ("maxEx", 1, 100, 25); ("maxMb", 5, 500, 75)]%Z /\
        sp !! name = Some v /\
        v <> "" /\
        (JsNum.isNaN (Number v) = true \/
         JsNum.lt (Number v) (JsNum.ofZ lo) = true \/
         JsNum.gt (Number v) (JsNum.ofZ hi) = true)) /\
  (forall p,
      GET_query Number sp env = inr p ->
      daysBack p = numberOr Number (sp !! "daysBack") 365 /\
      maxEx p = numberOr Number (sp !! "maxEx") 25 /\
      maxMb p = numberOr Number (sp !! "maxMb") 75 /\
      (deep p = false ->
       maxPerFiling p = maxEx p /\
       maxTotalBytes p =
         JsNum.mul (JsNum.mul (maxMb p) (JsNum.ofZ 1024)) (JsNum.ofZ 1024))).
Proof.
  split; [|split].
  - intros name lo hi dflt v Hin Hv Hne Hbad.
    apply GET_query_rejects.
    assert (Hb : JsNum.isNaN (Number v) = true \/ outOfRange (Number v) lo hi = true).
    { unfold outOfRange. rewrite orb_true_iff. tauto. }
    simpl in Hin.
    destruct Hin as [[= <- <- <- <-]|[[= <- <- <- <-]|[[= <- <- <- <-]|[]]]];
      rewrite Hv, (numberOr_given v _ Hne); tauto.
  - intros msg. unfold GET_query.
    destruct (Str.truthy (Str.toUpperCase (Str.trim (default "" (sp !! "ticker")))))
      eqn:Et; cbn [negb].
    2:{ intros _. left. apply truthy_false. exact Et. }
    assert (Hbad : forall name lo hi dflt,
               In (name, lo, hi, dflt)
                  [("daysBack", 30, 730, 365); ("maxEx", 1, 100, 25);
                   ("maxMb", 5, 500, 75)]%Z ->
               (lo <= dflt <= hi)%Z ->
               JsNum.isNaN (numberOr Number (sp !! name) dflt) = true \/
               outOfRange (numberOr Number (sp !! name) dflt) lo hi = true ->
               Str.toUpperCase (Str.trim (default "" (sp !! "ticker"))) = "" \/
               exists name lo hi dflt v,
                 In (name, lo, hi, dflt)
                    [("daysBack", 30, 730, 365); ("maxEx", 1, 100, 25);
                     ("maxMb", 5, 500, 75)]%Z /\
                 sp !! name = Some v /\
                 v <> "" /\
                 (JsNum.isNaN (Number v) = true \/
                  JsNum.lt (Number v) (JsNum.ofZ lo) = true \/
                  JsNum.gt (Number v) (JsNum.ofZ hi) = true)).
    { intros name lo hi dflt Hin Hd H.
      destruct (numberOr_bad _ _ _ _ Hd H) as (v & Hv & Hne & Hb).
      right. exists name, lo, hi, dflt, v. tauto. }
    destruct (JsNum.isNaN (numberOr Number (sp !! "daysBack") 365)) eqn:N1.
    { intros _. apply (Hbad "daysBack" 30 730 365)%Z; [simpl; tauto | lia | tauto]. }
    destruct (outOfRange (numberOr Number (sp !! "daysBack") 365) 30 730) eqn:R1.
    { intros _. apply (Hbad "daysBack" 30 730 365)%Z; [simpl; tauto | lia | tauto]. }
    destruct (JsNum.isNaN (numberOr Number (sp !! "maxEx") 25)) eqn:N2.
    { intros _. apply (Hbad "maxEx" 1 100 25)%Z; [simpl; tauto | lia | tauto]. }
    destruct (outOfRange (numberOr Number (sp !! "maxEx") 25) 1 100) eqn:R2.
    { intros _. apply (Hbad "maxEx" 1 100 25)%Z; [simpl; tauto | lia | tauto]. }
    destruct (JsNum.isNaN (numberOr Number (sp !! "maxMb") 75)) eqn:N3.
    { intros _. apply (Hbad "maxMb" 5 500 75)%Z; [simpl; tauto | lia | tauto]. }
    destruct (outOfRange (numberOr Number (sp !! "maxMb") 75) 5 500) eqn:R3.
    { intros _. apply (Hbad "maxMb" 5 500 75)%Z; [simpl; tauto | lia | tauto]. }
    destruct (negb (Str.truthy (default "" env))); discriminate.
  - intros p E. apply GET_query_inr in E.
    destruct E as ((E1 & _) & (E2 & _) & (E3 & _) & Et & Ep).
    split; [exact E1|]. split; [exact E2|]. split; [exact E3|].
    intros Hd. rewrite Hd in Ep, Et. split; assumption.
Qed.


End QueryFacts.

(** ** The byte budget of a run *)

Section BudgetFacts.

Import Pack.

Variable Number : string -> JsNum.number.
Variable parseFloat : string -> JsNum.number.
Variable World : Type.
Variable downloadAsBuffer : string -> World -> option Buffer * World.
Variable cik10 : string.


End BudgetFacts.

(** ** Evaluation on the sample inputs *)

Example selection_scenario :
  List.map (fun x => (accessionNumber (filing x), reason x))
    (pickFilingsPackWithReasons IsoDate.parse 0 Sample.history1 365 (Some "2024-01-01"))
  = [("0000-23-000001", "latest 10-K");
     ("0000-23-000003", "10-Q (top 2) #1");
     ("0000-23-000002", "10-Q (top 2) #2")].
Proof. vm_compute. reflexivity. Qed.

Example catalogue_of_indexPage :
  getDocsFromIndexHtml Sample.indexPage
  = [mkExhibitDoc "1" "FORM 8-K" "8-K" "form8k.htm" "12345";
     Sample.pressRelease;
     mkExhibitDoc "3" "XBRL INSTANCE" "EX-101.INS" "x.xml" "500 KB"].
Proof. vm_compute. reflexivity. Qed.

Example run_on_filing8K :
  let st := fst (Pack.processFilings Dec.parseFloat unit Sample.download Sample.caps1MiB
                   "0000000001" [Sample.filing8K] Pack.start tt) in
  option_map (fun s => List.map (fun r => (Pack.rowDocType r, Pack.rowStatus r, Pack.rowReason r))
                                (Pack.inventoryRows s)) st
  = Some [("EX-99.1", "DOWNLOADED", "");
          ("8-K", "SKIPPED", "not high-signal (non-deep mode)");
          ("EX-101.INS", "SKIPPED", "junk (XBRL noise)")].
Proof. vm_compute. reflexivity. Qed.

Example triage_scenario :
  let docs := Pack.scored Dec.parseFloat Sample.exhibits3 in
  let st := fst (fst (Pack.exhibitLoop unit Sample.download Sample.caps10 Sample.filing8K
                        "base" docs (Pack.start, 0%Z) tt)) in
  List.map type docs = ["EX-10.1"; "EX-99.1"; "EX-101.INS"] /\
  List.map (fun r => (Pack.rowDocType r, Pack.rowStatus r, Pack.rowReason r))
           (Pack.inventoryRows st)
  = [("EX-10.1", "DOWNLOADED", "");
     ("EX-99.1", "SKIPPED", "cap: would exceed maxTotalMB");
     ("EX-101.INS", "SKIPPED", "junk (XBRL noise)")] /\
  Pack.exhibitsBytesUsed st = 7%Z.
Proof. vm_compute. repeat split. Qed.

Lemma total_size_cap_checks_witness :
  exists st',
    Pack.stepDoc unit Sample.download Sample.caps1MiB Sample.filing8K "base"
                 Sample.pressRelease (Pack.start, 0%Z) tt = ((st', 1%Z), tt) /\
    Pack.exhibitsBytesUsed st' = 7%Z /\
    Pack.inventoryRows st' =
      [Pack.docRow Sample.filing8K Sample.pressRelease "DOWNLOADED" "" "base/ex991.htm"].
Proof.
  assert (Hp : Pack.capDeep Sample.caps1MiB = false) by reflexivity.
  assert (Hf : filename Sample.pressRelease <> "") by discriminate.
  assert (Ht : type Sample.pressRelease <> "") by discriminate.
  assert (Hj : isJunkType (type Sample.pressRelease) = false) by reflexivity.
  assert (Hh : isHighSignalExhibitType (type Sample.pressRelease) = true) by reflexivity.
  assert (Hn : JsNum.ge (JsNum.ofZ 0) (Pack.capPerFiling Sample.caps1MiB) = false)
    by reflexivity.
  exact (proj2 (proj2 (total_size_cap_checks unit Sample.download Sample.caps1MiB
                         Sample.filing8K "base" Sample.pressRelease Pack.start 0%Z tt
                         Hp Hf Ht Hj Hh Hn)
                  eq_refl "payload" tt eq_refl) eq_refl).
Defined.

(** The press release reports 2000 KB, more than the cap of one mebibyte
    leaves, yet it is fetched and, being seven bytes long, accepted: the
    test before the download does not read the reported size. *)
Lemma reported_size_not_checked :
  let r := Pack.stepDoc unit Sample.download Sample.caps1MiB Sample.filing8K "base"
                        Sample.pressRelease (Pack.start, 0%Z) tt in
  JsNum.gt (JsNum.add (JsNum.ofZ (Pack.exhibitsBytesUsed Pack.start))
                      (parseSize Dec.parseFloat (sizeText Sample.pressRelease)))
           (Pack.capTotalBytes Sample.caps1MiB) = true /\
  List.map Pack.rowStatus (Pack.inventoryRows (fst (fst r))) = ["DOWNLOADED"] /\
  Pack.exhibitsBytesUsed (fst (fst r)) = 7%Z.
Proof. vm_compute. repeat split. Qed.

Lemma junk_never_downloaded_witness :
  exists st,
    Pack.processFilings Dec.parseFloat unit Sample.download Sample.caps1MiB
      "0000000001" [Sample.filing8K] Pack.start tt = (Some st, tt) /\
    forall r, In r (Pack.inventoryRows st) ->
              isJunkType (Pack.rowDocType r) = true -> Pack.rowStatus r = "SKIPPED".
Proof.
  assert (E : exists st,
             Pack.processFilings Dec.parseFloat unit Sample.download Sample.caps1MiB
               "0000000001" [Sample.filing8K] Pack.start tt = (Some st, tt))
    by (vm_compute; eexists; reflexivity).
  destruct E as [st E]. exists st. split; [exact E|].
  exact (proj2 (junk_never_downloaded Dec.parseFloat unit Sample.download Sample.caps1MiB
                  "0000000001") _ _ _ _ E).
Defined.



Lemma query_parameters_strict_witness :
  exists msg,
    Pack.GET_query Dec.Number Sample.queryDays29 Sample.agent
    = inl (Pack.mkResponse 400 msg).
Proof.
  apply (proj1 (query_parameters_strict Dec.Number Sample.queryDays29 Sample.agent)
           "daysBack" 30%Z 730%Z 365%Z "29").
  - left. reflexivity.
  - reflexivity.
  - discriminate.
  - right. left. reflexivity.
Defined.

(** Two requests that the handler does not reject although a parameter
    is not a whole number of its range: an empty [daysBack], for which the
    default of 365 days is used, and the values 30.5 and 1.5, which are
    used as they are, so that the cap per filing lies strictly between 1
    and 2. *)
Lemma empty_or_fractional_value_not_rejected :
  (Sample.queryDaysEmpty !! "daysBack" = Some "" /\
   exists p,
     Pack.GET_query Dec.Number Sample.queryDaysEmpty Sample.agent = inr p /\
     Pack.daysBack p = JsNum.ofZ 365) /\
  (Scenarios.queryFractional !! "daysBack" = Some "30.5" /\
   Scenarios.queryFractional !! "maxEx" = Some "1.5" /\
   exists p,
     Pack.GET_query Dec.Number Scenarios.queryFractional Sample.agent = inr p /\
     Pack.daysBack p = JsNum.Fin (305 # 10) /\
     JsNum.lt (JsNum.ofZ 30) (Pack.daysBack p) = true /\
     JsNum.lt (Pack.daysBack p) (JsNum.ofZ 31) = true /\
     Pack.maxPerFiling p = JsNum.Fin (15 # 10) /\
     JsNum.lt (JsNum.ofZ 1) (Pack.maxPerFiling p) = true /\
     JsNum.lt (Pack.maxPerFiling p) (JsNum.ofZ 2) = true).
Proof.
  split.
  - split; [reflexivity|]. vm_compute. eexists. split; reflexivity.
  - split; [reflexivity|]. split; [reflexivity|].
    vm_compute. eexists. repeat split.
Qed.

Lemma selection_dedup_first_rule_wins_witness :
  NoDup (List.map (fun x => accessionNumber (filing x))
           (pickFilingsPackWithReasons IsoDate.parse 0 Sample.history1 365
              (Some "2024-01-01"))).
Proof.
  exact (proj1 (selection_dedup_first_rule_wins IsoDate.parse 0 Sample.history1 365
                  (Some "2024-01-01"))).
Defined.

Lemma getDocsFromIndexHtml_rows_witness :
  getDocsFromIndexHtml Sample.indexPage
  = collectDocs (rowsOf (contentToParse Sample.indexPage)).
Proof.
  exact (proj2 (proj2 (getDocsFromIndexHtml_rows Sample.indexPage))).
Defined.

(** * Further properties *)

(** ** Normalised forms *)

Lemma upperChar_idem (c : ascii) : Str.upperChar (Str.upperChar c) = Str.upperChar c.
Proof. destruct c as [[] [] [] [] [] [] [] []]; reflexivity. Qed.

Lemma upperChar_white (c : ascii) : Str.isWhiteSpace (Str.upperChar c) = Str.isWhiteSpace c.
Proof. destruct c as [[] [] [] [] [] [] [] []]; reflexivity. Qed.

Lemma toUpperCase_idem (s : string) : Str.toUpperCase (Str.toUpperCase s) = Str.toUpperCase s.
Proof.
  induction s as [|c s IH]; simpl; [reflexivity|].
  rewrite upperChar_idem, IH. reflexivity.
Qed.

Lemma toUpperCase_trimStart (s : string) :
  Str.toUpperCase (Str.trimStart s) = Str.trimStart (Str.toUpperCase s).
Proof.
  induction s as [|c s IH]; simpl; [reflexivity|].
  rewrite upperChar_white. destruct (Str.isWhiteSpace c); [exact IH | reflexivity].
Qed.

Lemma toUpperCase_trimEnd (s : string) :
  Str.toUpperCase (Str.trimEnd s) = Str.trimEnd (Str.toUpperCase s).
Proof.
  induction s as [|c s IH]; simpl; [reflexivity|].
  rewrite <- IH, upperChar_white.
  destruct (Str.trimEnd s) as [|c' r']; simpl.
  - destruct (Str.isWhiteSpace c); reflexivity.
  - reflexivity.
Qed.

Lemma trimEnd_idem (s : string) : Str.trimEnd (Str.trimEnd s) = Str.trimEnd s.
Proof.
  induction s as [|c s IH]; simpl; [reflexivity|].
  destruct (Str.trimEnd s) as [|c' r'] eqn:E.
  - destruct (Str.isWhiteSpace c) eqn:W; simpl; [reflexivity|]. rewrite W. reflexivity.
  - remember (String c' r') as t eqn:Et. simpl. rewrite IH.
    subst t. reflexivity.
Qed.

Lemma trimStart_clean (s : string) : startsClean (Str.trimStart s).
Proof.
  induction s as [|c s IH]; simpl; [exact I|].
  destruct (Str.isWhiteSpace c) eqn:W; [exact IH | exact W].
Qed.

Lemma trimStart_of_clean (s : string) : startsClean s -> Str.trimStart s = s.
Proof. destruct s as [|c s]; simpl; [reflexivity|]. intros ->. reflexivity. Qed.

Lemma trimEnd_clean (s : string) : startsClean s -> startsClean (Str.trimEnd s).
Proof.
  destruct s as [|c s]; simpl; [tauto|]. intros W.
  destruct (Str.trimEnd s); [rewrite W|]; exact W.
Qed.

Lemma trim_idem (s : string) : Str.trim (Str.trim s) = Str.trim s.
Proof.
  unfold Str.trim.
  rewrite (trimStart_of_clean (Str.trimEnd (Str.trimStart s)))
    by apply trimEnd_clean, trimStart_clean.
  apply trimEnd_idem.
Qed.

Lemma toUpperCase_trim (s : string) :
  Str.toUpperCase (Str.trim s) = Str.trim (Str.toUpperCase s).
Proof. unfold Str.trim. rewrite toUpperCase_trimEnd, toUpperCase_trimStart. reflexivity. Qed.

(** X1. Normalising a form code twice is the same as normalising it once,
    so the three family tests give the same answer on a form and on its
    normalised spelling. *)
Theorem normForm_idempotent (f : string) :
  normForm (normForm f) = normForm f /\
  isS3 (normForm f) = isS3 f /\
  isProxy (normForm f) = isProxy f /\
  isProspectus (normForm f) = isProspectus f.
Proof.
  assert (H : normForm (normForm f) = normForm f).
  { unfold normForm. rewrite <- toUpperCase_trim, toUpperCase_idem, trim_idem.
    reflexivity. }
  unfold isS3, isProxy, isProspectus. rewrite H. repeat split.
Qed.

Lemma isProspectus_prefix (f : string) :
  isProspectus f = Str.startsWith (normForm f) "424B".
Proof.
  unfold isProspectus.
  destruct (Str.startsWith (normForm f) "424B") eqn:P; [reflexivity|].
  simpl.
  destruct (String.eqb_spec (normForm f) "424B5") as [E|_];
    [rewrite E in P; discriminate|].
  destruct (String.eqb_spec (normForm f) "424B3") as [E|_];
    [rewrite E in P; discriminate|].
  destruct (String.eqb_spec (normForm f) "424B2") as [E|_];
    [rewrite E in P; discriminate|].
  reflexivity.
Qed.

(** X2. The three spellings 424B5, 424B3 and 424B2 that [isProspectus]
    lists add nothing: a form is a prospectus exactly when its normalised
    code starts with 424B. *)
Theorem isProspectus_iff_prefix (f : string) :
  isProspectus f = Str.startsWith (normForm f) "424B".
Proof. exact (isProspectus_prefix f). Qed.

(** ** More on the filing selector *)

Section SelectorMore.

Variable Date_parse : string -> JsDate.t.
Variable now : Z.

(** X3. The selection never holds a filing that is not in the history,
    nor one of a form that no rule names: the normalised form of a selected
    filing is 10-K, 10-Q, 8-K, EFFECT, S-8 or 4, or belongs to the S-3, the
    424B or the proxy family. *)
Theorem selection_only_recognised_forms filings daysBack asOf x :
  In x (pickFilingsPackWithReasons Date_parse now filings daysBack asOf) ->
  In (filing x) filings /\
  (normForm (form (filing x)) = "10-K" \/
   normForm (form (filing x)) = "10-Q" \/
   normForm (form (filing x)) = "8-K" \/
   isS3 (form (filing x)) = true \/
   Str.startsWith (normForm (form (filing x))) "424B" = true \/
   normForm (form (filing x)) = "EFFECT" \/
   isProxy (form (filing x)) = true \/
   normForm (form (filing x)) = "S-8" \/
   normForm (form (filing x)) = "4").
Proof.
  intros H. apply dedup_incl, candidates_inv in H. destruct H as [He H].
  apply filter_In in He. split; [tauto|].
  rewrite isProspectus_prefix in H.
  rewrite !String.eqb_eq in H.
  destruct H as [H|[H|[[H _]|H]]]; [tauto | tauto | | tauto].
  unfold window8K in H. apply filter_In in H. destruct H as [_ H].
  apply andb_true_iff in H. destruct H as [H _]. apply String.eqb_eq in H. tauto.
Qed.

Lemma filter_none {A} (p : A -> bool) (l : list A) :
  (forall a, p a = false) -> List.filter p l = [].
Proof.
  intros H. induction l as [|a l IH]; simpl; [reflexivity|]. rewrite H. exact IH.
Qed.

(** X4. When [asOf] is given, is not empty and is not a date, nothing is
    selected: every comparison with the invalid reference date is false. *)
Theorem invalid_asOf_selects_nothing filings daysBack s :
  s <> "" ->
  Date_parse s = None ->
  pickFilingsPackWithReasons Date_parse now filings daysBack (Some s) = [].
Proof.
  intros Hs Hd.
  assert (He : eligible Date_parse now filings (Some s) = []).
  { unfold eligible. apply filter_none. intros f.
    unfold onOrBefore, asOfDate. apply truthy_true in Hs. rewrite Hs, Hd.
    unfold JsDate.le. destruct (Date_parse (filingDate f)); reflexivity. }
  unfold pickFilingsPackWithReasons, candidates, window8K. rewrite He. reflexivity.
Qed.

(** X5. The selection keeps the order of the rules and starts with the
    annual report: when some eligible filing is a 10-K, the first of them
    is the first entry of the selection, under the reason [latest 10-K]. *)
Theorem selection_starts_with_latest_10K filings daysBack asOf f :
  List.find (fun g => normForm (form g) =? "10-K") (eligible Date_parse now filings asOf)
    = Some f ->
  exists rest,
    pickFilingsPackWithReasons Date_parse now filings daysBack asOf
    = mkSelected f "latest 10-K" :: rest.
Proof.
  intros H. unfold pickFilingsPackWithReasons, candidates. rewrite H.
  cbn [pushFound app dedupByAccession filing].
  destruct (decide (accessionNumber f ∈ (∅ : gset string))) as [Hin|_].
  - exfalso. revert Hin. apply not_elem_of_empty.
  - eexists. reflexivity.
Qed.

End SelectorMore.

Lemma invalid_asOf_selects_nothing_witness :
  pickFilingsPackWithReasons IsoDate.parse 0 Sample.history1 365 (Some "yesterday") = [].
Proof.
  apply (invalid_asOf_selects_nothing IsoDate.parse 0 Sample.history1 365 "yesterday").
  - discriminate.
  - reflexivity.
Defined.

Lemma selection_only_recognised_forms_witness :
  In (mkFiling "10-K" "0000-23-000001" "2023-01-01" "k.htm") Sample.history1.
Proof.
  apply (selection_only_recognised_forms IsoDate.parse 0 Sample.history1 365
           (Some "2024-01-01")
           (mkSelected (mkFiling "10-K" "0000-23-000001" "2023-01-01" "k.htm")
                       "latest 10-K")).
  vm_compute. tauto.
Defined.

Lemma selection_starts_with_latest_10K_witness :
  exists rest,
    pickFilingsPackWithReasons IsoDate.parse 0 Sample.history1 365 (Some "2024-01-01")
    = mkSelected (mkFiling "10-K" "0000-23-000001" "2023-01-01" "k.htm") "latest 10-K"
      :: rest.
Proof.
  apply (selection_starts_with_latest_10K IsoDate.parse 0 Sample.history1 365
           (Some "2024-01-01")).
  reflexivity.
Defined.

(** ** The rules of the selector exclude one another *)

Lemma length_filter_sum {A} (p : A -> bool) (l : list A) :
  List.length (List.filter p l) = fold_right (fun a n => (Nat.b2n (p a) + n)%nat) O l.
Proof.
  induction l as [|a l IH]; simpl; [reflexivity|].
  destruct (p a); simpl; rewrite IH; reflexivity.
Qed.

Lemma ruleTests_count (fm : string) :
  (List.length (List.filter (fun t => t fm) ruleTests) <= 1)%nat.
Proof.
  rewrite length_filter_sum. unfold ruleTests. cbn [fold_right].
  rewrite isProspectus_prefix. unfold isS3, isProxy.
  set (nf := normForm fm). clearbody nf.
  destruct (String.eqb_spec nf "10-K") as [->|_]; [cbn; lia|].
  destruct (String.eqb_spec nf "10-Q") as [->|_]; [cbn; lia|].
  destruct (String.eqb_spec nf "8-K") as [->|_]; [cbn; lia|].
  destruct (String.eqb_spec nf "S-3") as [->|_]; [cbn; lia|].
  destruct (String.eqb_spec nf "S-3/A") as [->|_]; [cbn; lia|].
  destruct (String.eqb_spec nf "S-3MEF") as [->|_]; [cbn; lia|].
  destruct (String.eqb_spec nf "S-3ASR") as [->|_]; [cbn; lia|].
  destruct (String.eqb_spec nf "EFFECT") as [->|_]; [cbn; lia|].
  destruct (String.eqb_spec nf "DEF 14A") as [->|_]; [cbn; lia|].
  destruct (String.eqb_spec nf "DEFA14A") as [->|_]; [cbn; lia|].
  destruct (String.eqb_spec nf "DEF 14C") as [->|_]; [cbn; lia|].
  destruct (String.eqb_spec nf "PRE 14C") as [->|_]; [cbn; lia|].
  destruct (String.eqb_spec nf "S-8") as [->|_]; [cbn; lia|].
  destruct (String.eqb_spec nf "4") as [->|_]; [cbn; lia|].
  cbn. destruct (Str.startsWith nf "424B"); simpl; lia.
Qed.

(** X6. No form code passes the test of two rules: of the nine tests on
    the form made by the selector, at most one holds of any form. *)
Theorem rules_exclude_one_another (fm : string) :
  (List.length (List.filter (fun t => t fm) ruleTests) <= 1)%nat.
Proof. exact (ruleTests_count fm). Qed.

(** ** The selector on a history without duplicates *)

Lemma NoDup_firstn {A} (n : nat) (l : list A) : NoDup l -> NoDup (firstn n l).
Proof.
  revert l. induction n as [|n IH]; intros [|a l] H; simpl; try constructor.
  - inversion H as [|? ? Hn Hl]; subst. intros Hin. apply Hn.
    eapply in_firstn, Hin.
  - inversion H; subst. auto.
Qed.

Lemma in_concat_tested (ts : list (string -> bool)) (pieces : list (list Filing)) (a : Filing) :
  Forall2 (fun p t => NoDup p /\ forall b, In b p -> t (form b) = true) pieces ts ->
  In a (List.concat pieces) ->
  exists t, In t ts /\ t (form a) = true.
Proof.
  induction 1 as [|p t ps ts' [_ Hp] _ IH]; simpl; [tauto|].
  rewrite in_app_iff. intros [H|H].
  - exists t. split; [now left | auto].
  - destruct (IH H) as (t' & Ht' & Ha). exists t'. split; [now right | exact Ha].
Qed.

Lemma concat_tested_NoDup (ts : list (string -> bool)) (pieces : list (list Filing)) :
  Forall2 (fun p t => NoDup p /\ forall b, In b p -> t (form b) = true) pieces ts ->
  (forall fm, (List.length (List.filter (fun t => t fm) ts) <= 1)%nat) ->
  NoDup (List.concat pieces).
Proof.
  induction 1 as [|p t ps ts' [Hn Hp] Hrest IH]; intros Hx; simpl; [constructor|].
  apply List.NoDup_app.
  - exact Hn.
  - apply IH. intros fm. specialize (Hx fm). simpl in Hx.
    destruct (t fm); simpl in Hx; lia.
  - intros a Ha Hb.
    destruct (in_concat_tested _ _ _ Hrest Hb) as (t' & Ht' & Ht).
    specialize (Hx (form a)). simpl in Hx. rewrite (Hp a Ha) in Hx. simpl in Hx.
    assert (Hin : In t' (List.filter (fun t0 => t0 (form a)) ts'))
      by (apply filter_In; tauto).
    destruct (List.filter (fun t0 => t0 (form a)) ts'); [destruct Hin | simpl in Hx; lia].
Qed.

Lemma NoDup_map_injective_on {A B} (f : A -> B) (l : list A) :
  NoDup l ->
  (forall a b, In a l -> In b l -> f a = f b -> a = b) ->
  NoDup (List.map f l).
Proof.
  induction 1 as [|a l Hn Hl IH]; intros Hinj; simpl; constructor.
  - intros Hin. apply in_map_iff in Hin. destruct Hin as (b & E & Hb).
    assert (b = a) by (apply Hinj; simpl; auto). subst b. contradiction.
  - apply IH. intros x y Hx Hy. apply Hinj; simpl; auto.
Qed.

Lemma NoDup_map_injective {A B} (f : A -> B) (l : list A) (a b : A) :
  NoDup (List.map f l) -> In a l -> In b l -> f a = f b -> a = b.
Proof.
  induction l as [|c l IH]; simpl; [tauto|].
  intros H. inversion H as [|? ? Hn Hl]; subst.
  intros [->|Ha] [->|Hb] E; auto.
  - exfalso. apply Hn. rewrite E. apply in_map. exact Hb.
  - exfalso. apply Hn. rewrite <- E. apply in_map. exact Ha.
Qed.

Section UniqueHistory.

Variable Date_parse : string -> JsDate.t.
Variable now : Z.

Lemma dedup_id seen sel :
  NoDup (List.map (fun x => accessionNumber (filing x)) sel) ->
  (forall x, In x sel -> accessionNumber (filing x) ∉ seen) ->
  dedupByAccession seen sel = sel.
Proof.
  revert seen. induction sel as [|y sel IH]; intros seen Hn Hs; simpl; [reflexivity|].
  inversion Hn as [|? ? Hy Hn']; subst.
  destruct (decide (accessionNumber (filing y) ∈ seen)) as [Hin|_].
  - exfalso. apply (Hs y); [now left | exact Hin].
  - f_equal. apply IH; [exact Hn'|].
    intros x Hx Hu. apply elem_of_union in Hu. destruct Hu as [Hu|Hu].
    + apply elem_of_singleton in Hu. apply Hy. rewrite <- Hu.
      apply (in_map (fun x => accessionNumber (filing x))). exact Hx.
    + apply (Hs x); [now right | exact Hu].
Qed.

Lemma map_filing_pushFound x r : List.map filing (pushFound x r) = found x.
Proof. destruct x; reflexivity. Qed.

Lemma map_filing_pushIndexed r l : forall i, List.map filing (pushIndexed r i l) = l.
Proof. induction l as [|f l IH]; intros i; simpl; [reflexivity|]. rewrite IH. reflexivity. Qed.

Lemma found_tested (p : Filing -> bool) (l : list Filing) :
  NoDup (found (List.find p l)) /\ forall b, In b (found (List.find p l)) -> p b = true.
Proof.
  destruct (List.find p l) as [f|] eqn:E; simpl.
  - split; [constructor; [tauto | constructor]|].
    intros b [<-|[]]. apply find_some in E. tauto.
  - split; [constructor | tauto].
Qed.

Lemma candidates_filings_NoDup filings daysBack asOf :
  NoDup filings ->
  NoDup (List.map filing (candidates Date_parse now filings daysBack asOf)).
Proof.
  intros Hn.
  assert (He : NoDup (eligible Date_parse now filings asOf))
    by (apply NoDup_filter, Hn).
  unfold candidates. rewrite !map_app, !map_filing_pushFound, map_filing_pushIndexed.
  rewrite !map_map. cbn [filing]. rewrite !map_id.
  set (el := eligible Date_parse now filings asOf) in *.
  match goal with
  | |- NoDup (?p1 ++ ?p2 ++ ?p3 ++ ?p4 ++ ?p5 ++ ?p6 ++ ?p7 ++ ?p8 ++ ?p9) =>
      replace (p1 ++ p2 ++ p3 ++ p4 ++ p5 ++ p6 ++ p7 ++ p8 ++ p9)%list
        with (List.concat [p1; p2; p3; p4; p5; p6; p7; p8; p9])
        by (cbn [List.concat]; rewrite app_nil_r; reflexivity)
  end.
  apply (concat_tested_NoDup ruleTests); [|exact ruleTests_count].
  unfold ruleTests.
  assert (Hf : forall p : Filing -> bool,
             NoDup (found (List.find p el)) /\
             forall b, In b (found (List.find p el)) -> p b = true)
    by (intros p; apply found_tested).
  constructor; [exact (Hf (fun f => normForm (form f) =? "10-K"))|].
  constructor.
  { split; [apply NoDup_firstn, NoDup_filter, He|].
    intros b Hb. apply in_firstn, filter_In in Hb. tauto. }
  constructor.
  { split; [unfold window8K; apply NoDup_filter, He|].
    intros b Hb. unfold window8K in Hb. apply filter_In in Hb.
    destruct Hb as [_ Hb]. apply andb_true_iff in Hb. tauto. }
  constructor; [exact (Hf (fun f => isS3 (form f)))|].
  constructor; [exact (Hf (fun f => isProspectus (form f)))|].
  constructor; [exact (Hf (fun f => normForm (form f) =? "EFFECT"))|].
  constructor; [exact (Hf (fun f => isProxy (form f)))|].
  constructor; [exact (Hf (fun f => normForm (form f) =? "S-8"))|].
  constructor; [|constructor].
  split; [apply NoDup_filter, He|].
  intros b Hb. apply filter_In in Hb.
  destruct Hb as [_ Hb]. apply andb_true_iff in Hb. tauto.
Qed.

(** X7. On a history in which no accession number occurs twice (such as
    the merged history, which is deduplicated), the final filter of the
    selector removes nothing: the selection is exactly the pushes of the
    rules, in rule order, so every filing picked by a rule is kept under
    the reason of that rule. *)
Theorem unique_history_keeps_every_pick filings daysBack asOf :
  NoDup (List.map accessionNumber filings) ->
  pickFilingsPackWithReasons Date_parse now filings daysBack asOf
  = candidates Date_parse now filings daysBack asOf.
Proof.
  intros Hn. unfold pickFilingsPackWithReasons.
  apply dedup_id; [|intros x _; apply not_elem_of_empty].
  rewrite <- (map_map filing accessionNumber).
  apply NoDup_map_injective_on.
  - apply candidates_filings_NoDup. exact (NoDup_map_inv _ _ Hn).
  - intros a b Ha Hb E.
    apply (NoDup_map_injective accessionNumber filings a b Hn); [| |exact E].
    + apply in_map_iff in Ha. destruct Ha as (x & <- & Hx).
      apply candidates_inv in Hx. destruct Hx as [Hx _]. apply filter_In in Hx. tauto.
    + apply in_map_iff in Hb. destruct Hb as (x & <- & Hx).
      apply candidates_inv in Hx. destruct Hx as [Hx _]. apply filter_In in Hx. tauto.
Qed.

End UniqueHistory.

Lemma unique_history_keeps_every_pick_witness :
  pickFilingsPackWithReasons IsoDate.parse 0 Sample.history1 365 (Some "2024-01-01")
  = candidates IsoDate.parse 0 Sample.history1 365 (Some "2024-01-01").
Proof.
  apply (unique_history_keeps_every_pick IsoDate.parse 0 Sample.history1 365
           (Some "2024-01-01")).
  repeat constructor; simpl; intuition discriminate.
Defined.

(** ** Registry client *)

(** X8. [toFilingsFromRecent] yields exactly the records read at the
    positions of the [form] array at which all four arrays hold a
    non-empty string: no filing has an empty field, and none is read past
    the end of the shortest array. *)
Theorem toFilingsFromRecent_complete_rows (r : Client.SubmissionsRecent) (x : Filing) :
  In x (Client.toFilingsFromRecent (Some r)) <->
  exists i,
    (i < List.length (Client.recentForm r))%nat /\
    (i < List.length (Client.recentAccessionNumber r))%nat /\
    (i < List.length (Client.recentFilingDate r))%nat /\
    (i < List.length (Client.recentPrimaryDocument r))%nat /\
    form x <> "" /\ accessionNumber x <> "" /\ filingDate x <> "" /\
    primaryDocument x <> "" /\
    x = mkFiling (nth i (Client.recentForm r) "") (nth i (Client.recentAccessionNumber r) "")
                 (nth i (Client.recentFilingDate r) "")
                 (nth i (Client.recentPrimaryDocument r) "").
Proof.
  assert (Hlen : forall (l : list string) i, nth i l "" <> "" -> (i < List.length l)%nat).
  { intros l i H. destruct (Nat.lt_ge_cases i (List.length l)) as [|Hge]; [assumption|].
    rewrite nth_overflow in H by exact Hge. congruence. }
  unfold Client.toFilingsFromRecent. rewrite in_flat_map. split.
  - intros (i & Hi & Hx). apply in_seq in Hi. exists i.
    destruct (Str.truthy (nth i (Client.recentForm r) "")) eqn:E1; [|destruct Hx].
    destruct (Str.truthy (nth i (Client.recentAccessionNumber r) "")) eqn:E2; [|destruct Hx].
    destruct (Str.truthy (nth i (Client.recentFilingDate r) "")) eqn:E3; [|destruct Hx].
    destruct (Str.truthy (nth i (Client.recentPrimaryDocument r) "")) eqn:E4; [|destruct Hx].
    apply truthy_true in E1, E2, E3, E4.
    destruct Hx as [<-|[]]. simpl. repeat split; auto; lia.
  - intros (i & Hi & _ & _ & _ & H1 & H2 & H3 & H4 & ->). simpl in *.
    exists i. split; [apply in_seq; lia|].
    apply truthy_true in H1, H2, H3, H4. rewrite H1, H2, H3, H4. simpl. now left.
Qed.

Lemma uniq_as_dedup seen merged :
  Client.uniqByAccession seen merged
  = List.map filing (dedupByAccession seen (List.map (fun f => mkSelected f "") merged)).
Proof.
  revert seen. induction merged as [|x l IH]; intros seen; simpl; [reflexivity|].
  destruct (decide (accessionNumber x ∈ seen)); simpl; rewrite IH; reflexivity.
Qed.

(** X9. The merged history of [getAllFilingsOptionB], before it is
    sorted, holds no accession number twice; each filing kept is the first
    of the merged list with its accession number (so the recent window
    wins over the older index files), and no accession number is lost. *)
Theorem merged_history_unique (merged : list Filing) :
  let uniq := Client.uniqByAccession ∅ merged in
  NoDup (List.map accessionNumber uniq) /\
  (forall x, In x uniq ->
     exists before after,
       merged = (before ++ x :: after)%list /\
       forall y, In y before -> accessionNumber y <> accessionNumber x) /\
  (forall y, In y merged -> exists x, In x uniq /\ accessionNumber x = accessionNumber y).
Proof.
  cbv zeta. rewrite uniq_as_dedup.
  set (sel := List.map (fun f => mkSelected f "") merged).
  split; [|split].
  - rewrite map_map. apply dedup_NoDup.
  - intros x Hx. apply in_map_iff in Hx. destruct Hx as (e & <- & He).
    destruct (dedup_first _ _ _ He) as (b & a & Es & Hb).
    exists (List.map filing b), (List.map filing a). split.
    + assert (Em : List.map filing sel = merged).
      { unfold sel. rewrite map_map. simpl. apply map_id. }
      rewrite <- Em, Es, map_app. reflexivity.
    + intros y Hy. apply in_map_iff in Hy. destruct Hy as (e' & <- & He').
      apply Hb. exact He'.
  - intros y Hy.
    destruct (dedup_complete ∅ sel (mkSelected y "")) as (e & He & Ee).
    + unfold sel. apply in_map_iff. exists y. tauto.
    + apply not_elem_of_empty.
    + exists (filing e). split; [apply in_map; exact He | exact Ee].
Qed.

Section FetchFacts.

Variable World : Type.
Variable fetch : string -> World -> (Client.Response + string) * World.
Variable SEC_USER_AGENT : option string.

Abbreviation fetches tr := (List.length (List.filter Client.isFetch tr)).
Abbreviation sleeps tr := (List.length (List.filter Client.isSleep tr)).

Lemma retryLoop_facts url retries remaining :
  forall i w o tr w',
    Client.retryLoop World fetch url retries i remaining w = (o, tr, w') ->
    (fetches tr <= remaining)%nat /\
    (sleeps tr <= fetches tr)%nat /\
    (forall r, o = Client.Returned r ->
       fetches tr = S (sleeps tr) /\
       (exists w0, fetch url w0 = (inl r, w')) /\
       (Client.ok r = true \/
        (Client.status r <> 429 /\ (Client.status r < 500 \/ 600 <= Client.status r))%Z)).
Proof.
  induction remaining as [|rem IH]; intros i w o tr w'; cbn [Client.retryLoop].
  - intros [= <- <- <-]. simpl. split; [lia|]. split; [lia|]. discriminate.
  - destruct (fetch url w) as [[res|err] w1] eqn:Ef.
    + destruct (Client.ok res) eqn:Eo.
      { intros [= <- <- <-]. simpl. split; [lia|]. split; [lia|].
        intros r [= <-]. split; [reflexivity|]. split; [exists w; exact Ef | tauto]. }
      destruct (Z.eqb_spec (Client.status res) 429) as [E4|E4].
      { destruct (Client.retryLoop World fetch url retries (S i) rem w1)
          as [[o2 tr2] w2] eqn:E2.
        intros [= <- <- <-]. destruct (IH _ _ _ _ _ E2) as (H1 & H2 & H3).
        cbn. split; [lia|]. split; [lia|].
        intros r Hr. destruct (H3 r Hr) as (H4 & H5 & H6). split; [lia | tauto]. }
      destruct ((500 <=? Client.status res)%Z && (Client.status res <? 600)%Z) eqn:E5.
      { destruct (Client.retryLoop World fetch url retries (S i) rem w1)
          as [[o2 tr2] w2] eqn:E2.
        intros [= <- <- <-]. destruct (IH _ _ _ _ _ E2) as (H1 & H2 & H3).
        cbn. split; [lia|]. split; [lia|].
        intros r Hr. destruct (H3 r Hr) as (H4 & H5 & H6). split; [lia | tauto]. }
      intros [= <- <- <-]. simpl. split; [lia|]. split; [lia|].
      intros r [= <-]. split; [reflexivity|]. split; [exists w; exact Ef|].
      right. split; [exact E4|].
      apply andb_false_iff in E5. destruct E5 as [E5|E5]; [left | right]; lia.
    + destruct (Nat.eqb i (retries - 1)).
      { intros [= <- <- <-]. simpl. split; [lia|]. split; [lia|]. discriminate. }
      destruct (Client.retryLoop World fetch url retries (S i) rem w1)
        as [[o2 tr2] w2] eqn:E2.
      intros [= <- <- <-]. destruct (IH _ _ _ _ _ E2) as (H1 & H2 & H3).
      cbn. split; [lia|]. split; [lia|].
      intros r Hr. destruct (H3 r Hr) as (H4 & H5 & H6). split; [lia | tauto].
Qed.

Lemma fetchWithRetry_returned_from_network url retries w r tr w' :
  Client.fetchWithRetry World fetch SEC_USER_AGENT url retries w
    = (Client.Returned r, tr, w') ->
  exists w0, fetch url w0 = (inl r, w').
Proof.
  unfold Client.fetchWithRetry. destruct (Client.envMissing SEC_USER_AGENT); [discriminate|].
  intros E. destruct (retryLoop_facts _ _ _ _ _ _ _ _ E) as (_ & _ & H).
  destruct (H r eq_refl) as (_ & H1 & _). exact H1.
Qed.

(** X10. [fetchWithRetry] never hands back a rate-limited or
    server-error response: a response it returns is one the network gave
    for that URL, and either it is ok or its status is neither 429 nor in
    500-599. *)
Theorem fetchWithRetry_returns_final_response url retries w r tr w' :
  Client.fetchWithRetry World fetch SEC_USER_AGENT url retries w
    = (Client.Returned r, tr, w') ->
  (exists w0, fetch url w0 = (inl r, w')) /\
  (Client.ok r = true \/
   (Client.status r <> 429 /\ (Client.status r < 500 \/ 600 <= Client.status r))%Z).
Proof.
  unfold Client.fetchWithRetry. destruct (Client.envMissing SEC_USER_AGENT); [discriminate|].
  intros E. destruct (retryLoop_facts _ _ _ _ _ _ _ _ E) as (_ & _ & H).
  destruct (H r eq_refl) as (_ & H1 & H2). tauto.
Qed.

(** X11. [fetchWithRetry] sends at most [retries] requests and awaits at
    most one timer per request; when it returns a response it has sent one
    request more than it has awaited timers; and when the client
    identification is not configured it throws without sending anything. *)
Theorem fetchWithRetry_bounded url retries w :
  let '(o, tr, w') := Client.fetchWithRetry World fetch SEC_USER_AGENT url retries w in
  (fetches tr <= retries)%nat /\
  (sleeps tr <= fetches tr)%nat /\
  (forall r, o = Client.Returned r -> fetches tr = S (sleeps tr)) /\
  (Client.envMissing SEC_USER_AGENT = true ->
   tr = [] /\ w' = w /\ exists e, o = Client.Threw e).
Proof.
  unfold Client.fetchWithRetry. destruct (Client.envMissing SEC_USER_AGENT).
  - simpl. split; [lia|]. split; [lia|]. split; [discriminate|].
    intros _. split; [reflexivity|]. split; [reflexivity|]. eexists. reflexivity.
  - destruct (Client.retryLoop World fetch url retries 0 retries w) as [[o tr] w'] eqn:E.
    destruct (retryLoop_facts _ _ _ _ _ _ _ _ E) as (H1 & H2 & H3).
    split; [exact H1|]. split; [exact H2|]. split; [|discriminate].
    intros r Hr. apply (H3 r Hr).
Qed.

Lemma retryLoop_schedule url retries remaining :
  (forall u w0 res w1, fetch u w0 = (inl res, w1) -> Client.retryAfter res = None) ->
  forall i w o tr w',
    Client.retryLoop World fetch url retries i remaining w = (o, tr, w') ->
    List.filter Client.isSleep tr
    = List.map (fun k => Client.Sleep (Some (Client.backoff k)))
               (List.seq i (sleeps tr)).
Proof.
  intros Hh. induction remaining as [|rem IH]; intros i w o tr w'; cbn [Client.retryLoop].
  - intros [= <- <- <-]. reflexivity.
  - destruct (fetch url w) as [[res|err] w1] eqn:Ef.
    + destruct (Client.ok res); [intros [= <- <- <-]; reflexivity|].
      rewrite (Hh _ _ _ _ Ef).
      destruct (Z.eqb (Client.status res) 429).
      { destruct (Client.retryLoop World fetch url retries (S i) rem w1)
          as [[o2 tr2] w2] eqn:E2.
        intros [= <- <- <-]. cbn. rewrite (IH _ _ _ _ _ E2) at 1. reflexivity. }
      destruct ((500 <=? Client.status res)%Z && (Client.status res <? 600)%Z).
      { destruct (Client.retryLoop World fetch url retries (S i) rem w1)
          as [[o2 tr2] w2] eqn:E2.
        intros [= <- <- <-]. cbn. rewrite (IH _ _ _ _ _ E2) at 1. reflexivity. }
      intros [= <- <- <-]. reflexivity.
    + destruct (Nat.eqb i (retries - 1)); [intros [= <- <- <-]; reflexivity|].
      destruct (Client.retryLoop World fetch url retries (S i) rem w1)
        as [[o2 tr2] w2] eqn:E2.
      intros [= <- <- <-]. cbn. rewrite (IH _ _ _ _ _ E2) at 1. reflexivity.
Qed.

(** X12. When no response carries a [Retry-After] header, the timers
    awaited by [fetchWithRetry] follow the exponential schedule: the k-th
    one lasts 1000 * 2^k milliseconds. *)
Theorem fetchWithRetry_backoff_doubles url retries w o tr w' :
  (forall u w0 res w1, fetch u w0 = (inl res, w1) -> Client.retryAfter res = None) ->
  Client.fetchWithRetry World fetch SEC_USER_AGENT url retries w = (o, tr, w') ->
  List.filter Client.isSleep tr
  = List.map (fun k => Client.Sleep (Some (1000 * 2 ^ Z.of_nat k)%Z))
             (List.seq 0 (sleeps tr)).
Proof.
  intros Hh. unfold Client.fetchWithRetry.
  destruct (Client.envMissing SEC_USER_AGENT); [intros [= <- <- <-]; reflexivity|].
  intros E. exact (retryLoop_schedule _ _ _ Hh _ _ _ _ _ E).
Qed.

(** X13. [downloadAsBuffer] yields bytes only when the network gave a
    response with an ok status for that URL, and the bytes are the body of
    that response: the body of an error page is never handed over. *)
Theorem downloadAsBuffer_only_ok_bodies url w b w' :
  Client.downloadAsBuffer World fetch SEC_USER_AGENT url w = (Some b, w') ->
  exists res w0,
    fetch url w0 = (inl res, w') /\ Client.ok res = true /\ Client.body res = b.
Proof.
  unfold Client.downloadAsBuffer, Client.downloadAsBufferTraced.
  destruct (Client.fetchWithRetry World fetch SEC_USER_AGENT url 3 w)
    as [[[res|e] tr] w1] eqn:E; [|discriminate].
  destruct (Client.ok res) eqn:Eo; [|discriminate].
  intros [= <- <-].
  destruct (fetchWithRetry_returned_from_network url 3 w res tr w1 E) as [w0 H].
  exists res, w0. tauto.
Qed.

End FetchFacts.

(** ** Company identifiers *)

Lemma digitsOf_step (c : ascii) (k acc : Z) (s : string) :
  Str.digit c = Some k ->
  Str.digitsOf acc (String c s)
  = (let '(v, n, rest) := Str.digitsOf (10 * acc + k) s in (v, S n, rest)).
Proof. intros H. cbn [Str.digitsOf]. rewrite H. reflexivity. Qed.

Lemma digitsOf_uint_acc (d : Decimal.uint) :
  forall p : positive,
    Str.digitsOf (Z.pos p) (NilEmpty.string_of_uint d)
    = (Z.pos (Pos.of_uint_acc d p), Decimal.nb_digits d, "").
Proof.
  induction d; intros p; cbn [NilEmpty.string_of_uint Decimal.nb_digits Pos.of_uint_acc];
    [reflexivity|..].
  all: erewrite digitsOf_step by (vm_compute; reflexivity).
  all: match goal with
       | |- context [Str.digitsOf ?a _] =>
           match goal with
           | |- context [Pos.of_uint_acc _ ?q] =>
               replace a with (Z.pos q) by lia
           end
       end.
  all: rewrite IHd; reflexivity.
Qed.

Lemma digitsOf_uint (d : Decimal.uint) :
  Str.digitsOf 0 (NilEmpty.string_of_uint d)
  = (Z.of_N (Pos.of_uint d), Decimal.nb_digits d, "").
Proof.
  induction d; cbn [NilEmpty.string_of_uint Decimal.nb_digits Pos.of_uint];
    [reflexivity|..].
  all: erewrite digitsOf_step by (vm_compute; reflexivity).
  - change (10 * 0 + 0) with 0. rewrite IHd. reflexivity.
  - change (10 * 0 + 1) with (Z.pos 1). rewrite digitsOf_uint_acc. reflexivity.
  - change (10 * 0 + 2) with (Z.pos 2). rewrite digitsOf_uint_acc. reflexivity.
  - change (10 * 0 + 3) with (Z.pos 3). rewrite digitsOf_uint_acc. reflexivity.
  - change (10 * 0 + 4) with (Z.pos 4). rewrite digitsOf_uint_acc. reflexivity.
  - change (10 * 0 + 5) with (Z.pos 5). rewrite digitsOf_uint_acc. reflexivity.
  - change (10 * 0 + 6) with (Z.pos 6). rewrite digitsOf_uint_acc. reflexivity.
  - change (10 * 0 + 7) with (Z.pos 7). rewrite digitsOf_uint_acc. reflexivity.
  - change (10 * 0 + 8) with (Z.pos 8). rewrite digitsOf_uint_acc. reflexivity.
  - change (10 * 0 + 9) with (Z.pos 9). rewrite digitsOf_uint_acc. reflexivity.
Qed.

(** The decimal spelling of a number that is not negative reads back as
    that number, and has a digit. *)
Lemma digitsOf_ofZ (n : Z) :
  0 <= n ->
  exists k, Str.digitsOf 0 (Str.ofZ n) = (n, S k, "").
Proof.
  intros Hn. unfold Str.ofZ. destruct n as [|p|p]; [exists O; reflexivity | | lia].
  cbn [Z.to_int NilZero.string_of_int].
  pose proof (Unsigned.to_uint_nonnil p) as Hnil.
  assert (E : NilZero.string_of_uint (Pos.to_uint p) = NilEmpty.string_of_uint (Pos.to_uint p)).
  { unfold NilZero.string_of_uint. destruct (Pos.to_uint p); [congruence | reflexivity..]. }
  rewrite E, digitsOf_uint, Unsigned.of_to.
  destruct (Pos.to_uint p); [congruence|..]; eexists; reflexivity.
Qed.

Lemma digitsOf_zero (s : string) :
  Str.digitsOf 0 (String "0"%char s)
  = (let '(v, n, rest) := Str.digitsOf 0 s in (v, S n, rest)).
Proof. reflexivity. Qed.

Lemma digitsOf_filler (k : nat) (s : string) (v : Z) (n : nat) (r : string) :
  Str.digitsOf 0 s = (v, n, r) ->
  Str.digitsOf 0 (Client.filler k "0"%char ++ s) = (v, (k + n)%nat, r).
Proof.
  intros H. induction k as [|k IH]; [exact H|].
  cbn [Client.filler append]. rewrite digitsOf_zero, IH. reflexivity.
Qed.

(** On a string that starts with a digit, [parseInt] reads the digits. *)
Lemma parseIntString_digits (c : ascii) (s : string) (k : Z) :
  Str.digit c = Some k ->
  Str.parseIntString (String c s)
  = (let '(v, n, _) := Str.digitsOf 0 (String c s) in Str.ofZ v).
Proof.
  intros H. destruct c as [[] [] [] [] [] [] [] []]; try discriminate H.
  all: unfold Str.parseIntString; cbn [Str.trimStart].
  all: match goal with
       | |- context [Str.isWhiteSpace ?c] =>
           let b := eval vm_compute in (Str.isWhiteSpace c) in
           change (Str.isWhiteSpace c) with b
       end; cbv iota beta.
  all: erewrite digitsOf_step by (vm_compute; reflexivity).
  all: destruct (Str.digitsOf _ s) as [[v' n'] r']; reflexivity.
Qed.

Lemma ofZ_starts_with_digit (n : Z) :
  0 <= n -> exists c s k, Str.ofZ n = String c s /\ Str.digit c = Some k.
Proof.
  intros Hn. destruct (digitsOf_ofZ n Hn) as [k E].
  destruct (Str.ofZ n) as [|c s]; [discriminate|].
  cbn [Str.digitsOf] in E. destruct (Str.digit c) as [d|] eqn:Ed; [|discriminate].
  exists c, s, d. tauto.
Qed.

Lemma cik_roundtrip (n : Z) :
  0 <= n ->
  Str.parseIntString (Client.padStart 10 "0"%char (Str.ofZ n)) = Str.ofZ n /\
  (10 <= String.length (Client.padStart 10 "0"%char (Str.ofZ n)))%nat.
Proof.
  intros Hn. split.
  - destruct (digitsOf_ofZ n Hn) as [k E].
    destruct (ofZ_starts_with_digit n Hn) as (c & s & d & Es & Ed).
    unfold Client.padStart.
    pose proof (digitsOf_filler (10 - String.length (Str.ofZ n)) _ _ _ _ E) as Hf.
    destruct (10 - String.length (Str.ofZ n))%nat as [|m] eqn:Em.
    + cbn [Client.filler append]. rewrite Es in E. rewrite Es at 1.
      rewrite (parseIntString_digits c s d Ed), E. reflexivity.
    + cbn [Client.filler append] in Hf |- *.
      rewrite (parseIntString_digits "0"%char _ 0 eq_refl), Hf. reflexivity.
  - unfold Client.padStart.
    assert (L : forall k c, String.length (Client.filler k c) = k)
      by (induction k as [|k IH]; intros c; simpl; [|rewrite IH]; reflexivity).
    assert (La : forall a b, String.length (a ++ b) = (String.length a + String.length b)%nat)
      by (induction a as [|x a IH]; intros b; simpl; [|rewrite IH]; reflexivity).
    rewrite La, L. lia.
Qed.

Lemma find_first {A} (p : A -> bool) (l : list A) (x : A) :
  List.find p l = Some x ->
  exists before after,
    l = (before ++ x :: after)%list /\ p x = true /\
    Forall (fun y => p y = false) before.
Proof.
  induction l as [|y l IH]; cbn [List.find]; [discriminate|].
  destruct (p y) eqn:Ey.
  - intros [= <-]. exists [], l. split; [reflexivity|]. split; [exact Ey | constructor].
  - intros H. destruct (IH H) as (before & after & -> & Hx & Hb).
    exists (y :: before), after. split; [reflexivity|]. split; [exact Hx|].
    constructor; assumption.
Qed.

(** X14. The identifier that [getCikForTicker] builds for a ticker is
    that of the first entry of the mapping whose ticker is the same up to
    case: no entry before it has that ticker.  It is the decimal number of
    that entry padded with zeros, has ten characters or more, and
    [filingBasePath] recovers the number of that entry from it: zero
    padding and [parseInt] undo each other. *)
Theorem cik_number_recovered (t : string) (tickers : list Client.TickerEntry)
    (cik10 : string) (f : Filing) :
  Forall (fun e => 0 <= Client.cik_str e) tickers ->
  Client.lookupCik t tickers = Client.Returned cik10 ->
  exists before e after,
    tickers = (before ++ e :: after)%list /\
    Forall (fun y => Str.toUpperCase (Client.ticker y) <> Str.toUpperCase t) before /\
    Str.toUpperCase (Client.ticker e) = Str.toUpperCase t /\
    cik10 = Client.padStart 10 "0"%char (Str.ofZ (Client.cik_str e)) /\
    (10 <= String.length cik10)%nat /\
    filingBasePath cik10 f
    = "https://www.sec.gov/Archives/edgar/data/" ++ Str.ofZ (Client.cik_str e) ++ "/"
      ++ Str.replaceChar "-"%char "" (accessionNumber f).
Proof.
  intros Hpos. unfold Client.lookupCik.
  destruct (List.find _ tickers) as [e|] eqn:E; [|discriminate].
  intros [= <-]. apply find_first in E.
  destruct E as (before & after & -> & Ht & Hb).
  apply String.eqb_eq in Ht.
  assert (He : 0 <= Client.cik_str e).
  { rewrite Forall_forall in Hpos. apply Hpos, in_or_app. right. left. reflexivity. }
  destruct (cik_roundtrip (Client.cik_str e) He) as [Hr Hl].
  exists before, e, after. split; [reflexivity|]. split.
  { eapply Forall_impl; [|exact Hb]. intros y Hy. cbv beta in Hy.
    apply String.eqb_neq. exact Hy. }
  split; [exact Ht|]. split; [reflexivity|]. split; [exact Hl|].
  unfold filingBasePath. rewrite Hr. reflexivity.
Qed.

Section TickerFacts.

Variable World : Type.
Variable fetch : string -> World -> (Client.Response + string) * World.
Variable SEC_USER_AGENT : option string.
Variable parseTickers : string -> Client.Outcome (list Client.TickerEntry).

Abbreviation getCik := (Client.getCikForTicker World fetch SEC_USER_AGENT parseTickers).

(** X15. A call of [getCikForTicker] at time [now] with a cached
    mapping less than 24 hours old sends no request, changes nothing and
    answers from that mapping.  Otherwise the mapping is requested: when
    the request throws, when the response is not ok and when its body
    cannot be read, the call throws and the cache is left as it was (a
    stale mapping is kept); when the body is read, the mapping read from
    it is stored with the time [now] and answers the call, and every call
    made less than 24 hours after [now] is answered from it without a
    request. *)
Theorem ticker_cache_behaviour (t : string) (now : Z) (c : Client.Cache) (w : World) :
  (forall tickers,
      Client.cachedTickers c = Some tickers ->
      now - Client.lastTickerFetch c < Client.CACHE_TTL_MS ->
      getCik t now c w = (Client.lookupCik t tickers, [], c, w)) /\
  (Client.cachedTickers c = None \/
   Client.CACHE_TTL_MS <= now - Client.lastTickerFetch c ->
   (forall e tr w',
       Client.fetchWithRetry World fetch SEC_USER_AGENT Client.tickersUrl 3 w
         = (Client.Threw e, tr, w') ->
       getCik t now c w = (Client.Threw e, tr, c, w')) /\
   (forall res tr w',
       Client.fetchWithRetry World fetch SEC_USER_AGENT Client.tickersUrl 3 w
         = (Client.Returned res, tr, w') ->
       (Client.ok res = false ->
        getCik t now c w
        = (Client.Threw ("Failed to fetch company_tickers.json: "
                         ++ Str.ofZ (Client.status res)), tr, c, w')) /\
       (Client.ok res = true ->
        forall e,
          parseTickers (Client.body res) = Client.Threw e ->
          getCik t now c w = (Client.Threw e, tr, c, w')) /\
       (Client.ok res = true ->
        forall tickers,
          parseTickers (Client.body res) = Client.Returned tickers ->
          getCik t now c w
          = (Client.lookupCik t tickers, tr, Client.mkCache (Some tickers) now, w') /\
          forall t2 now2 w2,
            now2 - now < Client.CACHE_TTL_MS ->
            getCik t2 now2 (Client.mkCache (Some tickers) now) w2
            = (Client.lookupCik t2 tickers, [], Client.mkCache (Some tickers) now, w2)))).
Proof.
  assert (Hhit : forall t2 now2 c1 w1 tickers,
             Client.cachedTickers c1 = Some tickers ->
             now2 - Client.lastTickerFetch c1 < Client.CACHE_TTL_MS ->
             getCik t2 now2 c1 w1 = (Client.lookupCik t2 tickers, [], c1, w1)).
  { intros t2 now2 c1 w1 tickers Hc Hn. unfold Client.getCikForTicker. rewrite Hc.
    destruct (Z.geb_spec (now2 - Client.lastTickerFetch c1) Client.CACHE_TTL_MS);
      [lia | reflexivity]. }
  split; [intros tickers Hc Hn; apply Hhit; assumption|].
  intros Hstale.
  assert (Hgo : getCik t now c w
                = Client.refreshTickers World fetch SEC_USER_AGENT parseTickers t now c w).
  { unfold Client.getCikForTicker.
    destruct (Client.cachedTickers c) as [tickers0|] eqn:Ec; [|reflexivity].
    destruct Hstale as [Hs|Hs]; [discriminate|].
    destruct (Z.geb_spec (now - Client.lastTickerFetch c) Client.CACHE_TTL_MS);
      [reflexivity | lia]. }
  rewrite Hgo. unfold Client.refreshTickers. split.
  - intros e tr w' ->. reflexivity.
  - intros res tr w' ->. split; [|split].
    + intros ->. reflexivity.
    + intros -> e ->. reflexivity.
    + intros -> tickers ->. split; [reflexivity|].
      intros t2 now2 w2 Hn. apply Hhit; [reflexivity | exact Hn].
Qed.

End TickerFacts.

Lemma cik_number_recovered_witness :
  exists before e after,
    Registry.listing = (before ++ e :: after)%list /\
    Forall (fun y => Str.toUpperCase (Client.ticker y) <> Str.toUpperCase "msft") before /\
    Str.toUpperCase (Client.ticker e) = Str.toUpperCase "msft" /\
    "0000789019" = Client.padStart 10 "0"%char (Str.ofZ (Client.cik_str e)) /\
    (10 <= String.length "0000789019")%nat /\
    filingBasePath "0000789019" Sample.filing8K
    = "https://www.sec.gov/Archives/edgar/data/" ++ Str.ofZ (Client.cik_str e) ++ "/"
      ++ Str.replaceChar "-"%char "" (accessionNumber Sample.filing8K).
Proof.
  apply (cik_number_recovered "msft").
  - repeat constructor; simpl; lia.
  - vm_compute. reflexivity.
Defined.

Lemma fetchWithRetry_returns_final_response_witness :
  (exists w0,
      Scripted.fetch [Scripted.unavailable; Scripted.notFound] "https://www.sec.gov/x" w0
      = (inl (Client.mkResponse 404 None "<h1>Not Found</h1>"), 2%nat)) /\
  (Client.ok (Client.mkResponse 404 None "<h1>Not Found</h1>") = true \/
   (Client.status (Client.mkResponse 404 None "<h1>Not Found</h1>") <> 429 /\
    (Client.status (Client.mkResponse 404 None "<h1>Not Found</h1>") < 500 \/
     600 <= Client.status (Client.mkResponse 404 None "<h1>Not Found</h1>")))%Z).
Proof.
  apply (fetchWithRetry_returns_final_response nat
           (Scripted.fetch [Scripted.unavailable; Scripted.notFound]) Scripted.agent
           "https://www.sec.gov/x" 3 0%nat _
           [Client.Fetch "https://www.sec.gov/x"; Client.Sleep (Some 1000%Z);
            Client.Fetch "https://www.sec.gov/x"]).
  vm_compute. reflexivity.
Defined.

Lemma fetchWithRetry_backoff_doubles_witness :
  List.filter Client.isSleep
    [Client.Fetch "https://www.sec.gov/x"; Client.Sleep (Some 1000%Z);
     Client.Fetch "https://www.sec.gov/x"; Client.Sleep (Some 2000%Z);
     Client.Fetch "https://www.sec.gov/x"; Client.Sleep (Some 4000%Z)]
  = List.map (fun k => Client.Sleep (Some (1000 * 2 ^ Z.of_nat k)%Z)) (List.seq 0 3).
Proof.
  assert (H1 : forall u w0 res w1,
             Scripted.fetch [Scripted.unavailable; Scripted.unavailable; Scripted.unavailable]
                            u w0 = (inl res, w1) ->
             Client.retryAfter res = None)
    by (intros u [|[|[|[|n]]]] res w1 E; vm_compute in E; inversion E; reflexivity).
  exact (fetchWithRetry_backoff_doubles nat
           (Scripted.fetch [Scripted.unavailable; Scripted.unavailable; Scripted.unavailable])
           Scripted.agent "https://www.sec.gov/x" 3 0%nat
           (Client.Threw "Failed to fetch https://www.sec.gov/x after 3 retries")
           [Client.Fetch "https://www.sec.gov/x"; Client.Sleep (Some 1000%Z);
            Client.Fetch "https://www.sec.gov/x"; Client.Sleep (Some 2000%Z);
            Client.Fetch "https://www.sec.gov/x"; Client.Sleep (Some 4000%Z)]
           3%nat H1 eq_refl).
Defined.

Lemma downloadAsBuffer_only_ok_bodies_witness :
  exists res w0,
    Scripted.fetch [Scripted.unavailable; Scripted.page "<html>8-K</html>"]
                   "https://www.sec.gov/x" w0 = (inl res, 2%nat) /\
    Client.ok res = true /\ Client.body res = "<html>8-K</html>".
Proof.
  apply (downloadAsBuffer_only_ok_bodies nat
           (Scripted.fetch [Scripted.unavailable; Scripted.page "<html>8-K</html>"])
           Scripted.agent "https://www.sec.gov/x" 0%nat).
  vm_compute. reflexivity.
Defined.

(** ** Invariants of a run *)

Section RunFacts.

Import Pack.

Variable parseFloat : string -> JsNum.number.
Variable World : Type.
Variable downloadAsBuffer : string -> World -> option Buffer * World.
Variable caps : Caps.
Variable cik10 : string.

Abbreviation stepR := (stepDoc World downloadAsBuffer caps).
Abbreviation loopR := (exhibitLoop World downloadAsBuffer caps).
Abbreviation openingR := (openFiling World downloadAsBuffer cik10).
Abbreviation filingStepR := (processFiling parseFloat World downloadAsBuffer caps cik10).
Abbreviation runR := (processFilings parseFloat World downloadAsBuffer caps cik10).

Ltac step_cases x st n w :=
  unfold stepDoc;
  destruct (negb (Str.truthy (filename x)) || negb (Str.truthy (type x))) eqn:Hblank; [|
  destruct (isJunkType (type x)) eqn:Hjunk; [|
  destruct (negb (capDeep caps) && negb (isHighSignalExhibitType (type x))) eqn:Hsig; [|
  destruct (negb (capDeep caps) && JsNum.ge (JsNum.ofZ n) (capPerFiling caps)) eqn:Hper; [|
  destruct (negb (capDeep caps)
            && JsNum.ge (JsNum.ofZ (exhibitsBytesUsed st)) (capTotalBytes caps)) eqn:Htot; [|
  match goal with
  | |- context [downloadAsBuffer ?u w] =>
      destruct (downloadAsBuffer u w) as [[exBuf|] w1] eqn:Hdl; [
      destruct (negb (capDeep caps)
                && JsNum.gt (JsNum.ofZ (exhibitsBytesUsed st + byteLength exBuf))
                            (capTotalBytes caps)) eqn:Hpost |]
  end]]]]].

Section Invariant.

Variable I : Run -> Prop.

Hypothesis I_archive :
  forall folder name buf st,
    folder = "filings/" \/ folder = "indexes/" ->
    I st -> I (archiveAppend (folder ++ name) buf st).
Hypothesis I_indexNotFound : forall x st, I st -> I (pushIndexNotFound x st).
Hypothesis I_filingRow :
  forall f reason url st,
    reason = "index not found (cannot enumerate docs)" \/
    reason = "index parsed but no docs rows found (parser/table variance)" ->
    I st -> I (pushInventory (filingRow f reason url) st).
Hypothesis I_disabled :
  capExhibits caps = false ->
  forall f x url st, I st -> I (pushInventory (docRow f x "SKIPPED" "exhibits disabled" url) st).
Hypothesis I_step :
  capExhibits caps = true ->
  forall f base x st n w, I st -> I (fst (fst (stepR f base x (st, n) w))).

Lemma loop_invariant f base docs :
  capExhibits caps = true ->
  forall st n w, I st -> I (fst (fst (loopR f base docs (st, n) w))).
Proof using I_step.
  intros He. induction docs as [|x docs IH]; intros st n w Hi; cbn [exhibitLoop].
  - exact Hi.
  - pose proof (I_step He f base x st n w Hi) as H.
    destruct (stepR f base x (st, n) w) as [[st1 n1] w1]. apply IH. exact H.
Qed.

Lemma disabled_invariant f base docs :
  capExhibits caps = false ->
  forall st, I st -> I (pushInventoryAll (disabledRows f base docs) st).
Proof using I_disabled.
  intros He. unfold pushInventoryAll, disabledRows.
  induction docs as [|x docs IH]; intros st Hi; simpl; [exact Hi|].
  apply IH. apply I_disabled; assumption.
Qed.

Lemma filing_invariant f st w st' w' :
  filingStepR f st w = (Some st', w') -> I st -> I st'.
Proof using I_archive I_indexNotFound I_filingRow I_disabled I_step.
  unfold processFiling, openFiling. intros E Hi.
  destruct (downloadAsBuffer (filingArchiveUrl cik10 f) w) as [[mainBuf|] w1];
    [|discriminate].
  destruct (downloadAsBuffer (filingIndexUrl cik10 f) w1) as [[idxBuf|] w2].
  - set (st2 := archiveAppend _ idxBuf _) in E.
    assert (H2 : I st2) by (unfold st2; repeat apply I_archive; auto).
    set (st3 := if Nat.eqb _ 0 then _ else st2) in E.
    assert (H3 : I st3).
    { unfold st3. destruct (Nat.eqb _ 0); [apply I_filingRow; auto | exact H2]. }
    clearbody st3. clear H2. clearbody st2.
    assert (He : capExhibits caps = true \/ capExhibits caps = false)
      by (destruct (capExhibits caps); auto).
    destruct He as [He|He]; rewrite He in E; cbn [negb] in E.
    + pose proof (loop_invariant f (filingBasePath cik10 f)
                    (scored parseFloat (getDocsFromIndexHtml idxBuf)) He st3 0 w2 H3) as H.
      destruct (loopR f _ _ (st3, 0) w2) as [[st4 n4] w3].
      injection E as <- <-. exact H.
    + injection E as <- <-. apply disabled_invariant; assumption.
  - injection E as <- <-. apply I_filingRow; [auto|].
    apply I_indexNotFound. apply (I_archive "filings/"); auto.
Qed.

Lemma run_invariant selected :
  forall st w st' w', runR selected st w = (Some st', w') -> I st -> I st'.
Proof using I_archive I_indexNotFound I_filingRow I_disabled I_step.
  induction selected as [|f selected IH]; intros st w st' w' E Hi; simpl in E.
  - injection E as <- <-. exact Hi.
  - destruct (filingStepR f st w) as [[st1|] w1] eqn:E1; [|discriminate].
    eapply IH; [exact E|]. eapply filing_invariant; eassumption.
Qed.

End Invariant.

Ltac new_row :=
  cbn [inventoryRows pushInventory pushSkippedByFilter pushSkippedByCap archiveAppend
       pushDownloaded addBytes pushIndexNotFound];
  apply Forall_app; split; [assumption | constructor; [|constructor]].

(** X16. Without deep mode, every document that a completed run records
    as DOWNLOADED has a high-signal exhibit type. *)
Theorem shallow_run_downloads_only_high_signal selected w st w' :
  capDeep caps = false ->
  runR selected start w = (Some st, w') ->
  forall r,
    In r (inventoryRows st) ->
    rowStatus r = "DOWNLOADED" ->
    isHighSignalExhibitType (rowDocType r) = true.
Proof.
  intros Hd E.
  apply (proj1 (Forall_forall
                  (fun r => rowStatus r = "DOWNLOADED" ->
                            isHighSignalExhibitType (rowDocType r) = true) _)).
  apply (run_invariant
           (fun st => Forall (fun r => rowStatus r = "DOWNLOADED" ->
                                       isHighSignalExhibitType (rowDocType r) = true)
                             (inventoryRows st))) with (6 := E).
  - intros folder name buf st0 _ H. exact H.
  - intros x st0 H. exact H.
  - intros f reason url st0 _ H. new_row. discriminate.
  - intros _ f x url st0 H. new_row. discriminate.
  - intros _ f base x st0 n w0 H. step_cases x st0 n w0; cbn [fst]; try exact H;
      new_row; try discriminate.
    intros _. cbn [rowDocType docRow]. rewrite Hd in Hsig. cbn [negb andb] in Hsig.
    destruct (isHighSignalExhibitType (type x)); [reflexivity | discriminate].
  - constructor.
Qed.

(** X17. In deep mode no document is skipped for a cap or for the
    high-signal filter: the list of cap skips of a completed run is empty,
    and every row of its inventory is DOWNLOADED or carries one of the
    reasons junk, download failed, exhibits disabled, index not found or
    index without rows. *)
Theorem deep_run_lifts_caps_and_filter selected w st w' :
  capDeep caps = true ->
  runR selected start w = (Some st, w') ->
  skippedByCap st = [] /\
  forall r,
    In r (inventoryRows st) ->
    (rowStatus r = "DOWNLOADED" /\ rowReason r = "") \/
    (rowStatus r = "SKIPPED" /\
     In (rowReason r)
        ["junk (XBRL noise)"; "download failed"; "exhibits disabled";
         "index not found (cannot enumerate docs)";
         "index parsed but no docs rows found (parser/table variance)"]).
Proof.
  intros Hd E.
  set (ok := fun r : InventoryRow =>
               (rowStatus r = "DOWNLOADED" /\ rowReason r = "") \/
               (rowStatus r = "SKIPPED" /\
                In (rowReason r)
                   ["junk (XBRL noise)"; "download failed"; "exhibits disabled";
                    "index not found (cannot enumerate docs)";
                    "index parsed but no docs rows found (parser/table variance)"])).
  enough (H : skippedByCap st = [] /\ Forall ok (inventoryRows st)).
  { destruct H as [H1 H2]. split; [exact H1|]. exact (proj1 (Forall_forall ok _) H2). }
  apply (run_invariant
           (fun st => skippedByCap st = [] /\ Forall ok (inventoryRows st))) with (6 := E).
  - intros folder name buf st0 _ H. exact H.
  - intros x st0 H. exact H.
  - intros f reason url st0 Hr [H1 H2]. split; [exact H1|]. new_row.
    right. split; [reflexivity|]. cbn [rowReason filingRow In].
    destruct Hr as [-> | ->]; auto 10.
  - intros _ f x url st0 [H1 H2]. split; [exact H1|]. new_row.
    right. split; [reflexivity|]. cbn [rowReason docRow In]. auto 10.
  - intros _ f base x st0 n w0 [H1 H2]. unfold stepDoc. rewrite Hd. cbn [negb andb].
    destruct (negb (Str.truthy (filename x)) || negb (Str.truthy (type x)));
      [split; assumption|].
    destruct (isJunkType (type x)).
    { cbn [fst]. split; [exact H1|]. new_row.
      right. split; [reflexivity|]. cbn [rowReason docRow In]. auto 10. }
    match goal with
    | |- context [downloadAsBuffer ?u w0] =>
        destruct (downloadAsBuffer u w0) as [[exBuf|] w1]
    end; cbn [fst]; (split; [exact H1|]); new_row.
    + left. split; reflexivity.
    + right. split; [reflexivity|]. cbn [rowReason docRow In]. auto 10.
  - split; [reflexivity | constructor].
Qed.

Lemma filter_snoc {A} (p : A -> bool) (l : list A) (x : A) :
  List.filter p (l ++ [x])%list = (List.filter p l ++ (if p x then [x] else []))%list.
Proof. rewrite List.filter_app. reflexivity. Qed.

Lemma exhibitBytes_snoc (entries : list (string * Buffer)) (e : string * Buffer) :
  Ledger.exhibitBytes (entries ++ [e])%list
  = (Ledger.exhibitBytes entries
     + (if Ledger.isExhibitEntry e then byteLength (snd e) else 0))%Z.
Proof.
  unfold Ledger.exhibitBytes. rewrite filter_snoc.
  induction (List.filter Ledger.isExhibitEntry entries) as [|y l IH]; simpl.
  - destruct (Ledger.isExhibitEntry e); simpl; lia.
  - rewrite IH. lia.
Qed.

Lemma prefix_app (p s : string) : String.prefix p (p ++ s) = true.
Proof.
  induction p as [|a p IH]; simpl; [destruct s; reflexivity|].
  destruct (ascii_dec a a); [exact IH | contradiction].
Qed.

Lemma isExhibitEntry_exhibits (name : string) (buf : Buffer) :
  Ledger.isExhibitEntry ("exhibits/" ++ name, buf) = true.
Proof. apply prefix_app. Qed.

(** X18. The byte counter of a completed run is the number of bytes of
    the exhibits written to the archive; the list of downloaded exhibits,
    the entries under [exhibits/] and the DOWNLOADED rows of the
    inventory are equally many. *)
Theorem run_ledger_consistent selected w st w' :
  runR selected start w = (Some st, w') ->
  exhibitsBytesUsed st = Ledger.exhibitBytes (archive st) /\
  List.length (downloadedExhibits st)
  = List.length (List.filter Ledger.isExhibitEntry (archive st)) /\
  List.length (List.filter Ledger.isDownloadedRow (inventoryRows st))
  = List.length (downloadedExhibits st).
Proof.
  intros E.
  apply (run_invariant
           (fun st =>
              exhibitsBytesUsed st = Ledger.exhibitBytes (archive st) /\
              List.length (downloadedExhibits st)
              = List.length (List.filter Ledger.isExhibitEntry (archive st)) /\
              List.length (List.filter Ledger.isDownloadedRow (inventoryRows st))
              = List.length (downloadedExhibits st))) with (6 := E).
  - intros folder name buf st0 Hf (H1 & H2 & H3).
    cbn [exhibitsBytesUsed archive downloadedExhibits inventoryRows archiveAppend].
    rewrite exhibitBytes_snoc, filter_snoc.
    assert (Hn : Ledger.isExhibitEntry (folder ++ name, buf) = false)
      by (destruct Hf as [-> | ->]; reflexivity).
    rewrite Hn, app_nil_r. repeat split; [lia | assumption..].
  - intros x st0 H. exact H.
  - intros f reason url st0 _ (H1 & H2 & H3).
    cbn [exhibitsBytesUsed archive downloadedExhibits inventoryRows pushInventory].
    rewrite filter_snoc. cbn. rewrite app_nil_r. tauto.
  - intros _ f x url st0 (H1 & H2 & H3).
    cbn [exhibitsBytesUsed archive downloadedExhibits inventoryRows pushInventory].
    rewrite filter_snoc. cbn. rewrite app_nil_r. tauto.
  - intros _ f base x st0 n w0 (H1 & H2 & H3).
    step_cases x st0 n w0; cbn [fst]; try tauto;
      cbn [exhibitsBytesUsed archive downloadedExhibits inventoryRows pushInventory
           pushSkippedByFilter pushSkippedByCap archiveAppend pushDownloaded addBytes];
      rewrite filter_snoc.
    1-5,7: cbn; rewrite app_nil_r; tauto.
    rewrite exhibitBytes_snoc, filter_snoc.
    rewrite isExhibitEntry_exhibits.
    change (Ledger.isDownloadedRow (docRow f x "DOWNLOADED" "" (base ++ "/" ++ filename x)))
      with true. cbv iota.
    cbn [snd]. rewrite !length_app. cbn [List.length]. repeat split; lia.
  - repeat split.
Qed.

(** X19. When exhibits are disabled a completed run downloads no
    exhibit: the byte counter stays at zero, nothing is listed as
    downloaded or skipped by a cap or a filter, no entry is written under
    [exhibits/] and every row of the inventory is SKIPPED. *)
Theorem exhibits_disabled_downloads_nothing selected w st w' :
  capExhibits caps = false ->
  runR selected start w = (Some st, w') ->
  exhibitsBytesUsed st = 0 /\
  downloadedExhibits st = [] /\ skippedByCap st = [] /\ skippedByFilter st = [] /\
  (forall e, In e (archive st) -> Ledger.isExhibitEntry e = false) /\
  (forall r, In r (inventoryRows st) -> rowStatus r = "SKIPPED").
Proof.
  intros He E.
  enough (H : exhibitsBytesUsed st = 0 /\
              downloadedExhibits st = [] /\ skippedByCap st = [] /\
              skippedByFilter st = [] /\
              Forall (fun e => Ledger.isExhibitEntry e = false) (archive st) /\
              Forall (fun r => rowStatus r = "SKIPPED") (inventoryRows st)).
  { rewrite !Forall_forall in H. exact H. }
  apply (run_invariant
           (fun st =>
              exhibitsBytesUsed st = 0 /\
              downloadedExhibits st = [] /\ skippedByCap st = [] /\
              skippedByFilter st = [] /\
              Forall (fun e => Ledger.isExhibitEntry e = false) (archive st) /\
              Forall (fun r => rowStatus r = "SKIPPED") (inventoryRows st)))
    with (6 := E).
  - intros folder name buf st0 Hf (H1 & H2 & H3 & H4 & H5 & H6).
    repeat split; try assumption.
    cbn [archive archiveAppend]. apply Forall_app. split; [assumption|].
    constructor; [|constructor]. destruct Hf as [-> | ->]; reflexivity.
  - intros x st0 H. exact H.
  - intros f reason url st0 _ (H1 & H2 & H3 & H4 & H5 & H6).
    repeat split; try assumption. new_row. reflexivity.
  - intros _ f x url st0 (H1 & H2 & H3 & H4 & H5 & H6).
    repeat split; try assumption. new_row. reflexivity.
  - intros Ht. congruence.
  - repeat split; constructor.
Qed.

Lemma ge_ofZ (a b : Z) : JsNum.ge (JsNum.ofZ a) (JsNum.ofZ b) = (b <=? a)%Z.
Proof.
  unfold JsNum.ge, JsNum.le, JsNum.ofZ, Qle_bool, inject_Z. cbn [Qnum Qden].
  rewrite !Z.mul_1_r. reflexivity.
Qed.

Lemma isDownloadedRow_docRow f x status reason url :
  Ledger.isDownloadedRow (docRow f x status reason url) = (status =? "DOWNLOADED").
Proof. reflexivity. Qed.

Lemma loop_count f base docs (m : Z) :
  capDeep caps = false ->
  capPerFiling caps = JsNum.ofZ m ->
  forall st n w,
    (n <= m)%Z ->
    exists rows,
      inventoryRows (fst (fst (loopR f base docs (st, n) w)))
      = (inventoryRows st ++ rows)%list /\
      snd (fst (loopR f base docs (st, n) w))
      = (n + Z.of_nat (List.length (List.filter Ledger.isDownloadedRow rows)))%Z /\
      (snd (fst (loopR f base docs (st, n) w)) <= m)%Z.
Proof.
  intros Hd Hc. induction docs as [|x docs IH]; intros st n w Hn; cbn [exhibitLoop].
  - exists []. cbn. rewrite app_nil_r. repeat split; lia.
  - assert (Hs : exists st1 n1 w1 new,
               stepR f base x (st, n) w = ((st1, n1), w1) /\
               inventoryRows st1 = (inventoryRows st ++ new)%list /\
               n1 = (n + Z.of_nat (List.length (List.filter Ledger.isDownloadedRow new)))%Z /\
               (n1 <= m)%Z).
    { step_cases x st n w.
      1: exists st, n, w, []; cbn; rewrite app_nil_r; repeat split; lia.
      1-5,7: do 3 eexists; eexists [_]; split; [reflexivity|]; split; [reflexivity|];
        cbn [List.filter]; rewrite isDownloadedRow_docRow;
        change ("SKIPPED" =? "DOWNLOADED") with false; cbn; split; lia.
      do 3 eexists. eexists [_]. split; [reflexivity|]. split; [reflexivity|].
      cbn [List.filter]. rewrite isDownloadedRow_docRow.
      change ("DOWNLOADED" =? "DOWNLOADED") with true. cbn. split; [lia|].
      rewrite Hd, Hc, ge_ofZ in Hper. cbn [negb andb] in Hper.
      apply Z.leb_gt in Hper. lia. }
    destruct Hs as (st1 & n1 & w1 & new & -> & Hi & Hn1 & Hm).
    destruct (IH st1 n1 w1 Hm) as (rows & Er & En & Hm').
    exists (new ++ rows)%list. rewrite Er, Hi, <- app_assoc, List.filter_app, length_app.
    repeat split; [rewrite En; lia | exact Hm'].
Qed.

Lemma disabledRows_none_downloaded f base docs :
  List.filter Ledger.isDownloadedRow (disabledRows f base docs) = [].
Proof. induction docs as [|x docs IH]; [reflexivity | exact IH]. Qed.

(** X20. Without deep mode and with a whole number [m] as the cap per
    filing, processing one filing adds at most [m] DOWNLOADED rows to the
    inventory. *)
Theorem per_filing_cap_respected f st w st' w' (m : Z) :
  capDeep caps = false ->
  capPerFiling caps = JsNum.ofZ m ->
  (0 <= m)%Z ->
  filingStepR f st w = (Some st', w') ->
  exists rows,
    inventoryRows st' = (inventoryRows st ++ rows)%list /\
    (Z.of_nat (List.length (List.filter Ledger.isDownloadedRow rows)) <= m)%Z.
Proof.
  intros Hd Hc Hm E. unfold processFiling in E.
  destruct (openingR f st w) as [[|st1|st3 docs] w2] eqn:Eo; [discriminate| |].
  - injection E as <- <-.
    destruct (openFiling_NoIndex World downloadAsBuffer cik10 _ _ _ _ _ Eo) as [_ Ei].
    eexists. split; [exact Ei|]. cbn. lia.
  - destruct (openFiling_Indexed World downloadAsBuffer cik10 _ _ _ _ _ _ Eo)
      as (_ & _ & Ei).
    assert (Hmk : List.filter Ledger.isDownloadedRow (Pack.emptyMarker cik10 f docs) = [])
      by (destruct docs; reflexivity).
    destruct (negb (capExhibits caps)).
    + injection E as <- <-.
      destruct (pushInventoryAll_rows (disabledRows f (filingBasePath cik10 f) docs) st3)
        as [Er _].
      eexists. rewrite Er, Ei, <- app_assoc. split; [reflexivity|].
      rewrite List.filter_app, Hmk, disabledRows_none_downloaded. cbn. lia.
    + destruct (loop_count f (filingBasePath cik10 f) (scored parseFloat docs) m Hd Hc
                  st3 0%Z w2 Hm) as (rows & Er & En & Hle).
      destruct (loopR f _ _ (st3, 0%Z) w2) as [[st4 n4] w3].
      injection E as <- <-. cbn [fst snd] in Er, En, Hle.
      eexists. rewrite Er, Ei, <- app_assoc. split; [reflexivity|].
      rewrite List.filter_app, Hmk. cbn [app]. lia.
Qed.

Lemma filingStep_None f st w w' :
  filingStepR f st w = (None, w') <->
  downloadAsBuffer (filingArchiveUrl cik10 f) w = (None, w').
Proof.
  unfold processFiling, openFiling.
  destruct (downloadAsBuffer (filingArchiveUrl cik10 f) w) as [[mainBuf|] w1].
  - destruct (downloadAsBuffer (filingIndexUrl cik10 f) w1) as [[idxBuf|] w2].
    + destruct (negb (capExhibits caps)); [split; discriminate|].
      destruct (loopR f _ _ _ w2) as [[st4 n4] w3]. split; discriminate.
    + split; discriminate.
  - split; intros [= <-]; reflexivity.
Qed.

(** X21. A run is abandoned exactly when the download of the main
    document of a selected filing fails: the filings before it were
    processed, nothing is tried after it, and no failure to fetch an index
    page or an exhibit ends the run. *)
Theorem run_abandoned_iff_main_document_fails selected st w w' :
  runR selected st w = (None, w') <->
  exists pre f post stj wj,
    selected = (pre ++ f :: post)%list /\
    runR pre st w = (Some stj, wj) /\
    downloadAsBuffer (filingArchiveUrl cik10 f) wj = (None, w').
Proof.
  revert st w. induction selected as [|f selected IH]; intros st w; cbn [processFilings].
  - split; [discriminate|].
    intros (pre & g & post & _ & _ & E & _). destruct pre; discriminate.
  - destruct (filingStepR f st w) as [[st1|] w1] eqn:E1.
    + rewrite IH. split.
      * intros (pre & g & post & stj & wj & Es & Ep & Ed).
        exists (f :: pre), g, post, stj, wj. cbn [processFilings app].
        rewrite E1, Es. tauto.
      * intros (pre & g & post & stj & wj & Es & Ep & Ed).
        destruct pre as [|f0 pre]; cbn [app] in Es; injection Es as Ef Es.
        -- subst g. cbn in Ep. injection Ep as <- <-.
           apply (proj2 (filingStep_None f st w w')) in Ed. congruence.
        -- subst f0. cbn [processFilings] in Ep. rewrite E1 in Ep.
           exists pre, g, post, stj, wj. tauto.
    + split.
      * intros [= <-]. exists [], f, selected, st, w.
        split; [reflexivity|]. split; [reflexivity|].
        exact (proj1 (filingStep_None _ _ _ _) E1).
      * intros (pre & g & post & stj & wj & Es & Ep & Ed).
        destruct pre as [|f0 pre]; cbn [app] in Es; injection Es as Ef Es.
        -- subst g. cbn in Ep. injection Ep as <- <-.
           apply (proj2 (filingStep_None f st w w')) in Ed. congruence.
        -- subst f0. cbn [processFilings] in Ep. rewrite E1 in Ep. discriminate.
Qed.

End RunFacts.

Lemma shallow_run_downloads_only_high_signal_witness :
  exists st,
    Pack.processFilings Dec.parseFloat unit Sample.download Sample.caps1MiB
      "0000000001" [Sample.filing8K] Pack.start tt = (Some st, tt) /\
    forall r, In r (Pack.inventoryRows st) ->
              Pack.rowStatus r = "DOWNLOADED" ->
              isHighSignalExhibitType (Pack.rowDocType r) = true.
Proof.
  assert (E : exists st,
             Pack.processFilings Dec.parseFloat unit Sample.download Sample.caps1MiB
               "0000000001" [Sample.filing8K] Pack.start tt = (Some st, tt))
    by (vm_compute; eexists; reflexivity).
  destruct E as [st E]. exists st. split; [exact E|].
  exact (shallow_run_downloads_only_high_signal Dec.parseFloat unit Sample.download
           Sample.caps1MiB "0000000001" _ _ _ _ eq_refl E).
Defined.

Lemma deep_run_lifts_caps_and_filter_witness :
  exists st,
    Pack.processFilings Dec.parseFloat unit Sample.download Scenarios.capsDeep
      "0000000001" [Sample.filing8K] Pack.start tt = (Some st, tt) /\
    Pack.skippedByCap st = [].
Proof.
  assert (E : exists st,
             Pack.processFilings Dec.parseFloat unit Sample.download Scenarios.capsDeep
               "0000000001" [Sample.filing8K] Pack.start tt = (Some st, tt))
    by (vm_compute; eexists; reflexivity).
  destruct E as [st E]. exists st. split; [exact E|].
  exact (proj1 (deep_run_lifts_caps_and_filter Dec.parseFloat unit Sample.download
                  Scenarios.capsDeep "0000000001" _ _ _ _ eq_refl E)).
Defined.

Lemma run_ledger_consistent_witness :
  exists st,
    Pack.processFilings Dec.parseFloat unit Sample.download Sample.caps1MiB
      "0000000001" [Sample.filing8K] Pack.start tt = (Some st, tt) /\
    Pack.exhibitsBytesUsed st = Ledger.exhibitBytes (Pack.archive st).
Proof.
  assert (E : exists st,
             Pack.processFilings Dec.parseFloat unit Sample.download Sample.caps1MiB
               "0000000001" [Sample.filing8K] Pack.start tt = (Some st, tt))
    by (vm_compute; eexists; reflexivity).
  destruct E as [st E]. exists st. split; [exact E|].
  exact (proj1 (run_ledger_consistent Dec.parseFloat unit Sample.download
                  Sample.caps1MiB "0000000001" _ _ _ _ E)).
Defined.

Lemma exhibits_disabled_downloads_nothing_witness :
  exists st,
    Pack.processFilings Dec.parseFloat unit Sample.download Scenarios.capsNoExhibits
      "0000000001" [Sample.filing8K] Pack.start tt = (Some st, tt) /\
    Pack.exhibitsBytesUsed st = 0%Z /\ Pack.downloadedExhibits st = [].
Proof.
  assert (E : exists st,
             Pack.processFilings Dec.parseFloat unit Sample.download
               Scenarios.capsNoExhibits
               "0000000001" [Sample.filing8K] Pack.start tt = (Some st, tt))
    by (vm_compute; eexists; reflexivity).
  destruct E as [st E]. exists st. split; [exact E|].
  pose proof (exhibits_disabled_downloads_nothing Dec.parseFloat unit Sample.download
                Scenarios.capsNoExhibits "0000000001" _ _ _ _ eq_refl E) as H.
  split; [exact (proj1 H) | exact (proj1 (proj2 H))].
Defined.

Lemma per_filing_cap_respected_witness :
  exists st rows,
    Pack.processFiling Dec.parseFloat unit Sample.download Sample.caps1MiB
      "0000000001" Sample.filing8K Pack.start tt = (Some st, tt) /\
    Pack.inventoryRows st = (Pack.inventoryRows Pack.start ++ rows)%list /\
    (Z.of_nat (List.length (List.filter Ledger.isDownloadedRow rows)) <= 25)%Z.
Proof.
  assert (E : exists st,
             Pack.processFiling Dec.parseFloat unit Sample.download Sample.caps1MiB
               "0000000001" Sample.filing8K Pack.start tt = (Some st, tt))
    by (vm_compute; eexists; reflexivity).
  destruct E as [st E]. exists st.
  assert (Hm : (0 <= 25)%Z) by lia.
  destruct (per_filing_cap_respected Dec.parseFloat unit Sample.download Sample.caps1MiB
              "0000000001" _ _ _ _ _ 25%Z eq_refl eq_refl Hm E) as (rows & H1 & H2).
  exists rows. split; [exact E|]. split; [exact H1 | exact H2].
Defined.

Lemma run_abandoned_iff_main_document_fails_witness :
  Pack.processFilings Dec.parseFloat unit Scenarios.offline Sample.caps1MiB
    "0000000001" [Sample.filing8K] Pack.start tt = (None, tt).
Proof.
  apply (proj2 (run_abandoned_iff_main_document_fails Dec.parseFloat unit
                  Scenarios.offline Sample.caps1MiB "0000000001"
                  [Sample.filing8K] Pack.start tt tt)).
  exists [], Sample.filing8K, [], Pack.start, tt. repeat split.
Defined.

(** ** The form of the home page and the query of the route *)

Lemma buildUrl_lookups (st : HomePage.State) (qs : gmap string string) :
  HomePage.buildUrl st = Some qs ->
  Str.toUpperCase (Str.trim (HomePage.ticker st)) <> "" /\
  qs !! "ticker" = Some (Str.toUpperCase (Str.trim (HomePage.ticker st))) /\
  qs !! "daysBack" = Some (Str.ofZ (HomePage.daysBack st)) /\
  qs !! "maxEx" = Some (Str.ofZ (HomePage.maxEx st)) /\
  qs !! "maxMb" = Some (Str.ofZ (HomePage.maxMb st)) /\
  qs !! "exhibits" = Some (HomePage.flag (HomePage.includeExhibits st)) /\
  qs !! "deep" = Some (HomePage.flag (HomePage.deepPull st)) /\
  qs !! "all" = Some (HomePage.flag (HomePage.allFilings st)) /\
  qs !! "asOf" = (if Str.truthy (HomePage.asOf st) then Some (HomePage.asOf st) else None).
Proof.
  unfold HomePage.buildUrl.
  destruct (Str.truthy (Str.toUpperCase (Str.trim (HomePage.ticker st)))) eqn:Et;
    cbn [negb]; [|discriminate].
  intros [= <-]. split; [apply truthy_true; exact Et|].
  destruct (Str.truthy (HomePage.asOf st)); repeat split; simplify_map_eq; reflexivity.
Qed.

Lemma parseBool_flag (b fallback : bool) :
  Pack.parseBool (Some (HomePage.flag b)) fallback = b.
Proof. destruct b; reflexivity. Qed.

Lemma ofZ_truthy (n : Z) : 0 <= n -> Str.truthy (Str.ofZ n) = true.
Proof.
  intros Hn. destruct (ofZ_starts_with_digit n Hn) as (c & s & k & -> & _). reflexivity.
Qed.

Section FormFacts.

Variable Number : string -> JsNum.number.

(** X22. A request built by the form of the home page from whole
    numbers within the ranges of the route is accepted by the route, which
    reads back the ticker, the three numbers and the three switches as the
    form holds them, and the reference date when one is set. *)
Theorem form_request_accepted (st : HomePage.State) (qs : gmap string string)
    (env : option string) :
  HomePage.buildUrl st = Some qs ->
  Number (Str.ofZ (HomePage.daysBack st)) = JsNum.ofZ (HomePage.daysBack st) ->
  Number (Str.ofZ (HomePage.maxEx st)) = JsNum.ofZ (HomePage.maxEx st) ->
  Number (Str.ofZ (HomePage.maxMb st)) = JsNum.ofZ (HomePage.maxMb st) ->
  30 <= HomePage.daysBack st <= 730 ->
  1 <= HomePage.maxEx st <= 100 ->
  5 <= HomePage.maxMb st <= 500 ->
  Str.truthy (default "" env) = true ->
  exists p,
    Pack.GET_query Number qs env = inr p /\
    Pack.ticker p = Str.toUpperCase (Str.trim (HomePage.ticker st)) /\
    Pack.daysBack p = JsNum.ofZ (HomePage.daysBack st) /\
    Pack.maxEx p = JsNum.ofZ (HomePage.maxEx st) /\
    Pack.maxMb p = JsNum.ofZ (HomePage.maxMb st) /\
    Pack.includeExhibits p = HomePage.includeExhibits st /\
    Pack.deep p = HomePage.deepPull st /\
    Pack.all p = HomePage.allFilings st /\
    Pack.asOf p
    = (if Str.truthy (HomePage.asOf st) then Some (HomePage.asOf st) else None).
Proof.
  intros Hb N1 N2 N3 R1 R2 R3 He.
  destruct (buildUrl_lookups st qs Hb) as (Ht & L1 & L2 & L3 & L4 & L5 & L6 & L7 & L8).
  unfold Pack.GET_query. rewrite L1, L2, L3, L4, L5, L6, L7, L8.
  cbn [default from_option id].
  assert (Hidem : Str.toUpperCase (Str.trim (Str.toUpperCase (Str.trim (HomePage.ticker st))))
                  = Str.toUpperCase (Str.trim (HomePage.ticker st))).
  { rewrite !(toUpperCase_trim (HomePage.ticker st)), trim_idem.
    rewrite toUpperCase_trim, toUpperCase_idem. reflexivity. }
  rewrite Hidem. apply truthy_true in Ht. rewrite Ht. cbn [negb].
  unfold Pack.numberOr.
  rewrite !ofZ_truthy by lia. rewrite N1, N2, N3.
  rewrite !outOfRange_ofZ.
  replace ((30 <=? HomePage.daysBack st) && (HomePage.daysBack st <=? 730))%Z with true
    by (symmetry; apply andb_true_iff; split; apply Z.leb_le; lia).
  replace ((1 <=? HomePage.maxEx st) && (HomePage.maxEx st <=? 100))%Z with true
    by (symmetry; apply andb_true_iff; split; apply Z.leb_le; lia).
  replace ((5 <=? HomePage.maxMb st) && (HomePage.maxMb st <=? 500))%Z with true
    by (symmetry; apply andb_true_iff; split; apply Z.leb_le; lia).
  cbn [negb JsNum.isNaN JsNum.ofZ]. rewrite He. cbn [negb].
  rewrite !parseBool_flag.
  eexists. split; [reflexivity|]. cbn. repeat split.
Qed.

End FormFacts.

(** ** Names of archive entries *)

Lemma allChars_app (p : ascii -> bool) (a b : string) :
  allChars p (a ++ b) = allChars p a && allChars p b.
Proof.
  induction a as [|c a IH]; simpl; [reflexivity|]. rewrite IH. apply andb_assoc.
Qed.

Lemma replaceAll_unsafe_safe (s : string) :
  forall skip, allChars Pack.isSafeNameChar (Rx.replaceAll Pack.unsafeRun "_" skip s) = true.
Proof.
  induction s as [|c r IH]; intros skip; cbn [Rx.replaceAll]; [reflexivity|].
  destruct skip as [|k]; [|apply IH].
  unfold Pack.unsafeRun at 1. cbn [Rx.spanLen].
  destruct (Pack.isSafeNameChar c) eqn:Ec; cbn [negb Nat.leb].
  - cbn [allChars]. rewrite Ec, IH. reflexivity.
  - rewrite allChars_app, IH. reflexivity.
Qed.

Lemma replaceAll_safe_id (s : string) :
  allChars Pack.isSafeNameChar s = true -> Rx.replaceAll Pack.unsafeRun "_" 0 s = s.
Proof.
  induction s as [|c r IH]; cbn [allChars Rx.replaceAll]; [reflexivity|].
  intros H. apply andb_true_iff in H. destruct H as [Hc Hr].
  unfold Pack.unsafeRun at 1. cbn [Rx.spanLen]. rewrite Hc. cbn [negb Nat.leb].
  rewrite (IH Hr). reflexivity.
Qed.

(** X23. [safeName] yields only letters, digits, dots, underscores and
    hyphens; it leaves a name made of such characters as it is, and so
    applying it twice changes nothing more. *)
Theorem safeName_safe_and_idempotent (s : string) :
  allChars Pack.isSafeNameChar (Pack.safeName s) = true /\
  (allChars Pack.isSafeNameChar s = true -> Pack.safeName s = s) /\
  Pack.safeName (Pack.safeName s) = Pack.safeName s.
Proof.
  unfold Pack.safeName. split; [apply replaceAll_unsafe_safe|].
  split; [apply replaceAll_safe_id|].
  apply replaceAll_safe_id, replaceAll_unsafe_safe.
Qed.

(** ** File names of the catalogue *)

Lemma lastSegment_chars (p : ascii -> bool) (s : string) :
  forall acc,
    allChars p acc = true -> allChars p s = true -> allChars p (lastSegment acc s) = true.
Proof.
  induction s as [|c r IH]; intros acc Ha Hs; cbn [lastSegment]; [exact Ha|].
  cbn [allChars] in Hs. apply andb_true_iff in Hs. destruct Hs as [Hc Hr].
  destruct (Ascii.eqb c "/"%char); apply IH; try assumption; [reflexivity|].
  rewrite allChars_app, Ha. cbn [allChars]. rewrite Hc. reflexivity.
Qed.

Lemma lastSegment_no_slash (s : string) :
  forall acc,
    allChars (Rx.notChar "/"%char) acc = true ->
    allChars (Rx.notChar "/"%char) (lastSegment acc s) = true.
Proof.
  induction s as [|c r IH]; intros acc Ha; cbn [lastSegment]; [exact Ha|].
  destruct (Ascii.eqb c "/"%char) eqn:Ec; apply IH; [reflexivity|].
  rewrite allChars_app, Ha. cbn [allChars]. unfold Rx.notChar at 1. rewrite Ec. reflexivity.
Qed.

Lemma take_span_chars (p : ascii -> bool) (s : string) :
  allChars p (Rx.take (Rx.spanLen p s) s) = true.
Proof.
  unfold Rx.take. induction s as [|c r IH]; cbn [Rx.spanLen]; [reflexivity|].
  destruct (p c) eqn:Ec; [|reflexivity].
  cbn [String.substring allChars]. rewrite Ec. exact IH.
Qed.

Lemma href_chars (s h : string) :
  Rx.href s = Some h -> allChars (Rx.notChar Rx.quote) h = true.
Proof.
  unfold Rx.href. destruct (Rx.prefixCI _ s); [|discriminate].
  destruct (Nat.leb 1 _); [|discriminate].
  destruct (Rx.drop _ _); [discriminate|].
  intros [= <-]. apply take_span_chars.
Qed.

Lemma search_some {A} (m : string -> option A) (s : string) (x : A) :
  Rx.search m s = Some x -> exists t, m t = Some x.
Proof.
  induction s as [|c r IH]; cbn [Rx.search].
  - destruct (m "") eqn:E; [intros [= <-]; eauto | discriminate].
  - destruct (m (String c r)) eqn:E; [intros [= <-]; eauto | exact IH].
Qed.

(** X24. The file name of a catalogued document holds neither a slash
    nor a double quote: it is the part of the link after its last slash,
    so the address formed from it stays inside the folder of the
    filing. *)
Theorem catalogued_filename_is_last_segment (indexHtml : string) (x : ExhibitDoc) :
  In x (getDocsFromIndexHtml indexHtml) ->
  allChars (Rx.notChar "/"%char) (filename x) = true /\
  allChars (Rx.notChar Rx.quote) (filename x) = true.
Proof.
  unfold getDocsFromIndexHtml. rewrite in_collectDocs.
  intros [row [_ H]]. apply docOfRow_spec in H.
  destruct H as (_ & _ & _ & _ & ->). cbn [filename]. unfold rowFilename. split.
  - apply lastSegment_no_slash. reflexivity.
  - apply lastSegment_chars; [reflexivity|].
    destruct (Rx.search Rx.href row) as [h|] eqn:E; [|reflexivity].
    apply search_some in E. destruct E as [t E]. exact (href_chars _ _ E).
Qed.

(** ** The report on the filings *)

Abbreviation accOf x := (accessionNumber (filing x)).

Lemma selectedReasons_other (l : list SelectedFiling) (k : string) :
  forall m : gmap string string,
    (forall x, In x l -> accOf x <> k) ->
    fold_left (fun m x => <[accOf x := reason x]> m) l m !! k = m !! k.
Proof.
  induction l as [|y l IH]; intros m H; cbn [fold_left]; [reflexivity|].
  rewrite IH by (intros x Hx; apply H; right; exact Hx).
  apply lookup_insert_ne. apply H. left. reflexivity.
Qed.

Lemma selectedReasons_unique (l : list SelectedFiling) (x : SelectedFiling) :
  forall m : gmap string string,
    NoDup (List.map (fun y => accOf y) l) ->
    In x l ->
    fold_left (fun m x => <[accOf x := reason x]> m) l m !! accOf x = Some (reason x).
Proof.
  induction l as [|y l IH]; intros m Hn Hx; [destruct Hx|].
  cbn [List.map] in Hn. inversion Hn as [|? ? Hy Hn']; subst. cbn [fold_left].
  destruct Hx as [->|Hx]; [|apply IH; assumption].
  rewrite selectedReasons_other; [apply lookup_insert_eq|].
  intros z Hz E. apply Hy. rewrite <- E. apply in_map_iff. exists z. tauto.
Qed.

Section ReportFacts.

Variable Date_parse : string -> JsDate.t.
Variable now : Z.

(** X25. In the report on the filings, a filing whose accession number
    is that of a selected filing is marked SELECTED with the reason under
    which that filing was selected, and a filing whose accession number is
    that of no selected filing is marked NOT_SELECTED with an empty
    reason. *)
Theorem filings_report_marks_selection filings daysBack asOf (cik10 : string) (f : Filing) :
  let pick := pickFilingsPackWithReasons Date_parse now filings daysBack asOf in
  let row status why :=
    [ CStr (filingDate f); CStr (form f); CStr (accessionNumber f);
      CStr (primaryDocument f); CStr status; CStr why; CStr (filingIndexUrl cik10 f) ] in
  (forall x, In x pick -> accOf x = accessionNumber f ->
             Reports.filingsReportRow cik10 (Reports.selectedReasons pick) f
             = row "SELECTED" (reason x)) /\
  ((forall x, In x pick -> accOf x <> accessionNumber f) ->
   Reports.filingsReportRow cik10 (Reports.selectedReasons pick) f
   = row "NOT_SELECTED" "").
Proof.
  intros pick row. unfold Reports.filingsReportRow, Reports.selectedReasons. split.
  - intros x Hx E.
    pose proof (selectedReasons_unique pick x ∅ (dedup_NoDup _ _) Hx) as L.
    rewrite E in L. rewrite L. reflexivity.
  - intros H. rewrite (selectedReasons_other pick _ ∅ H), lookup_empty. reflexivity.
Qed.

End ReportFacts.

(** ** The count of the selected forms *)

Lemma formCounts_fold (l : list Filing) (k : string) :
  forall acc : gmap string Z,
    fold_left (fun acc f =>
                 let ft := Str.toUpperCase (form f) in
                 <[ft := (default 0 (acc !! ft) + 1)%Z]> acc) l acc !! k
    = (if Nat.eqb (countForm k l) 0 then acc !! k
       else Some (default 0 (acc !! k) + Z.of_nat (countForm k l))%Z).
Proof.
  unfold countForm. induction l as [|f l IH]; intros acc; cbn [fold_left]; [reflexivity|].
  rewrite IH. cbn [List.filter].
  destruct (String.eqb_spec (Str.toUpperCase (form f)) k) as [E|NE].
  - rewrite E, lookup_insert_eq. cbn [List.length default from_option id].
    destruct (List.length _) as [|n]; cbn [Nat.eqb]; f_equal; lia.
  - rewrite lookup_insert_ne by exact NE. reflexivity.
Qed.

(** X26. The count kept for a key in the manifest is the number of
    selected filings whose form, upper-cased, is that key; a key that no
    selected filing has is absent. *)
Theorem formCounts_counts (selected : list Filing) (k : string) :
  Reports.formCounts selected !! k
  = (if Nat.eqb (countForm k selected) 0 then None
     else Some (Z.of_nat (countForm k selected))).
Proof.
  unfold Reports.formCounts. rewrite formCounts_fold, lookup_empty.
  destruct (countForm k selected); reflexivity.
Qed.

(** ** Classes of exhibits *)

Lemma prefixCI_upper (p u : string) :
  Rx.prefixCI p u = true -> exists r, Str.toUpperCase u = Str.toUpperCase p ++ r.
Proof.
  revert u. induction p as [|a p IH]; intros u; cbn [Rx.prefixCI].
  - intros _. exists (Str.toUpperCase u). reflexivity.
  - destruct u as [|b u]; [discriminate|].
    intros H. apply andb_true_iff in H. destruct H as [Hc Hp].
    apply Ascii.eqb_eq in Hc. destruct (IH u Hp) as [r Er].
    exists r. cbn [Str.toUpperCase append]. rewrite Er, Hc. reflexivity.
Qed.

Lemma exhibitPrefix_junk (u : string) :
  Rx.exhibitPrefix ["101"; "104"] u = true ->
  exists r, Str.toUpperCase u = "EX-101" ++ r \/ Str.toUpperCase u = "EX-104" ++ r.
Proof.
  unfold Rx.exhibitPrefix. cbn [existsb]. rewrite orb_false_r.
  intros H. apply orb_true_iff in H.
  destruct H as [H|H]; apply andb_true_iff in H; destruct H as [H _];
    apply prefixCI_upper in H; destruct H as [r H]; exists r; [left | right]; exact H.
Qed.

(** X27. No exhibit type is both junk and high-signal: a type that the
    junk filter recognises (EX-101, EX-104) is never taken for a
    high-signal one (EX-10, EX-1). *)
Theorem junk_type_not_high_signal (type : string) :
  isJunkType type = true -> isHighSignalExhibitType type = false.
Proof.
  unfold isJunkType, isHighSignalExhibitType. intros H.
  apply exhibitPrefix_junk in H. destruct H as [r [E|E]]; rewrite E; reflexivity.
Qed.

Section ScoringFacts.

Variable parseFloat : string -> JsNum.number.

Lemma mul_1024_not_NaN (x : JsNum.number) :
  JsNum.isNaN x = false -> JsNum.isNaN (JsNum.mul x (JsNum.ofZ 1024)) = false.
Proof. destruct x; [discriminate | reflexivity..]. Qed.

(** X28. [parseSize] never yields NaN, whatever [parseFloat] reads: a
    size text that is empty or does not start with a number counts as
    zero. *)
Theorem parseSize_never_NaN (sizeText : string) :
  JsNum.isNaN (parseSize parseFloat sizeText) = false /\
  (sizeText = "" -> parseSize parseFloat sizeText = JsNum.ofZ 0) /\
  (JsNum.isNaN
     (parseFloat (Str.replaceChar ","%char "" (Str.toUpperCase (Str.trim sizeText)))) = true ->
   parseSize parseFloat sizeText = JsNum.ofZ 0).
Proof.
  unfold parseSize. split; [|split].
  - destruct (negb (Str.truthy sizeText)); [reflexivity|].
    destruct (JsNum.isNaN (parseFloat _)) eqn:En; [reflexivity|].
    destruct (Str.includes "MB" _); [apply mul_1024_not_NaN, mul_1024_not_NaN, En|].
    destruct (Str.includes "KB" _); [apply mul_1024_not_NaN, En | exact En].
  - intros ->. reflexivity.
  - intros ->. destruct (negb (Str.truthy sizeText)); reflexivity.
Qed.

(** ** The order in which the exhibits of a filing are processed *)

Abbreviation higher := (fun a b : Pack.Scored => (Pack.score b <= Pack.score a)%Z).

Lemma compareScored_gt (x y : Pack.Scored) :
  JsNum.gt (Pack.compareScored x y) (JsNum.ofZ 0) = true ->
  (Pack.score x <= Pack.score y)%Z.
Proof.
  unfold Pack.compareScored. destruct (Z.eqb_spec (Pack.score y) (Pack.score x)) as [E|NE].
  - intros _. lia.
  - cbn [negb]. unfold JsNum.gt, JsNum.lt, JsNum.ofZ, Qle_bool, inject_Z. cbn [Qnum Qden].
    rewrite !Z.mul_1_r. intros H. apply negb_true_iff, Z.leb_gt in H. lia.
Qed.

Lemma compareScored_not_gt (x y : Pack.Scored) :
  JsNum.gt (Pack.compareScored x y) (JsNum.ofZ 0) = false ->
  (Pack.score y <= Pack.score x)%Z.
Proof.
  unfold Pack.compareScored. destruct (Z.eqb_spec (Pack.score y) (Pack.score x)) as [E|NE].
  - intros _. lia.
  - cbn [negb]. unfold JsNum.gt, JsNum.lt, JsNum.ofZ, Qle_bool, inject_Z. cbn [Qnum Qden].
    rewrite !Z.mul_1_r. intros H. apply negb_false_iff, Z.leb_le in H. lia.
Qed.

Lemma insertScored_ordered (x : Pack.Scored) (l : list Pack.Scored) :
  ForallOrdPairs higher l -> ForallOrdPairs higher (Pack.insertScored x l).
Proof.
  induction 1 as [|y r Hy Hr IH]; cbn [Pack.insertScored].
  - constructor; constructor.
  - destruct (JsNum.gt (Pack.compareScored x y) (JsNum.ofZ 0)) eqn:E.
    + apply compareScored_gt in E. constructor; [|exact IH].
      apply Forall_forall. intros z Hz.
      apply (Permutation_in _ (insertScored_perm x r)) in Hz.
      destruct Hz as [<-|Hz]; [exact E|].
      rewrite Forall_forall in Hy. apply Hy. exact Hz.
    + apply compareScored_not_gt in E. constructor; [|constructor; assumption].
      constructor; [exact E|].
      eapply Forall_impl; [|exact Hy]. intros z Hz. cbv beta in Hz |- *. lia.
Qed.

Lemma sortScored_ordered (l : list Pack.Scored) :
  ForallOrdPairs higher (Pack.sortScored l).
Proof.
  unfold Pack.sortScored. induction l as [|x l IH]; cbn [fold_right]; [constructor|].
  apply insertScored_ordered. exact IH.
Qed.

Lemma sortScored_perm (l : list Pack.Scored) : Permutation l (Pack.sortScored l).
Proof.
  unfold Pack.sortScored. induction l as [|x l IH]; cbn [fold_right]; [constructor|].
  rewrite insertScored_perm. constructor. exact IH.
Qed.

Lemma ordered_suffix {A} (R : A -> A -> Prop) (pre l : list A) :
  ForallOrdPairs R (pre ++ l)%list -> ForallOrdPairs R l.
Proof.
  induction pre as [|x pre IH]; cbn [app]; [tauto|].
  intros H. inversion H; subst. apply IH. assumption.
Qed.

(** X29. The exhibits of a filing are processed by descending class
    (high-signal, then neither, then junk): a document is never
    processed before one of a higher class, so the caps are spent on the
    high-signal documents first. *)
Theorem exhibits_processed_by_descending_class (docs pre mid post : list ExhibitDoc)
    (a b : ExhibitDoc) :
  Pack.scored parseFloat docs = (pre ++ a :: mid ++ b :: post)%list ->
  (Pack.score (Pack.scoreOf parseFloat b) <= Pack.score (Pack.scoreOf parseFloat a))%Z.
Proof.
  unfold Pack.scored. intros E.
  apply map_eq_app in E. destruct E as (pre' & l1 & E & _ & E1).
  apply map_eq_cons in E1. destruct E1 as (a' & l2 & -> & Ea & E2).
  apply map_eq_app in E2. destruct E2 as (mid' & l3 & -> & _ & E3).
  apply map_eq_cons in E3. destruct E3 as (b' & post' & -> & Eb & _).
  pose proof (sortScored_ordered (List.map (Pack.scoreOf parseFloat) docs)) as Ho.
  rewrite E in Ho. apply ordered_suffix in Ho. inversion Ho as [|? ? Hall _]; subst.
  rewrite Forall_forall in Hall.
  assert (Hb : (Pack.score b' <= Pack.score a')%Z)
    by (apply Hall, in_or_app; right; left; reflexivity).
  assert (Hs : forall s, In s (Pack.sortScored (List.map (Pack.scoreOf parseFloat) docs)) ->
                         s = Pack.scoreOf parseFloat (Pack.d s)).
  { intros s Hs. apply (Permutation_in _ (Permutation_sym (sortScored_perm _))) in Hs.
    apply in_map_iff in Hs. destruct Hs as (x & <- & _). reflexivity. }
  rewrite <- (Hs a'), <- (Hs b'); [exact Hb | |]; rewrite E.
  - apply in_or_app. right. right. apply in_or_app. right. left. reflexivity.
  - apply in_or_app. right. left. reflexivity.
Qed.

End ScoringFacts.

Lemma form_request_accepted_witness :
  exists qs p,
    HomePage.buildUrl formDefaults = Some qs /\
    Pack.GET_query Dec.Number qs Sample.agent = inr p /\
    Pack.daysBack p = JsNum.ofZ 365 /\ Pack.deep p = false.
Proof.
  assert (E : exists qs, HomePage.buildUrl formDefaults = Some qs)
    by (vm_compute; eexists; reflexivity).
  destruct E as [qs E]. exists qs.
  assert (N1 : Dec.Number (Str.ofZ (HomePage.daysBack formDefaults))
               = JsNum.ofZ (HomePage.daysBack formDefaults)) by (vm_compute; reflexivity).
  assert (N2 : Dec.Number (Str.ofZ (HomePage.maxEx formDefaults))
               = JsNum.ofZ (HomePage.maxEx formDefaults)) by (vm_compute; reflexivity).
  assert (N3 : Dec.Number (Str.ofZ (HomePage.maxMb formDefaults))
               = JsNum.ofZ (HomePage.maxMb formDefaults)) by (vm_compute; reflexivity).
  assert (R1 : 30 <= HomePage.daysBack formDefaults <= 730) by (simpl; lia).
  assert (R2 : 1 <= HomePage.maxEx formDefaults <= 100) by (simpl; lia).
  assert (R3 : 5 <= HomePage.maxMb formDefaults <= 500) by (simpl; lia).
  destruct (form_request_accepted Dec.Number formDefaults qs Sample.agent
              E N1 N2 N3 R1 R2 R3 eq_refl)
    as (p & Hp & _ & Hd & _ & _ & _ & Hdeep & _).
  exists p. split; [exact E|]. split; [exact Hp|]. split; [exact Hd | exact Hdeep].
Defined.

Lemma catalogued_filename_is_last_segment_witness :
  allChars (Rx.notChar "/"%char) (filename Sample.pressRelease) = true /\
  allChars (Rx.notChar Rx.quote) (filename Sample.pressRelease) = true.
Proof.
  apply (catalogued_filename_is_last_segment Sample.indexPage Sample.pressRelease).
  vm_compute. right. left. reflexivity.
Defined.

Lemma filings_report_marks_selection_witness :
  Reports.filingsReportRow "0000000001"
    (Reports.selectedReasons
       (pickFilingsPackWithReasons IsoDate.parse 0 Sample.history1 365 (Some "2024-01-01")))
    (mkFiling "10-K" "0000-23-000001" "2023-01-01" "k.htm")
  = [ CStr "2023-01-01"; CStr "10-K"; CStr "0000-23-000001"; CStr "k.htm";
      CStr "SELECTED"; CStr "latest 10-K";
      CStr (filingIndexUrl "0000000001"
              (mkFiling "10-K" "0000-23-000001" "2023-01-01" "k.htm")) ].
Proof.
  apply (proj1 (filings_report_marks_selection IsoDate.parse 0 Sample.history1 365
                  (Some "2024-01-01") "0000000001"
                  (mkFiling "10-K" "0000-23-000001" "2023-01-01" "k.htm"))
               (mkSelected (mkFiling "10-K" "0000-23-000001" "2023-01-01" "k.htm")
                           "latest 10-K")).
  - vm_compute. left. reflexivity.
  - reflexivity.
Defined.

Lemma junk_type_not_high_signal_witness :
  isHighSignalExhibitType "EX-101.INS" = false.
Proof. apply (junk_type_not_high_signal "EX-101.INS"). reflexivity. Defined.

Lemma exhibits_processed_by_descending_class_witness :
  (Pack.score (Pack.scoreOf Dec.parseFloat
                 (mkExhibitDoc "1" "XBRL INSTANCE" "EX-101.INS" "x.xml" "500 KB"))
   <= Pack.score (Pack.scoreOf Dec.parseFloat
                    (mkExhibitDoc "2" "AGREEMENT" "EX-10.1" "ex101.htm" "50 KB")))%Z.
Proof.
  apply (exhibits_processed_by_descending_class Dec.parseFloat Sample.exhibits3
           [] [Sample.pressRelease] []).
  vm_compute. reflexivity.
Defined.

(** ** The size of the selection *)

Lemma dedup_filter_le (p : SelectedFiling -> bool) (sel : list SelectedFiling) :
  forall seen,
    (List.length (List.filter p (dedupByAccession seen sel))
     <= List.length (List.filter p sel))%nat.
Proof.
  induction sel as [|x sel IH]; intros seen; cbn [dedupByAccession List.filter]; [lia|].
  destruct (decide (accessionNumber (filing x) ∈ seen)).
  - specialize (IH seen). destruct (p x); cbn [List.length]; lia.
  - cbn [List.filter]. specialize (IH ({[accessionNumber (filing x)]} ∪ seen)).
    destruct (p x); cbn [List.length]; lia.
Qed.

Lemma filter_excluded (t q : string -> bool) (piece : list Filing) :
  (forall b, In b piece -> t (form b) = true) ->
  (forall fm, t fm = true -> q fm = false) ->
  List.filter (fun f => q (form f)) piece = [].
Proof.
  intros Ht Hq. induction piece as [|b piece IH]; cbn [List.filter]; [reflexivity|].
  rewrite (Hq (form b)) by (apply Ht; left; reflexivity).
  apply IH. intros c Hc. apply Ht. right. exact Hc.
Qed.

Lemma rules_exclusive (i j : nat) (fm : string) :
  i <> j ->
  nth i ruleTests (fun _ => false) fm = true ->
  nth j ruleTests (fun _ => false) fm = false.
Proof.
  intros Hij Hi. pose proof (ruleTests_count fm) as C.
  rewrite length_filter_sum in C. unfold ruleTests in *. cbn [fold_right] in C.
  do 10 (destruct i as [|i]; [
    do 10 (destruct j as [|j]; [try congruence; cbn [nth] in Hi |- *; rewrite Hi in C;
                                match goal with
                                | |- ?b = false => destruct b; [cbn in C; lia | reflexivity]
                                end |]);
    destruct j; reflexivity |]).
  destruct i; discriminate.
Qed.

Section SelectionSize.

Variable Date_parse : string -> JsDate.t.
Variable now : Z.

Abbreviation countOf q l := (List.length (List.filter (fun f : Filing => q (form f)) l)).

Lemma count_pick_le (q : string -> bool) filings daysBack asOf :
  (countOf q (pickFilingsPack Date_parse now filings daysBack asOf)
   <= countOf q (List.map filing (candidates Date_parse now filings daysBack asOf)))%nat.
Proof.
  unfold pickFilingsPack, pickFilingsPackWithReasons.
  assert (Hm : forall l : list SelectedFiling,
             countOf q (List.map filing l)
             = List.length (List.filter (fun x => q (form (filing x))) l)).
  { induction l as [|x l IH]; cbn [List.map List.filter]; [reflexivity|].
    destruct (q (form (filing x))); cbn [List.length]; rewrite IH; reflexivity. }
  rewrite !Hm. apply dedup_filter_le.
Qed.

Lemma candidates_pieces filings daysBack asOf :
  let el := eligible Date_parse now filings asOf in
  exists pieces,
    List.map filing (candidates Date_parse now filings daysBack asOf) = List.concat pieces /\
    Forall2 (fun p t => forall b, In b p -> t (form b) = true) pieces ruleTests /\
    (List.length (nth 0 pieces []) <= 1)%nat /\
    (List.length (nth 1 pieces []) <= 2)%nat /\
    (List.length (nth 3 pieces []) <= 1)%nat /\
    (List.length (nth 4 pieces []) <= 1)%nat /\
    (List.length (nth 5 pieces []) <= 1)%nat /\
    (List.length (nth 6 pieces []) <= 1)%nat /\
    (List.length (nth 7 pieces []) <= 1)%nat.
Proof.
  intros el. unfold candidates.
  rewrite !map_app, !map_filing_pushFound, map_filing_pushIndexed.
  rewrite !map_map. cbn [filing]. rewrite !map_id. fold el.
  match goal with
  | |- exists pieces, (?p1 ++ ?p2 ++ ?p3 ++ ?p4 ++ ?p5 ++ ?p6 ++ ?p7 ++ ?p8 ++ ?p9)%list = _ /\ _ =>
      exists [p1; p2; p3; p4; p5; p6; p7; p8; p9]
  end.
  assert (Hf : forall p : Filing -> bool,
             (forall b, In b (found (List.find p el)) -> p b = true) /\
             (List.length (found (List.find p el)) <= 1)%nat).
  { intros p. split; [apply found_tested|]. destruct (List.find p el); cbn; lia. }
  split; [cbn [List.concat]; rewrite app_nil_r; reflexivity|].
  split.
  - unfold ruleTests.
    constructor; [exact (proj1 (Hf (fun f => normForm (form f) =? "10-K")))|].
    constructor.
    { intros b Hb. apply in_firstn, filter_In in Hb. tauto. }
    constructor.
    { intros b Hb. unfold window8K in Hb. apply filter_In in Hb.
      destruct Hb as [_ Hb]. apply andb_true_iff in Hb. tauto. }
    constructor; [exact (proj1 (Hf (fun f => isS3 (form f))))|].
    constructor; [exact (proj1 (Hf (fun f => isProspectus (form f))))|].
    constructor; [exact (proj1 (Hf (fun f => normForm (form f) =? "EFFECT")))|].
    constructor; [exact (proj1 (Hf (fun f => isProxy (form f))))|].
    constructor; [exact (proj1 (Hf (fun f => normForm (form f) =? "S-8")))|].
    constructor; [|constructor].
    intros b Hb. apply filter_In in Hb.
    destruct Hb as [_ Hb]. apply andb_true_iff in Hb. tauto.
  - cbn [nth]. repeat split; try apply Hf. apply firstn_le_length.
Qed.

Lemma count_concat_rule (i : nat) (pieces : list (list Filing)) :
  forall (ts : list (string -> bool)) (k : nat),
    Forall2 (fun p t => forall b, In b p -> t (form b) = true) pieces ts ->
    (forall j fm, j <> i -> nth (j - k) ts (fun _ => false) fm = true -> (k <= j)%nat ->
                  nth i ruleTests (fun _ => false) fm = false) ->
    (countOf (nth i ruleTests (fun _ => false)) (List.concat pieces)
     <= List.length (nth (i - k) pieces []) * Nat.b2n (Nat.leb k i))%nat.
Proof.
  induction pieces as [|p pieces IH]; intros ts k H2 Hx.
  - cbn. lia.
  - inversion H2 as [|? t ? ts' Hp H2']; subst. cbn [List.concat].
    rewrite List.filter_app, length_app.
    specialize (IH ts' (S k) H2').
    assert (Hrest : forall j fm, j <> i ->
                      nth (j - S k) ts' (fun _ => false) fm = true -> (S k <= j)%nat ->
                      nth i ruleTests (fun _ => false) fm = false).
    { intros j fm Hj Hn Hk. apply (Hx j fm Hj); [|lia].
      replace (j - k)%nat with (S (j - S k)) by lia. exact Hn. }
    specialize (IH Hrest).
    destruct (Nat.eq_dec i k) as [->|Hik].
    + rewrite Nat.sub_diag, Nat.leb_refl. cbn [nth Nat.b2n].
      replace (Nat.leb (S k) k) with false in IH by (symmetry; apply Nat.leb_gt; lia).
      cbn [Nat.b2n] in IH. pose proof (List.filter_length_le
        (fun f => nth k ruleTests (fun _ => false) (form f)) p). lia.
    + rewrite (filter_excluded t (nth i ruleTests (fun _ => false)) p Hp).
      2:{ intros fm Hfm. apply (Hx k fm); [congruence| |lia].
          rewrite Nat.sub_diag. exact Hfm. }
      cbn [List.length Nat.add].
      destruct (Nat.leb_spec k i) as [Hle|Hgt].
      * replace (Nat.leb (S k) i) with true in IH by (symmetry; apply Nat.leb_le; lia).
        replace (i - k)%nat with (S (i - S k)) by lia. cbn [nth]. exact IH.
      * replace (Nat.leb (S k) i) with false in IH by (symmetry; apply Nat.leb_gt; lia).
        cbn [Nat.b2n] in IH |- *. lia.
Qed.

(** X30. The selection holds at most one annual report, two quarterly
    reports, and one filing for each of the rules that keep the latest of
    a kind (S-3, 424B, EFFECT, proxy statement, S-8); only the 8-K and
    Form 4 filings of the window are kept without a limit. *)
Theorem selection_size_per_rule filings daysBack asOf :
  let pick := pickFilingsPack Date_parse now filings daysBack asOf in
  (countOf (fun fm => (normForm fm =? "10-K")%string) pick <= 1)%nat /\
  (countOf (fun fm => (normForm fm =? "10-Q")%string) pick <= 2)%nat /\
  (countOf isS3 pick <= 1)%nat /\
  (countOf isProspectus pick <= 1)%nat /\
  (countOf (fun fm => (normForm fm =? "EFFECT")%string) pick <= 1)%nat /\
  (countOf isProxy pick <= 1)%nat /\
  (countOf (fun fm => (normForm fm =? "S-8")%string) pick <= 1)%nat.
Proof.
  intros pick.
  destruct (candidates_pieces filings daysBack asOf)
    as (pieces & Ec & H2 & L0 & L1 & L3 & L4 & L5 & L6 & L7).
  assert (B : forall i,
             (countOf (nth i ruleTests (fun _ => false)) pick
              <= List.length (nth i pieces []))%nat).
  { intros i. unfold pick.
    etransitivity; [apply count_pick_le|]. rewrite Ec.
    pose proof (count_concat_rule i pieces ruleTests 0 H2) as H.
    rewrite Nat.sub_0_r in H. cbn [Nat.leb Nat.b2n] in H. rewrite Nat.mul_1_r in H.
    apply H. intros j fm Hj Hn _. rewrite Nat.sub_0_r in Hn.
    exact (rules_exclusive j i fm Hj Hn). }
  pose proof (B 0%nat) as B0. pose proof (B 1%nat) as B1. pose proof (B 3%nat) as B3.
  pose proof (B 4%nat) as B4. pose proof (B 5%nat) as B5. pose proof (B 6%nat) as B6.
  pose proof (B 7%nat) as B7.
  unfold ruleTests in B0, B1, B3, B4, B5, B6, B7.
  cbn [nth] in B0, B1, B3, B4, B5, B6, B7.
  repeat split; lia.
Qed.

End SelectionSize.

Lemma ticker_cache_behaviour_witness :
  Client.getCikForTicker nat (Scripted.fetch [Scripted.page "{...}"]) Scripted.agent
    Registry.parse "aapl" 1000 (Client.mkCache None 0) 0%nat
  = (Client.lookupCik "aapl" Registry.tickers,
     [Client.Fetch "https://www.sec.gov/files/company_tickers.json"],
     Client.mkCache (Some Registry.tickers) 1000, 1%nat) /\
  Client.getCikForTicker nat (Scripted.fetch [Scripted.page "{...}"]) Scripted.agent
    Registry.parse "msft" 5000 (Client.mkCache (Some Registry.tickers) 1000) 1%nat
  = (Client.lookupCik "msft" Registry.tickers, [],
     Client.mkCache (Some Registry.tickers) 1000, 1%nat).
Proof.
  assert (Hs : Client.cachedTickers (Client.mkCache None 0) = None \/
               Client.CACHE_TTL_MS <= 1000 - Client.lastTickerFetch (Client.mkCache None 0))
    by (left; reflexivity).
  assert (Ef : Client.fetchWithRetry nat (Scripted.fetch [Scripted.page "{...}"])
                 Scripted.agent Client.tickersUrl 3 0%nat
               = (Client.Returned (Client.mkResponse 200 None "{...}"),
                  [Client.Fetch "https://www.sec.gov/files/company_tickers.json"], 1%nat))
    by (vm_compute; reflexivity).
  destruct (proj2 (proj2 (proj2 (proj2 (ticker_cache_behaviour nat
                      (Scripted.fetch [Scripted.page "{...}"]) Scripted.agent
                      Registry.parse "aapl" 1000 (Client.mkCache None 0) 0%nat) Hs)
                    _ _ _ Ef))
              eq_refl Registry.tickers eq_refl) as [H1 H2].
  split; [exact H1|]. apply (H2 "msft" 5000 1%nat). reflexivity.
Defined.
